(** * Call intake classification and appointment scheduling

    A shallow embedding of the intent classifier and pricing estimator
    ([HVACIntelligenceService]), the slot allocator ([AppointmentService])
    and the live call registry ([CallMonitorService]), followed by the
    properties established about them.

    Conventions of the embedding:
    - a JavaScript [Date] is its epoch value in milliseconds, a [Z]; local
      time is taken with a zero offset and no daylight-saving shifts, so a
      calendar day is a block of 86400000 ms and day 0 is a Thursday;
    - a JavaScript string is a [string] of 8-bit characters; [toLowerCase]
      maps the ASCII capitals and leaves every other character alone;
    - the numbers that occur (prices, multipliers 1.5 and 1.25) are dyadic
      rationals that IEEE doubles hold exactly, so they are computed in [Q];
    - every [new Date()] read inside one call sees the same instant [now];
    - an object literal is the finite map of its own keys on top of the
      standard [Object.prototype], whose twelve members every lookup by
      name inherits;
    - the external store answers every query (no rejected promise), and
      every asynchronous method runs to completion before the next one
      starts. *)

From Stdlib Require Import ZArith List String Ascii Bool Lia QArith Qround.
From Stdlib Require Import DecimalString Sorted.
Import ListNotations.

Open Scope string_scope.
Open Scope Z_scope.

(* ================================================================= *)
(** ** JavaScript string primitives *)

Module Js.

(** [s.includes(k)]: [k] occurs in [s] as a contiguous substring. *)
Fixpoint includes (s k : string) : bool :=
  if String.prefix k s then true
  else match s with
       | EmptyString => false
       | String _ s' => includes s' k
       end.

Definition lowerChar (c : ascii) : ascii :=
  let n := nat_of_ascii c in
  if ((65 <=? n)%nat && (n <=? 90)%nat)%bool then ascii_of_nat (n + 32) else c.

(** [s.toLowerCase()] on the ASCII range. *)
Fixpoint toLowerCase (s : string) : string :=
  match s with
  | EmptyString => EmptyString
  | String c s' => String (lowerChar c) (toLowerCase s')
  end.

(** The non-empty suffixes of [k], longest first. *)
Fixpoint tails (k : string) : list string :=
  match k with
  | EmptyString => []
  | String _ k' => k :: tails k'
  end.

(** No non-empty suffix of [k] starts [r]: an occurrence of [k] cannot
    end inside [r] when it starts before it. *)
Definition noStraddle (k r : string) : bool :=
  negb (existsb (fun v => String.prefix v r) (tails k)).

(** [keywords.some(k => s.includes(k))]. *)
Definition someIncluded (keywords : list string) (s : string) : bool :=
  existsb (fun keyword => includes s keyword) keywords.

(** [s.split(sep)] for a one-character separator: always at least one
    piece. *)
Fixpoint split (sep : ascii) (s : string) : list string :=
  match s with
  | EmptyString => [EmptyString]
  | String c s' =>
      if Ascii.eqb c sep then EmptyString :: split sep s'
      else match split sep s' with
           | [] => [String c EmptyString]
           | piece :: pieces => String c piece :: pieces
           end
  end.

(** [s.replace(a, b)] for one-character [a] and [b]: only the first
    occurrence is replaced. *)
Fixpoint replaceFirst (a b : ascii) (s : string) : string :=
  match s with
  | EmptyString => EmptyString
  | String c s' =>
      if Ascii.eqb c a then String b s' else String c (replaceFirst a b s')
  end.

Definition isDigit (c : ascii) : bool :=
  let n := nat_of_ascii c in ((48 <=? n)%nat && (n <=? 57)%nat)%bool.

Fixpoint digitsValue (acc : Z) (s : string) : option Z :=
  match s with
  | EmptyString => Some acc
  | String c s' =>
      if isDigit c
      then digitsValue (10 * acc + Z.of_nat (nat_of_ascii c - 48)) s'
      else None
  end.

(** [Number(s)] on the strings the embedding covers: the empty string is
    0 and a run of decimal digits is its value. [None] stands for [NaN]
    and for every numeral form left out (signs, blanks, exponents). *)
Definition Number (s : string) : option Z := digitsValue 0 s.

(** The own property [key] of an object literal, if it has one. *)
Fixpoint lookup {A : Type} (key : string) (table : list (string * A)) : option A :=
  match table with
  | [] => None
  | (k, v) :: rest => if String.eqb k key then Some v else lookup key rest
  end.

(** The names that every plain object inherits from [Object.prototype]:
    eleven functions and the accessor [__proto__], which answers the
    prototype object itself. *)
Definition objectPrototypeKeys : list string :=
  [ "constructor"; "__defineGetter__"; "__defineSetter__"; "hasOwnProperty";
    "__lookupGetter__"; "__lookupSetter__"; "isPrototypeOf";
    "propertyIsEnumerable"; "toString"; "valueOf"; "__proto__";
    "toLocaleString" ].

Definition inheritedKey (key : string) : bool :=
  existsb (String.eqb key) objectPrototypeKeys.

(** What [object[key]] finds: an own property, a member inherited from
    [Object.prototype] (a function or the prototype object: truthy, and
    not a number, a string or a table entry), or nothing ([undefined]). *)
Inductive Property (A : Type) : Type :=
| Own (value : A)
| Inherited
| Undefined.

Arguments Own {A} value.
Arguments Inherited {A}.
Arguments Undefined {A}.

(** [object[key]] on an object literal: own keys first, then the
    prototype. *)
Definition getProperty {A : Type} (key : string) (object : list (string * A)) : Property A :=
  match lookup key object with
  | Some value => Own value
  | None => if inheritedKey key then Inherited else Undefined
  end.

(** A property value as far as the services look at it: a string, or an
    object (a parsed JSON column, a [Date]). *)
Inductive Value : Type :=
| VString (s : string)
| VObject.

(** Truthiness of what [object[key]] finds. *)
Definition truthy (p : Property Value) : bool :=
  match p with
  | Own (VString s) => negb (String.eqb s "")
  | Own VObject => true
  | Inherited => true
  | Undefined => false
  end.

(** Template-literal rendering of an integer. *)
Definition showInt (z : Z) : string := NilEmpty.string_of_int (Z.to_int z).

(** Template-literal rendering of a number that is an integer or [NaN]
    ([None]). *)
Definition showNumber (n : option Z) : string :=
  match n with
  | Some z => showInt z
  | None => "NaN"
  end.

(** [Math.round] on a rational: nearest integer, halves upwards. *)
Definition Math_round (q : Q) : Z := Qfloor (q + (1 # 2)).

End Js.

(* ================================================================= *)
(** ** Dates *)

Module JsDate.

Definition msPerMinute : Z := 60000.
Definition msPerHour : Z := 3600000.
Definition msPerDay : Z := 86400000.

Definition dayIndex (t : Z) : Z := t / msPerDay.
Definition startOfDay (t : Z) : Z := dayIndex t * msPerDay.

(** [getDay()]: 0 is Sunday; the epoch day was a Thursday. *)
Definition getDay (t : Z) : Z := (dayIndex t + 4) mod 7.
Definition getHours (t : Z) : Z := (t mod msPerDay) / msPerHour.
Definition getMinutes (t : Z) : Z := (t mod msPerHour) / msPerMinute.

(** [setHours(h, m, s, ms)] keeps the calendar day. *)
Definition setHours (t h m s ms : Z) : Z :=
  startOfDay t + h * msPerHour + m * msPerMinute + s * 1000 + ms.

(** [setDate(getDate() + n)] keeps the time of day. *)
Definition addDays (t n : Z) : Z := t + n * msPerDay.

(** [setMinutes(getMinutes() + n)]. *)
Definition addMinutes (t n : Z) : Z := t + n * msPerMinute.

(** [setMinutes(0, 0, 0)] followed by [setHours(getHours() + 1)]. *)
Definition startOfHour (t : Z) : Z := (t / msPerHour) * msPerHour.

End JsDate.

(* ================================================================= *)
(** ** Intent classifier, pricing and business hours *)

Inductive CallType : Type :=
| CT_EMERGENCY
| CT_SERVICE_REQUEST
| CT_APPOINTMENT_BOOKING
| CT_GENERAL_INQUIRY
| CT_PRICE_ESTIMATE.

Module HVAC.

(** The [emergencyKeywords] table, category by category, in the order
    [Object.values] walks it. *)
Definition emergencyKeywords : list (string * list string) :=
  [ ("heating",
     [ "no heat"; "heat not working"; "furnace not working"; "boiler not working";
       "heat pump not working"; "cold house"; "freezing"; "furnace making noise";
       "gas smell"; "carbon monoxide"; "furnace won't start"; "pilot light out";
       "heater broken"; "no hot air"; "thermostat not working" ]);
    ("cooling",
     [ "no ac"; "air conditioning not working"; "ac not working"; "no cold air";
       "air conditioner broken"; "ac unit not working"; "hot house"; "overheating";
       "ac making noise"; "ac leaking water"; "compressor not working"; "fan not working";
       "ac won't start"; "condenser not working" ]);
    ("plumbing",
     [ "water leak"; "flooding"; "pipe burst"; "water damage"; "water everywhere";
       "basement flooding"; "pipe leaking"; "water heater leaking"; "sewage backup";
       "toilet overflowing"; "drain backing up" ]);
    ("electrical",
     [ "electrical smell"; "burning smell"; "sparks"; "electrical fire"; "power out";
       "breaker tripping"; "electrical emergency"; "wires sparking"; "outlet smoking";
       "electrical shock" ]);
    ("general",
     [ "emergency"; "urgent"; "asap"; "right now"; "immediately"; "help";
       "broken"; "not working"; "stopped working"; "emergency service" ]) ].

Definition detectEmergency (transcript : string) : bool :=
  let lowerTranscript := Js.toLowerCase transcript in
  existsb
    (fun category => existsb (fun keyword => Js.includes lowerTranscript keyword) (snd category))
    emergencyKeywords.

Definition appointmentKeywords : list string :=
  [ "appointment"; "schedule"; "book"; "visit"; "come out";
    "service call"; "technician"; "when can you"; "available" ].

Definition priceKeywords : list string :=
  [ "cost"; "price"; "estimate"; "quote"; "how much"; "fee";
    "charge"; "rate"; "pricing"; "affordable"; "cheap"; "expensive" ].

Definition serviceKeywords : list string :=
  [ "repair"; "fix"; "maintenance"; "service"; "install"; "replace";
    "tune-up"; "cleaning"; "inspection"; "hvac"; "air conditioner";
    "furnace"; "heat pump"; "thermostat" ].

Definition containsAppointmentKeywords (transcript : string) : bool :=
  Js.someIncluded appointmentKeywords transcript.

Definition containsPriceKeywords (transcript : string) : bool :=
  Js.someIncluded priceKeywords transcript.

Definition containsServiceKeywords (transcript : string) : bool :=
  Js.someIncluded serviceKeywords transcript.

Definition classifyCallType (transcript : string) : CallType :=
  let lowerTranscript := Js.toLowerCase transcript in
  if detectEmergency transcript then CT_EMERGENCY
  else if containsAppointmentKeywords lowerTranscript then CT_APPOINTMENT_BOOKING
  else if containsPriceKeywords lowerTranscript then CT_PRICE_ESTIMATE
  else if containsServiceKeywords lowerTranscript then CT_SERVICE_REQUEST
  else CT_GENERAL_INQUIRY.

(** [serviceMap], in the order [Object.entries] walks it. *)
Definition serviceMap : list (string * list string) :=
  [ ("heating", ["heat"; "furnace"; "boiler"; "heating"; "heater"]);
    ("cooling", ["ac"; "air conditioning"; "cooling"; "air conditioner"; "central air"]);
    ("heat_pump", ["heat pump"]);
    ("thermostat", ["thermostat"]);
    ("ductwork", ["duct"; "ductwork"; "vents"]);
    ("maintenance", ["tune-up"; "maintenance"; "cleaning"; "service"]);
    ("installation", ["install"; "new"; "replacement"]) ].

(** The [for ... of Object.entries(serviceMap)] loop with its [push]. *)
Fixpoint collectServices (entries : list (string * list string))
         (lowerTranscript : string) (services : list string) : list string :=
  match entries with
  | [] => services
  | (service, keywords) :: rest =>
      if Js.someIncluded keywords lowerTranscript
      then collectServices rest lowerTranscript (services ++ [service])
      else collectServices rest lowerTranscript services
  end.

Definition extractServiceType (transcript : string) : list string :=
  let lowerTranscript := Js.toLowerCase transcript in
  let services := collectServices serviceMap lowerTranscript [] in
  if (0 <? List.length services)%nat then services else ["general_hvac"].

(** *** Price estimation *)

Record PriceRange : Type := { price_min : Z; price_max : Z }.

(** The own keys of the [basePrices] object literal. *)
Definition basePrices : list (string * PriceRange) :=
  [ ("heating", {| price_min := 150; price_max := 800 |});
    ("cooling", {| price_min := 125; price_max := 600 |});
    ("thermostat", {| price_min := 200; price_max := 400 |});
    ("maintenance", {| price_min := 125; price_max := 250 |});
    ("installation", {| price_min := 2000; price_max := 8000 |});
    ("general_hvac", {| price_min := 125; price_max := 500 |}) ].

Definition general_hvac_price : PriceRange := {| price_min := 125; price_max := 500 |}.

(** [serviceType[0] || 'general_hvac']: a missing or empty first element
    is falsy. *)
Definition serviceNameOf (serviceType : list string) : string :=
  match serviceType with
  | [] => "general_hvac"
  | s :: _ => if String.eqb s "" then "general_hvac" else s
  end.

(** What [basePrice] holds: an entry of the table, or a member that the
    table inherits from [Object.prototype], which has neither [min] nor
    [max]. *)
Inductive BasePrice : Type :=
| Entry (range : PriceRange)
| Member.

(** [basePrices[serviceName] || basePrices.general_hvac]: every entry and
    every inherited member is truthy, so only a name that is not found at
    all falls back. *)
Definition basePriceOf (serviceName : string) : BasePrice :=
  match Js.getProperty serviceName basePrices with
  | Js.Own range => Entry range
  | Js.Inherited => Member
  | Js.Undefined => Entry general_hvac_price
  end.

(** [Math.round(x * multiplier)] where [x] is [basePrice.min] or
    [basePrice.max]: [undefined * multiplier] is [NaN], and so is its
    rounding. *)
Definition roundedPrice (x : option Z) (multiplier : Q) : option Z :=
  match x with
  | Some z => Some (Js.Math_round (inject_Z z * multiplier))
  | None => None
  end.

Definition minOf (basePrice : BasePrice) : option Z :=
  match basePrice with
  | Entry range => Some (price_min range)
  | Member => None
  end.

Definition maxOf (basePrice : BasePrice) : option Z :=
  match basePrice with
  | Entry range => Some (price_max range)
  | Member => None
  end.

Definition multiplierOf (isEmergency isAfterHours : bool) : Q :=
  let multiplier := 1%Q in
  let multiplier := if isEmergency then (multiplier * (3 # 2))%Q else multiplier in
  let multiplier := if isAfterHours then (multiplier * (5 # 4))%Q else multiplier in
  multiplier.

Definition estimatedMinFor (serviceName : string) (isEmergency isAfterHours : bool)
  : option Z :=
  roundedPrice (minOf (basePriceOf serviceName)) (multiplierOf isEmergency isAfterHours).

Definition estimatedMaxFor (serviceName : string) (isEmergency isAfterHours : bool)
  : option Z :=
  roundedPrice (maxOf (basePriceOf serviceName)) (multiplierOf isEmergency isAfterHours).

Definition emergencyDisclosure : string := "emergency service rates apply".
Definition afterHoursDisclosure : string := "after-hours rates apply".

Definition priceTail : string :=
  ". The final price depends on the specific issue and parts needed. We provide upfront pricing before any work begins.".

(** The name as the text shows it: [serviceName.replace('_', ' ')]. *)
Definition displayName (serviceName : string) : string :=
  Js.replaceFirst "_" " " serviceName.

(** The body of [estimateServicePrice] once [serviceName] is known. *)
Definition priceTextFor (serviceName : string) (isEmergency isAfterHours : bool) : string :=
  let priceText :=
    "For " ++ displayName serviceName
    ++ " service, our typical range is $"
    ++ Js.showNumber (estimatedMinFor serviceName isEmergency isAfterHours)
    ++ "-$"
    ++ Js.showNumber (estimatedMaxFor serviceName isEmergency isAfterHours) in
  let priceText :=
    if isEmergency then priceText ++ " (" ++ emergencyDisclosure ++ ")" else priceText in
  let priceText :=
    if isAfterHours then priceText ++ " (" ++ afterHoursDisclosure ++ ")" else priceText in
  priceText ++ priceTail.

Definition estimateServicePrice
           (serviceType : list string) (isEmergency isAfterHours : bool) : string :=
  priceTextFor (serviceNameOf serviceType) isEmergency isAfterHours.

(** The two numbers quoted by [estimateServicePrice] ([None] is [NaN]). *)
Definition estimatedMin (serviceType : list string) (isEmergency isAfterHours : bool)
  : option Z :=
  estimatedMinFor (serviceNameOf serviceType) isEmergency isAfterHours.

Definition estimatedMax (serviceType : list string) (isEmergency isAfterHours : bool)
  : option Z :=
  estimatedMaxFor (serviceNameOf serviceType) isEmergency isAfterHours.

(** Everything after the service name, for given quoted numbers. *)
Definition restOf (lo hi : option Z) (isEmergency isAfterHours : bool) : string :=
  " service, our typical range is $" ++ Js.showNumber lo ++ "-$" ++ Js.showNumber hi
  ++ (if isEmergency then " (" ++ emergencyDisclosure ++ ")" else "")
  ++ (if isAfterHours then " (" ++ afterHoursDisclosure ++ ")" else "")
  ++ priceTail.

(** The multiplier in eighths: 8, 12, 10 or 15. *)
Definition eighths (isEmergency isAfterHours : bool) : Z :=
  match isEmergency, isAfterHours with
  | false, false => 8
  | true, false => 12
  | false, true => 10
  | true, true => 15
  end.

(** *** Business hours *)

Record DayHours : Type := { open : string; close : string; isClosed : bool }.

Record BusinessHours : Type :=
  { sunday : DayHours; monday : DayHours; tuesday : DayHours;
    wednesday : DayHours; thursday : DayHours; friday : DayHours;
    saturday : DayHours }.

(** [businessHours[names[now.getDay()]]]; [getDay] ranges over 0..6. *)
Definition hoursOfDay (businessHours : BusinessHours) (day : Z) : DayHours :=
  match day with
  | 0 => sunday businessHours
  | 1 => monday businessHours
  | 2 => tuesday businessHours
  | 3 => wednesday businessHours
  | 4 => thursday businessHours
  | 5 => friday businessHours
  | _ => saturday businessHours
  end.

(** [parseTime]: [None] when an operand is [NaN] (or a numeral the
    embedding of [Number] leaves out), which makes the sum [NaN]. *)
Definition parseTime (timeString : string) : option Z :=
  let pieces := Js.split " " timeString in
  let time := hd "" pieces in
  let period := nth_error pieces 1 in
  let fields := map Js.Number (Js.split ":" time) in
  match nth_error fields 0, nth_error fields 1 with
  | Some (Some hours), Some (Some minutes) =>
      let hour24 := hours in
      let hour24 :=
        match period with
        | Some p => if (String.eqb p "PM" && negb (hours =? 12))%bool
                    then hour24 + 12 else hour24
        | None => hour24
        end in
      let hour24 :=
        match period with
        | Some p => if (String.eqb p "AM" && (hours =? 12))%bool then 0 else hour24
        | None => hour24
        end in
      Some (hour24 * 100 + minutes)
  | _, _ => None
  end.

Definition currentTimeOf (now : Z) : Z :=
  JsDate.getHours now * 100 + JsDate.getMinutes now.

(** [isAfterHours]; [None] only when an opening or closing time does not
    parse. *)
Definition isAfterHours (businessHours : BusinessHours) (now : Z) : option bool :=
  let currentTime := currentTimeOf now in
  let todayHours := hoursOfDay businessHours (JsDate.getDay now) in
  if isClosed todayHours then Some true
  else
    match parseTime (open todayHours), parseTime (close todayHours) with
    | Some openTime, Some closeTime =>
        Some ((currentTime <? openTime) || (currentTime >? closeTime))%bool
    | _, _ => None
    end.

End HVAC.

(* ================================================================= *)
(** ** Slot allocator *)

Inductive Priority : Type := LOW | MEDIUM | HIGH | EMERGENCY.

Definition Priority_eqb (a b : Priority) : bool :=
  match a, b with
  | LOW, LOW | MEDIUM, MEDIUM | HIGH, HIGH | EMERGENCY, EMERGENCY => true
  | _, _ => false
  end.

Module Appointment.

(** The columns of an [appointments] row that the allocator reads. *)
Record AppointmentRow : Type :=
  { company_id : string;
    scheduled_date : Z;
    estimated_duration : Z;
    status : string }.

Definition Store : Type := list AppointmentRow.

(** [status NOT IN ('cancelled', 'completed')]. *)
Definition isActive (row : AppointmentRow) : bool :=
  negb (String.eqb (status row) "cancelled" || String.eqb (status row) "completed").

(** [DATE(scheduled_date) = DATE($2)]. *)
Definition sameDate (a b : Z) : bool := JsDate.dayIndex a =? JsDate.dayIndex b.

Fixpoint insertRow (row : AppointmentRow) (rows : list AppointmentRow) : list AppointmentRow :=
  match rows with
  | [] => [row]
  | r :: rest =>
      if scheduled_date row <=? scheduled_date r then row :: rows
      else r :: insertRow row rest
  end.

(** [ORDER BY scheduled_date]. *)
Definition orderByScheduledDate (rows : list AppointmentRow) : list AppointmentRow :=
  fold_right insertRow [] rows.

(** The SELECT that opens [getAvailableSlots]. *)
Definition existingAppointments (db : Store) (companyId : string) (date : Z)
  : list AppointmentRow :=
  orderByScheduledDate
    (filter (fun row => String.eqb (company_id row) companyId
                        && sameDate (scheduled_date row) date
                        && isActive row)%bool
            db).

(** The three overlap tests of the [some] callback. *)
Definition conflictsWith (time slotEnd : Z) (appt : AppointmentRow) : bool :=
  let apptStart := scheduled_date appt in
  let apptEnd := apptStart + estimated_duration appt * 60000 in
  ((time >=? apptStart) && (time <? apptEnd)
   || (slotEnd >? apptStart) && (slotEnd <=? apptEnd)
   || (time <=? apptStart) && (slotEnd >=? apptEnd))%bool.

Definition hasConflict (rows : list AppointmentRow) (time slotEnd : Z) : bool :=
  existsb (conflictsWith time slotEnd) rows.

Definition slotInterval : Z := 30.

(** One loop step in milliseconds. *)
Definition stepMs : Z := slotInterval * JsDate.msPerMinute.

(** The [for (time = startOfDay; time < endOfDay; time += slotInterval)]
    loop; [None] when the fuel runs out before the loop ends. *)
Fixpoint slotLoop (fuel : nat) (rows : list AppointmentRow) (duration : Z)
         (time endOfDay : Z) (slots : list Z) : option (list Z) :=
  match fuel with
  | O => None
  | S fuel' =>
      if time <? endOfDay then
        let slotEnd := time + duration * 60000 in
        let slots' := if hasConflict rows time slotEnd then slots else (slots ++ [time])%list in
        slotLoop fuel' rows duration (JsDate.addMinutes time slotInterval) endOfDay slots'
      else Some slots
  end.

(** Enough fuel for the 08:00-17:00 window: one test per half hour plus
    the failing one. *)
Definition slotFuel : nat := 19.

Definition getAvailableSlots (db : Store) (companyId : string) (date : Z) (duration : Z)
  : list Z :=
  let startOfDay := JsDate.setHours date 8 0 0 0 in
  let endOfDay := JsDate.setHours date 17 0 0 0 in
  let rows := existingAppointments db companyId date in
  match slotLoop slotFuel rows duration startOfDay endOfDay [] with
  | Some slots => slots
  | None => []
  end.

(** [nextHour]: minutes, seconds and milliseconds cleared, hour plus one. *)
Definition nextHourOf (now : Z) : Z := JsDate.startOfHour now + JsDate.msPerHour.

(** [findEmergencySlot]; its [todayEnd] is computed and never read. *)
Definition findEmergencySlot (db : Store) (companyId : string) (now : Z) : option Z :=
  let emergencySlots := getAvailableSlots db companyId now 120 in
  let nextHour := nextHourOf now in
  let suitableSlots := filter (fun slot => slot >=? nextHour) emergencySlots in
  match suitableSlots with
  | slot :: _ => Some slot
  | [] => None
  end.

(** The [for (daysAhead = 0; daysAhead < 14; daysAhead++)] loop with
    [remaining] iterations to go; [None] when it falls through. *)
Fixpoint searchDays (db : Store) (companyId : string) (now : Z)
         (remaining : nat) (daysAhead : Z) : option Z :=
  match remaining with
  | O => None
  | S remaining' =>
      let checkDate := JsDate.addDays now daysAhead in
      if JsDate.getDay checkDate =? 0
      then searchDays db companyId now remaining' (daysAhead + 1)
      else
        match getAvailableSlots db companyId checkDate 60 with
        | slot :: _ => Some slot
        | [] => searchDays db companyId now remaining' (daysAhead + 1)
        end
  end.

(** A candidate start of the day's window: 08:00 plus a whole number of
    half hours, before 17:00. *)
Definition onGrid (date s : Z) : Prop :=
  exists k, 0 <= k < 18 /\ s = JsDate.setHours date 8 0 0 0 + k * stepMs.

(** [s] passes the three overlap tests against every active appointment
    of the company on the day of [date]. *)
Definition freeFor (db : Store) (companyId : string) (date duration s : Z) : Prop :=
  forall a, In a db -> company_id a = companyId ->
            sameDate (scheduled_date a) date = true -> isActive a = true ->
            conflictsWith s (s + duration * 60000) a = false.

(** The day [k] days ahead yields nothing: a Sunday, or no free slot. *)
Definition skipsDay (db : Store) (companyId : string) (now k : Z) : Prop :=
  JsDate.getDay (JsDate.addDays now k) = 0
  \/ getAvailableSlots db companyId (JsDate.addDays now k) 60 = [].

(** What the emergency path may pick: a candidate of today's window,
    free for 120 minutes, not before the next full hour. *)
Definition emergencyCandidate (db : Store) (companyId : string) (now s : Z) : Prop :=
  onGrid now s /\ freeFor db companyId now 120 s /\ nextHourOf now <= s.

Definition fallbackSlot (now : Z) : Z :=
  JsDate.setHours (JsDate.addDays now 14) 9 0 0 0.

Definition standardSearch (db : Store) (companyId : string) (now : Z) : Z :=
  match searchDays db companyId now 14 0 with
  | Some slot => slot
  | None => fallbackSlot now
  end.

Definition getNextAvailableSlot (db : Store) (companyId : string)
           (priority : Priority) (now : Z) : Z :=
  let emergencySlot :=
    if Priority_eqb priority EMERGENCY then findEmergencySlot db companyId now else None in
  match emergencySlot with
  | Some slot => slot
  | None => standardSearch db companyId now
  end.

End Appointment.

(* ================================================================= *)
(** ** Live call registry *)

Module CallMonitor.

Inductive CallStatus : Type := ringing | answered | in_progress | ending.
Inductive Sentiment : Type := positive | neutral | negative.
Inductive EndReason : Type := completed | hangup | error.

Record ActiveCall : Type :=
  { id : string;
    companyId : string;
    customerPhone : string;
    status : CallStatus;
    startTime : Z;
    duration : Z;
    isEmergency : bool;
    transcript : string;
    sentiment : Sentiment }.

(** [Partial<ActiveCall>]: a field is present ([Some]) or absent. *)
Record PartialActiveCall : Type :=
  { u_id : option string;
    u_companyId : option string;
    u_customerPhone : option string;
    u_status : option CallStatus;
    u_startTime : option Z;
    u_duration : option Z;
    u_isEmergency : option bool;
    u_transcript : option string;
    u_sentiment : option Sentiment }.

Definition noUpdates : PartialActiveCall :=
  {| u_id := None; u_companyId := None; u_customerPhone := None;
     u_status := None; u_startTime := None; u_duration := None;
     u_isEmergency := None; u_transcript := None; u_sentiment := None |}.

Definition orElse {A : Type} (o : option A) (d : A) : A :=
  match o with Some a => a | None => d end.

(** [Object.assign(call, updates)]: every present field overwrites. *)
Definition assign (call : ActiveCall) (updates : PartialActiveCall) : ActiveCall :=
  {| id := orElse (u_id updates) (id call);
     companyId := orElse (u_companyId updates) (companyId call);
     customerPhone := orElse (u_customerPhone updates) (customerPhone call);
     status := orElse (u_status updates) (status call);
     startTime := orElse (u_startTime updates) (startTime call);
     duration := orElse (u_duration updates) (duration call);
     isEmergency := orElse (u_isEmergency updates) (isEmergency call);
     transcript := orElse (u_transcript updates) (transcript call);
     sentiment := orElse (u_sentiment updates) (sentiment call) |}.

Definition withDuration (call : ActiveCall) (d : Z) : ActiveCall :=
  {| id := id call; companyId := companyId call; customerPhone := customerPhone call;
     status := status call; startTime := startTime call; duration := d;
     isEmergency := isEmergency call; transcript := transcript call;
     sentiment := sentiment call |}.

Definition withStatus (call : ActiveCall) (s : CallStatus) : ActiveCall :=
  {| id := id call; companyId := companyId call; customerPhone := customerPhone call;
     status := s; startTime := startTime call; duration := duration call;
     isEmergency := isEmergency call; transcript := transcript call;
     sentiment := sentiment call |}.

Definition withEmergency (call : ActiveCall) (b : bool) : ActiveCall :=
  {| id := id call; companyId := companyId call; customerPhone := customerPhone call;
     status := status call; startTime := startTime call; duration := duration call;
     isEmergency := b; transcript := transcript call;
     sentiment := sentiment call |}.

(** *** The [Map<string, ActiveCall>], in insertion order *)

Definition CallMap : Type := list (string * ActiveCall).

Fixpoint Map_get (key : string) (m : CallMap) : option ActiveCall :=
  match m with
  | [] => None
  | (k, v) :: rest => if String.eqb k key then Some v else Map_get key rest
  end.

(** [set] keeps the position of a key already present and appends a new
    one. *)
Fixpoint Map_set (key : string) (value : ActiveCall) (m : CallMap) : CallMap :=
  match m with
  | [] => [(key, value)]
  | (k, v) :: rest =>
      if String.eqb k key then (k, value) :: rest
      else (k, v) :: Map_set key value rest
  end.

Definition Map_delete (key : string) (m : CallMap) : CallMap :=
  filter (fun entry => negb (String.eqb (fst entry) key)) m.

Definition Map_values (m : CallMap) : list ActiveCall := map snd m.

(** *** What the service does to the outside *)

Inductive Event : Type :=
| call_started (call : ActiveCall) (timestamp : Z)
| call_updated (call : ActiveCall) (updates : PartialActiveCall) (timestamp : Z)
| call_ended (call : ActiveCall) (reason : EndReason) (timestamp : Z)
| emergency_detected (call : ActiveCall) (timestamp : Z).

Inductive DbWrite : Type :=
| SetSummary (callId : string) (summary : string)
| SetEmergency (callId : string)
| FinalUpdate (callId : string) (duration : Z) (transcript : string) (is_emergency : bool).

(** A call of [telnyxService.sendEmergencyAlert], by its arguments: the
    customer's number, the sending number, the company name and the
    promised delay. *)
Record Sms : Type :=
  { sms_to : string;
    sms_from : Js.Property Js.Value;
    sms_companyName : Js.Property Js.Value;
    sms_eta : string }.

(** A row of the [companies] table: its text columns. *)
Record CompanyRow : Type :=
  { row_id : string;
    row_name : string;
    row_phone : string;
    row_email : string;
    row_address : string;
    row_telnyx_phone_number : option string }.

(** [CompanyModel.mapRowToCompany]: the own properties of the object
    that [findById] hands out. The columns [vapi_assistant_id],
    [telnyx_phone_number] and [subscription_status] of the row are not
    copied. *)
Definition mapRowToCompany (row : CompanyRow) : list (string * Js.Value) :=
  [ ("id", Js.VString (row_id row));
    ("name", Js.VString (row_name row));
    ("phone", Js.VString (row_phone row));
    ("email", Js.VString (row_email row));
    ("address", Js.VString (row_address row));
    ("businessHours", Js.VObject);
    ("services", Js.VObject);
    ("emergencyRates", Js.VObject);
    ("createdAt", Js.VObject);
    ("updatedAt", Js.VObject) ].

(** The registry together with the traces of everything sent out: socket
    emissions (room, event), store updates and text messages, oldest
    first. [companies] is the table that [companyModel.findById] reads. *)
Record State : Type :=
  { activeCalls : CallMap;
    emitted : list (string * Event);
    dbWrites : list DbWrite;
    smsSent : list Sms;
    companies : list CompanyRow }.

Definition setCalls (st : State) (m : CallMap) : State :=
  {| activeCalls := m; emitted := emitted st; dbWrites := dbWrites st;
     smsSent := smsSent st; companies := companies st |}.

Definition emit (room : string) (e : Event) (st : State) : State :=
  {| activeCalls := activeCalls st; emitted := (emitted st ++ [(room, e)])%list;
     dbWrites := dbWrites st; smsSent := smsSent st; companies := companies st |}.

Definition query (w : DbWrite) (st : State) : State :=
  {| activeCalls := activeCalls st; emitted := emitted st;
     dbWrites := (dbWrites st ++ [w])%list; smsSent := smsSent st;
     companies := companies st |}.

Definition sendSMS (m : Sms) (st : State) : State :=
  {| activeCalls := activeCalls st; emitted := emitted st; dbWrites := dbWrites st;
     smsSent := (smsSent st ++ [m])%list; companies := companies st |}.

Definition roomOf (call : ActiveCall) : string := "company-" ++ companyId call.

Definition elapsedSeconds (now : Z) (call : ActiveCall) : Z :=
  (now - startTime call) / 1000.

(** [companyModel.findById(id)]: the first row with that id, mapped. *)
Definition findById (companyId : string) (st : State) : option (list (string * Js.Value)) :=
  option_map mapRowToCompany
             (find (fun row => String.eqb (row_id row) companyId) (companies st)).

Definition handleEmergencyDetection (call : ActiveCall) (now : Z) (st : State) : State :=
  let st := emit (roomOf call) (emergency_detected call now) st in
  let st :=
    match findById (companyId call) st with
    | Some company =>
        if Js.truthy (Js.getProperty "telnyx_phone_number" company) then
          sendSMS {| sms_to := customerPhone call;
                     sms_from := Js.getProperty "telnyx_phone_number" company;
                     sms_companyName := Js.getProperty "name" company;
                     sms_eta := "2 hours" |} st
        else st
    | None => st
    end in
  query (SetEmergency (id call)) st.

Record CallData : Type :=
  { cd_id : string; cd_companyId : string; cd_customerPhone : string }.

Definition addActiveCall (callData : CallData) (now : Z) (st : State) : State :=
  let activeCall :=
    {| id := cd_id callData; companyId := cd_companyId callData;
       customerPhone := cd_customerPhone callData; status := ringing;
       startTime := now; duration := 0; isEmergency := false;
       transcript := ""; sentiment := neutral |} in
  let st := setCalls st (Map_set (cd_id callData) activeCall (activeCalls st)) in
  let st := emit ("company-" ++ cd_companyId callData) (call_started activeCall now) st in
  query (SetSummary (cd_id callData) "Call ringing") st.

(** [updateCall]. The call object is shared with the registry, so the
    late [call.isEmergency = true] is written back under the same key. *)
Definition updateCall (callId : string) (updates : PartialActiveCall) (now : Z)
           (st : State) : State :=
  match Map_get callId (activeCalls st) with
  | None => st
  | Some call =>
      let call := assign call updates in
      let call := withDuration call (elapsedSeconds now call) in
      let st := setCalls st (Map_set callId call (activeCalls st)) in
      let st := emit (roomOf call) (call_updated call updates now) st in
      match u_transcript updates with
      | Some text =>
          if (negb (String.eqb text "") && negb (isEmergency call))%bool then
            if HVAC.detectEmergency text then
              let call := withEmergency call true in
              let st := setCalls st (Map_set callId call (activeCalls st)) in
              handleEmergencyDetection call now st
            else st
          else st
      | None => st
      end
  end.

Definition endCall (callId : string) (reason : EndReason) (now : Z) (st : State) : State :=
  match Map_get callId (activeCalls st) with
  | None => st
  | Some call =>
      let call := withStatus call ending in
      let call := withDuration call (elapsedSeconds now call) in
      let st := emit (roomOf call) (call_ended call reason now) st in
      let st :=
        query (FinalUpdate callId (duration call) (transcript call) (isEmergency call)) st in
      setCalls st (Map_delete callId (activeCalls st))
  end.

Definition positiveWords : list string :=
  ["thank"; "great"; "excellent"; "perfect"; "satisfied"; "happy"].
Definition negativeWords : list string :=
  ["angry"; "frustrated"; "terrible"; "awful"; "disappointed"; "upset"].

Definition analyzeSentiment (text : string) : Sentiment :=
  let lowerTranscript := Js.toLowerCase text in
  let positiveScore :=
    List.length (filter (fun word => Js.includes lowerTranscript word) positiveWords) in
  let negativeScore :=
    List.length (filter (fun word => Js.includes lowerTranscript word) negativeWords) in
  if (negativeScore <? positiveScore)%nat then positive
  else if (positiveScore <? negativeScore)%nat then negative
  else neutral.

Record Message : Type := { role : string; content : string }.

Definition newline : string := String (ascii_of_nat 10) EmptyString.

Definition handleVapiUpdate (vapiCallId : string) (message : Message) (now : Z)
           (st : State) : State :=
  match find (fun c => Js.includes (id c) vapiCallId) (Map_values (activeCalls st)) with
  | None => st
  | Some call =>
      if String.eqb (role message) "user" then
        let newTranscript := transcript call ++ newline ++ "Customer: " ++ content message in
        let sentiment' := analyzeSentiment (content message) in
        updateCall (id call)
          {| u_id := None; u_companyId := None; u_customerPhone := None;
             u_status := None; u_startTime := None; u_duration := None;
             u_isEmergency := None; u_transcript := Some newTranscript;
             u_sentiment := Some sentiment' |}
          now st
      else st
  end.

(** *** Histories of one registry *)

Inductive Op : Type :=
| OpUpdateCall (callId : string) (updates : PartialActiveCall) (now : Z)
| OpHandleVapiUpdate (vapiCallId : string) (message : Message) (now : Z)
| OpEndCall (callId : string) (reason : EndReason) (now : Z).

Definition step (st : State) (op : Op) : State :=
  match op with
  | OpUpdateCall callId updates now => updateCall callId updates now st
  | OpHandleVapiUpdate vapiCallId message now => handleVapiUpdate vapiCallId message now st
  | OpEndCall callId reason now => endCall callId reason now st
  end.

Definition run (ops : list Op) (st : State) : State := fold_left step ops st.

(** The emergency flag of the session registered under [key], if any. *)
Definition flagOf (key : string) (st : State) : option bool :=
  option_map isEmergency (Map_get key (activeCalls st)).

(** An operation that does not carry [isEmergency: false]. *)
Definition keepsFlag (op : Op) : Prop :=
  match op with
  | OpUpdateCall _ updates _ => u_isEmergency updates <> Some false
  | _ => True
  end.

(** The session under [key] is flagged, or gone from the registry. *)
Definition flaggedOrGone (key : string) (st : State) : Prop :=
  flagOf key st = Some true \/ flagOf key st = None.

Definition emptyState : State :=
  {| activeCalls := []; emitted := []; dbWrites := []; smsSent := []; companies := [] |}.

End CallMonitor.

(* ================================================================= *)
(** ** Further operations of the three services and of their callers *)

Module HVACMore.

(** The [responses] object literal of [generateEmergencyResponse]. *)
Definition responses : list (string * string) :=
  [ ("heating", "I understand you're having a heating emergency. We'll dispatch a technician immediately - this is a priority call especially in cold weather.");
    ("cooling", "I see you're having an air conditioning emergency. We'll get someone out to you as soon as possible - comfort is essential.");
    ("plumbing", "This sounds like a water emergency. I'm prioritizing your call and we'll have someone there right away to prevent further damage.");
    ("electrical", "This appears to be an electrical emergency. For your safety, please turn off power at the main breaker if safe to do so. We're dispatching someone immediately.") ].

Definition genericResponse : string :=
  "I understand this is an emergency situation. We're treating this as a priority call and will dispatch a technician immediately.".

(** [serviceType[0] || 'general'], then [responses[...] || generic]. *)
Definition generateEmergencyResponse (serviceType : list string) : string :=
  let primaryService :=
    match serviceType with
    | [] => "general"
    | s :: _ => if String.eqb s "" then "general" else s
    end in
  match Js.lookup primaryService responses with
  | Some response => response
  | None => genericResponse
  end.

(** The [for (i = 1; i <= 7; i++)] loop of [getNextBusinessDay], with
    [remaining] iterations to go; [toLocaleDateString] is the platform's
    date formatter. *)
Fixpoint nextBusinessDayLoop (toLocaleDateString : Z -> string)
         (businessHours : HVAC.BusinessHours) (now : Z) (remaining : nat) (i : Z) : string :=
  match remaining with
  | O => "next week"
  | S remaining' =>
      let checkDate := JsDate.addDays now i in
      if negb (HVAC.isClosed (HVAC.hoursOfDay businessHours (JsDate.getDay checkDate)))
      then toLocaleDateString checkDate
      else nextBusinessDayLoop toLocaleDateString businessHours now remaining' (i + 1)
  end.

Definition getNextBusinessDay (toLocaleDateString : Z -> string)
           (businessHours : HVAC.BusinessHours) (now : Z) : string :=
  nextBusinessDayLoop toLocaleDateString businessHours now 7 1.

(** A 12-hour clock reading as the business-hours tables write it:
    hour, colon, two-digit minutes, blank, period. *)
Definition clockString (hours minutes : Z) (period : string) : string :=
  Js.showInt hours ++ ":" ++ (if minutes <? 10 then "0" else "") ++ Js.showInt minutes
  ++ " " ++ period.

(** The integers [first], [first + 1], ... ([count] of them). *)
Definition zrange (first : Z) (count : nat) : list Z :=
  map (fun i => first + Z.of_nat i) (seq 0 count).

(** [parseTime] reads every 12-hour clock reading as its 24-hour value
    [hours*100 + minutes]; a check over all 12 x 60 readings. *)
Definition parsesAll : bool :=
  forallb
    (fun h =>
       forallb
         (fun m =>
            match HVAC.parseTime (clockString h m "AM"),
                  HVAC.parseTime (clockString h m "PM") with
            | Some am, Some pm =>
                (am =? (h mod 12) * 100 + m) && (pm =? (h mod 12 + 12) * 100 + m)
            | _, _ => false
            end)
         (zrange 0 60))
    (zrange 1 12).

(** All emergency keywords, category after category. *)
Definition allEmergencyKeywords : list string :=
  List.concat (map snd HVAC.emergencyKeywords).

End HVACMore.

Module AppointmentMore.
Import Appointment.

(** [createAppointment] on the columns the allocator reads: one more row,
    with status [scheduled]. *)
Definition createAppointment (db : Store) (companyId : string)
           (scheduledDate estimatedDuration : Z) : Store :=
  (db ++ [ {| company_id := companyId; scheduled_date := scheduledDate;
              estimated_duration := estimatedDuration; status := "scheduled" |} ])%list.

(** The WHERE clause of [findAppointmentConflicts] for one row; [$2] is
    [scheduledDate] and [$3] is [endTime]. *)
Definition sqlConflict (scheduledDate endTime : Z) (row : AppointmentRow) : bool :=
  let rowStart := scheduled_date row in
  let rowEnd := rowStart + estimated_duration row * 60000 in
  ((rowStart <=? scheduledDate) && (rowEnd >? scheduledDate)
   || (rowStart <? endTime) && (rowEnd >=? endTime)
   || (rowStart >=? scheduledDate) && (rowStart <? endTime))%bool.

Definition findAppointmentConflicts (db : Store) (companyId : string)
           (scheduledDate duration : Z) : list AppointmentRow :=
  let endTime := scheduledDate + duration * 60000 in
  filter (fun row => String.eqb (company_id row) companyId
                     && isActive row
                     && sqlConflict scheduledDate endTime row)%bool
         db.

(** The [for (i = 0; i < 7 && alternatives.length < count; i++)] loop of
    [suggestAlternativeSlots]; [searchDate] moves on by one day at the
    start of every iteration. *)
Fixpoint alternativesLoop (db : Store) (companyId : string) (count : Z)
         (remaining : nat) (searchDate : Z) (alternatives : list Z) : list Z :=
  match remaining with
  | O => alternatives
  | S remaining' =>
      if Z.of_nat (List.length alternatives) <? count then
        let searchDate := JsDate.addDays searchDate 1 in
        if JsDate.getDay searchDate =? 0
        then alternativesLoop db companyId count remaining' searchDate alternatives
        else
          match getAvailableSlots db companyId searchDate 60 with
          | slot :: _ =>
              alternativesLoop db companyId count remaining' searchDate
                               (alternatives ++ [slot])%list
          | [] => alternativesLoop db companyId count remaining' searchDate alternatives
          end
      else alternatives
  end.

Definition suggestAlternativeSlots (db : Store) (companyId : string)
           (preferredDate count : Z) : list Z :=
  alternativesLoop db companyId count 7 preferredDate [].

(** How many of the [remaining] days after [searchDate] are no Sunday. *)
Fixpoint nonSundays (remaining : nat) (searchDate : Z) : nat :=
  match remaining with
  | O => O
  | S remaining' =>
      let searchDate := JsDate.addDays searchDate 1 in
      if JsDate.getDay searchDate =? 0 then nonSundays remaining' searchDate
      else S (nonSundays remaining' searchDate)
  end.

(** The half-open intervals [aStart, aEnd) and [bStart, bEnd) share an
    instant. *)
Definition overlaps (aStart aEnd bStart bEnd : Z) : Prop :=
  exists x, aStart <= x < aEnd /\ bStart <= x < bEnd.

(** What one alternative is: the earliest free 60-minute slot of a day
    that lies [i] days after the preferred date and is no Sunday. *)
Definition alternativeOn (db : Store) (companyId : string) (preferredDate a : Z) : Prop :=
  exists i, 1 <= i <= 7
            /\ JsDate.dayIndex a = JsDate.dayIndex preferredDate + i
            /\ JsDate.getDay a <> 0
            /\ onGrid (JsDate.addDays preferredDate i) a
            /\ freeFor db companyId (JsDate.addDays preferredDate i) 60 a
            /\ forall s, onGrid (JsDate.addDays preferredDate i) s ->
                         freeFor db companyId (JsDate.addDays preferredDate i) 60 s ->
                         a <= s.

End AppointmentMore.

Module CallMonitorMore.
Import CallMonitor.

(** [getActiveCalls(companyId?)]: a missing or empty id is falsy. *)
Definition getActiveCalls (companyId : option string) (st : State) : list ActiveCall :=
  match companyId with
  | Some c =>
      if String.eqb c "" then Map_values (activeCalls st)
      else filter (fun call => String.eqb (CallMonitor.companyId call) c)
                  (Map_values (activeCalls st))
  | None => Map_values (activeCalls st)
  end.

(** [call?.transcript || '']. *)
Definition getLiveTranscript (callId : string) (st : State) : string :=
  match Map_get callId (activeCalls st) with
  | Some call => transcript call
  | None => ""
  end.

(** Every session is registered under its own [id], once. *)
Definition wellKeyed (m : CallMap) : Prop :=
  NoDup (map fst m) /\ Forall (fun entry => id (snd entry) = fst entry) m.

(** The [emergency-detected] events of a trace. *)
Definition isEmergencyEvent (e : string * Event) : bool :=
  match snd e with
  | emergency_detected _ _ => true
  | _ => false
  end.

Definition userMessage (text : string) : Message := {| role := "user"; content := text |}.

(** The session that [handleVapiUpdate(vapiCallId, ...)] picks. *)
Definition foundCall (vapiCallId : string) (st : State) : option ActiveCall :=
  find (fun c => Js.includes (id c) vapiCallId) (Map_values (activeCalls st)).

Definition emergencyEvents (st : State) : list (string * Event) :=
  filter isEmergencyEvent (emitted st).

End CallMonitorMore.

Module Lead.

(** The own keys of the [serviceValues] table of [estimateLeadValue]. *)
Definition serviceValues : list (string * Z) :=
  [ ("heating", 800); ("cooling", 600); ("installation", 5000);
    ("maintenance", 200); ("emergency", 400); ("general_hvac", 300) ].

(** [serviceValues[service] || serviceValues['general_hvac']]: a number,
    or ([None]) a member inherited from [Object.prototype]. A zero entry
    would be falsy. *)
Definition valueOf (service : string) : option Z :=
  match Js.getProperty service serviceValues with
  | Js.Own v => Some (if v =? 0 then 300 else v)
  | Js.Inherited => None
  | Js.Undefined => Some 300
  end.

(** The running [estimatedValue]: a number, or, once a function or the
    prototype object has been added to it, a string holding that
    member's text, which no later [+=] turns back into a number. *)
Inductive Estimate : Type :=
| Sum (total : Z)
| Text.

(** [estimatedValue += value]: addition of numbers, concatenation as
    soon as either side is not a number. *)
Definition plus (estimatedValue : Estimate) (value : option Z) : Estimate :=
  match estimatedValue, value with
  | Sum total, Some v => Sum (total + v)
  | _, _ => Text
  end.

(** The [for ... of lead.serviceInterest] loop with its running value. *)
Fixpoint sumValues (serviceInterest : list string) (estimatedValue : Estimate) : Estimate :=
  match serviceInterest with
  | [] => estimatedValue
  | service :: rest => sumValues rest (plus estimatedValue (valueOf service))
  end.

(** [estimateLeadValue]; [None] is [NaN], which is what [Math.round] and
    [*= 1.5] make of a string that is not a numeral. *)
Definition estimateLeadValue (serviceInterest : list string) (notes : string) : option Z :=
  match sumValues serviceInterest (Sum 0) with
  | Sum estimatedValue =>
      let estimatedValue :=
        if Js.includes (Js.toLowerCase notes) "emergency"
        then (inject_Z estimatedValue * (3 # 2))%Q else inject_Z estimatedValue in
      Some (Js.Math_round estimatedValue)
  | Text => None
  end.

(** The sum of the table values of a list without inherited names. *)
Definition plainSum (serviceInterest : list string) : Z :=
  fold_right (fun service total =>
                match valueOf service with Some v => v + total | None => total end)
             0 serviceInterest.

End Lead.

Module Webhook.

Definition summaryKeywords : list string :=
  ["emergency"; "appointment"; "price"; "cost"; "repair"; "install"; "maintenance"].

(** [generateCallSummary]. *)
Definition generateCallSummary (transcript : string) : string :=
  if (String.length transcript <? 10)%nat
  then "Call completed - no transcript available"
  else
    let foundKeywords :=
      filter (fun keyword => Js.includes (Js.toLowerCase transcript) keyword)
             summaryKeywords in
    if (List.length foundKeywords =? 0)%nat then "General inquiry call"
    else "Call regarding: " ++ String.concat ", " foundKeywords.

(** The scheduling part of [handleAppointmentBooking] for a known company:
    priority and duration follow the emergency test, the slot comes from
    [getNextAvailableSlot], and the appointment is inserted. *)
Definition bookAppointment (db : Appointment.Store) (companyId : string)
           (paramIsEmergency : bool) (serviceDescription : string) (now : Z)
  : Z * Appointment.Store :=
  let isEmergency := (paramIsEmergency || HVAC.detectEmergency serviceDescription)%bool in
  let priority := if isEmergency then EMERGENCY else MEDIUM in
  let nextAvailable := Appointment.getNextAvailableSlot db companyId priority now in
  (nextAvailable,
   AppointmentMore.createAppointment db companyId nextAvailable
                                     (if isEmergency then 120 else 60)).

End Webhook.

(* ================================================================= *)
(** ** Sample data *)

Module Sample.
Import Appointment.

(** Midnight of a Friday (day 20000 after the epoch). *)
Definition friday : Z := 20000 * JsDate.msPerDay.

Definition at_ (day hours minutes : Z) : Z :=
  day + hours * JsDate.msPerHour + minutes * JsDate.msPerMinute.

Definition nineToTen : AppointmentRow :=
  {| company_id := "acme"; scheduled_date := at_ friday 9 0;
     estimated_duration := 60; status := "scheduled" |}.

Definition store : Store :=
  [ nineToTen;
    {| company_id := "acme"; scheduled_date := at_ friday 8 0;
       estimated_duration := 30; status := "confirmed" |};
    {| company_id := "acme"; scheduled_date := at_ friday 12 0;
       estimated_duration := 300; status := "cancelled" |};
    {| company_id := "other"; scheduled_date := at_ friday 10 0;
       estimated_duration := 600; status := "scheduled" |} ].

(** The weekly table of the test helpers' mock company. *)
Definition weekday : HVAC.DayHours :=
  {| HVAC.open := "8:00 AM"; HVAC.close := "6:00 PM"; HVAC.isClosed := false |}.

Definition mockHours : HVAC.BusinessHours :=
  {| HVAC.sunday := {| HVAC.open := ""; HVAC.close := ""; HVAC.isClosed := true |};
     HVAC.monday := weekday; HVAC.tuesday := weekday; HVAC.wednesday := weekday;
     HVAC.thursday := weekday; HVAC.friday := weekday;
     HVAC.saturday :=
       {| HVAC.open := "9:00 AM"; HVAC.close := "4:00 PM"; HVAC.isClosed := false |} |}.

(** A registry with one call on which an emergency has been detected. *)
Definition ringingCall : CallMonitor.State :=
  CallMonitor.addActiveCall
    {| CallMonitor.cd_id := "call-1"; CallMonitor.cd_companyId := "acme";
       CallMonitor.cd_customerPhone := "+15550001" |}
    1000
    {| CallMonitor.activeCalls := []; CallMonitor.emitted := [];
       CallMonitor.dbWrites := []; CallMonitor.smsSent := [];
       CallMonitor.companies :=
         [ {| CallMonitor.row_id := "acme"; CallMonitor.row_name := "Acme Heating";
              CallMonitor.row_phone := "+15559990001";
              CallMonitor.row_email := "office@acme.example";
              CallMonitor.row_address := "1 Main Street, Springfield";
              CallMonitor.row_telnyx_phone_number := Some "+15559990000" |} ] |}.

Definition flaggedCall : CallMonitor.State :=
  CallMonitor.handleVapiUpdate "call-1"
    {| CallMonitor.role := "user"; CallMonitor.content := "There is a gas smell in the kitchen" |}
    5500 ringingCall.

(** [{ isEmergency: false }]. *)
Definition clearFlag : CallMonitor.PartialActiveCall :=
  {| CallMonitor.u_id := None; CallMonitor.u_companyId := None;
     CallMonitor.u_customerPhone := None; CallMonitor.u_status := None;
     CallMonitor.u_startTime := None; CallMonitor.u_duration := None;
     CallMonitor.u_isEmergency := Some false; CallMonitor.u_transcript := None;
     CallMonitor.u_sentiment := None |}.

(** [{ status: 'in-progress' }]. *)
Definition markInProgress : CallMonitor.PartialActiveCall :=
  {| CallMonitor.u_id := None; CallMonitor.u_companyId := None;
     CallMonitor.u_customerPhone := None;
     CallMonitor.u_status := Some CallMonitor.in_progress;
     CallMonitor.u_startTime := None; CallMonitor.u_duration := None;
     CallMonitor.u_isEmergency := None; CallMonitor.u_transcript := None;
     CallMonitor.u_sentiment := None |}.

Definition laterOps : list CallMonitor.Op :=
  [ CallMonitor.OpHandleVapiUpdate "call-1"
      {| CallMonitor.role := "user"; CallMonitor.content := "Thank you, that is great" |} 7000;
    CallMonitor.OpUpdateCall "call-1" markInProgress 8000;
    CallMonitor.OpUpdateCall "call-2" markInProgress 8500 ].

(** The Tuesday after [friday]. *)
Definition tuesday : Z := friday + 4 * JsDate.msPerDay.

End Sample.

Module SampleMore.

(** An appointment that starts on Thursday at 23:00 and runs for ten
    hours, into Friday morning. *)
Definition overnight : Appointment.AppointmentRow :=
  {| Appointment.company_id := "acme";
     Appointment.scheduled_date := Sample.friday - JsDate.msPerHour;
     Appointment.estimated_duration := 600;
     Appointment.status := "scheduled" |}.

End SampleMore.

Example classify_schedule :
  HVAC.classifyCallType "I want to schedule an appointment" = CT_APPOINTMENT_BOOKING.
Proof. vm_compute. reflexivity. Qed.

Example classify_cost :
  HVAC.classifyCallType "How much does furnace repair cost?" = CT_PRICE_ESTIMATE.
Proof. vm_compute. reflexivity. Qed.

Example extract_unclear :
  HVAC.extractServiceType "I have some issues with my system" = ["general_hvac"].
Proof. vm_compute. reflexivity. Qed.

Example parse_8am : HVAC.parseTime "8:00 AM" = Some 800.
Proof. vm_compute. reflexivity. Qed.

Example parse_6pm : HVAC.parseTime "6:00 PM" = Some 1800.
Proof. vm_compute. reflexivity. Qed.

Example parse_noon : HVAC.parseTime "12:00 PM" = Some 1200.
Proof. vm_compute. reflexivity. Qed.

Example parse_midnight : HVAC.parseTime "12:30 AM" = Some 30.
Proof. vm_compute. reflexivity. Qed.

Example price_heating_plain :
  HVAC.estimateServicePrice ["heating"] false false =
  "For heating service, our typical range is $150-$800. The final price depends on the specific issue and parts needed. We provide upfront pricing before any work begins.".
Proof. vm_compute. reflexivity. Qed.

(* ================================================================= *)
(** ** Properties of the slot allocator *)

Section SlotAllocator.
Import Appointment.

Lemma In_insertRow (a row : AppointmentRow) (rows : list AppointmentRow) :
  In a (insertRow row rows) <-> a = row \/ In a rows.
Proof.
  induction rows as [|r rest IH]; simpl.
  - intuition.
  - destruct (scheduled_date row <=? scheduled_date r); simpl.
    + intuition.
    + rewrite IH. intuition.
Qed.

Lemma In_orderByScheduledDate (a : AppointmentRow) (rows : list AppointmentRow) :
  In a (orderByScheduledDate rows) <-> In a rows.
Proof.
  induction rows as [|r rest IH]; simpl.
  - tauto.
  - rewrite In_insertRow, IH. intuition.
Qed.

(** The rows the SELECT hands to the loop are exactly the company's
    active rows of that date. *)
Lemma existingAppointments_iff (db : Store) (companyId : string) (date : Z)
      (a : AppointmentRow) :
  In a (existingAppointments db companyId date) <->
  In a db /\ company_id a = companyId
  /\ sameDate (scheduled_date a) date = true /\ isActive a = true.
Proof.
  unfold existingAppointments.
  rewrite In_orderByScheduledDate, filter_In, !andb_true_iff, String.eqb_eq.
  tauto.
Qed.

Lemma hasConflict_false (rows : list AppointmentRow) (time slotEnd : Z) :
  hasConflict rows time slotEnd = false <->
  forall a, In a rows -> conflictsWith time slotEnd a = false.
Proof.
  unfold hasConflict. induction rows as [|r rest IH]; simpl.
  - intuition.
  - rewrite orb_false_iff, IH. split.
    + intros [Hr Hrest] a [<-|Ha]; auto.
    + intros H. split; [apply H; auto | intros a Ha; apply H; auto].
Qed.

(** What a failed overlap test says about the two intervals. *)
Lemma conflictsWith_false (time slotEnd : Z) (appt : AppointmentRow) :
  conflictsWith time slotEnd appt = false ->
  let apptStart := scheduled_date appt in
  let apptEnd := apptStart + estimated_duration appt * 60000 in
  ~ (apptStart <= time < apptEnd)
  /\ ~ (apptStart < slotEnd <= apptEnd)
  /\ ~ (time <= apptStart /\ apptEnd <= slotEnd)
  /\ forall x, ~ (time <= x < slotEnd /\ apptStart <= x < apptEnd).
Proof.
  unfold conflictsWith. cbv zeta.
  rewrite !Z.geb_leb, !Z.gtb_ltb.
  destruct (Z.leb_spec (scheduled_date appt) time);
    destruct (Z.ltb_spec time (scheduled_date appt + estimated_duration appt * 60000));
    destruct (Z.ltb_spec (scheduled_date appt) slotEnd);
    destruct (Z.leb_spec slotEnd (scheduled_date appt + estimated_duration appt * 60000));
    destruct (Z.leb_spec time (scheduled_date appt));
    destruct (Z.leb_spec (scheduled_date appt + estimated_duration appt * 60000) slotEnd);
    simpl; intros Hc; try discriminate Hc;
    repeat split; try lia; intros x; lia.
Qed.

(** The loop appends, in increasing order, exactly the conflict-free
    starts [time], [time + 30min], ... below [endOfDay]. *)
Lemma slotLoop_spec (rows : list AppointmentRow) (duration endOfDay : Z) (fuel : nat) :
  forall (time : Z) (slots res : list Z),
    slotLoop fuel rows duration time endOfDay slots = Some res ->
    exists fresh,
      res = (slots ++ fresh)%list
      /\ StronglySorted Z.lt fresh
      /\ forall s, In s fresh <->
                   (exists k, 0 <= k /\ s = time + k * stepMs) /\ s < endOfDay
                   /\ hasConflict rows s (s + duration * 60000) = false.
Proof.
  induction fuel as [|fuel IH]; intros time slots res; simpl.
  - discriminate.
  - destruct (Z.ltb_spec time endOfDay) as [Hlt|Hge].
    + intros Hloop. apply IH in Hloop. destruct Hloop as (fresh & -> & Hsorted & Hin).
      assert (Hstep : JsDate.addMinutes time slotInterval = time + stepMs) by reflexivity.
      rewrite Hstep in Hin.
      assert (Hpos : 0 < stepMs) by (vm_compute; reflexivity).
      assert (Hlater : forall s, In s fresh -> time < s).
      { intros s Hs. apply Hin in Hs. destruct Hs as ((k & Hk & ->) & _). nia. }
      destruct (hasConflict rows time (time + duration * 60000)) eqn:Hc.
      * exists fresh. split; [reflexivity|]. split; [exact Hsorted|].
        intros s. rewrite Hin. split.
        -- intros ((k & Hk & ->) & Hs & Hfree). split; [|auto].
           exists (k + 1). split; lia.
        -- intros ((k & Hk & ->) & Hs & Hfree). split; [|auto].
           assert (k = 0 \/ 1 <= k) as [->|Hk1] by lia.
           ++ rewrite Z.mul_0_l, Z.add_0_r in Hfree. congruence.
           ++ exists (k - 1). split; lia.
      * exists (time :: fresh). split; [rewrite <- app_assoc; reflexivity|].
        split.
        -- constructor; [exact Hsorted|]. apply Forall_forall. exact Hlater.
        -- intros s. simpl. rewrite Hin. split.
           ++ intros [<-|((k & Hk & ->) & Hs & Hfree)].
              ** split; [exists 0; split; lia|]. split; [lia | exact Hc].
              ** split; [|auto]. exists (k + 1). split; lia.
           ++ intros ((k & Hk & ->) & Hs & Hfree).
              assert (k = 0 \/ 1 <= k) as [->|Hk1] by lia.
              ** left. lia.
              ** right. split; [|auto]. exists (k - 1). split; lia.
    + intros [= <-]. exists []. split; [rewrite app_nil_r; reflexivity|].
      split; [constructor|]. intros s. simpl. split; [tauto|].
      intros ((k & Hk & ->) & Hs & _).
      assert (Hpos : 0 < stepMs) by (vm_compute; reflexivity). nia.
Qed.

(** The loop ends within its fuel whenever the window is short enough. *)
Lemma slotLoop_total (rows : list AppointmentRow) (duration endOfDay : Z) (fuel : nat) :
  forall (time : Z) (slots : list Z),
    endOfDay - time <= Z.of_nat fuel * stepMs ->
    exists res, slotLoop (S fuel) rows duration time endOfDay slots = Some res.
Proof.
  assert (Hpos : 0 < stepMs) by (vm_compute; reflexivity).
  induction fuel as [|fuel IH]; intros time slots Hwin.
  - simpl. destruct (Z.ltb_spec time endOfDay); [lia|eauto].
  - cbn [slotLoop]. destruct (Z.ltb_spec time endOfDay); [|eauto].
    apply IH.
    assert (Hstep : JsDate.addMinutes time slotInterval = time + stepMs) by reflexivity.
    rewrite Hstep. lia.
Qed.

Lemma window_length (date : Z) :
  JsDate.setHours date 17 0 0 0 = JsDate.setHours date 8 0 0 0 + 18 * stepMs.
Proof.
  unfold JsDate.setHours, stepMs, slotInterval, JsDate.msPerHour, JsDate.msPerMinute.
  lia.
Qed.

(** [getAvailableSlots] returns, in increasing order, exactly the grid
    points of the day that pass the overlap tests; the loop never runs
    out of fuel. *)
Lemma getAvailableSlots_spec (db : Store) (companyId : string) (date duration : Z) :
  slotLoop slotFuel (existingAppointments db companyId date) duration
           (JsDate.setHours date 8 0 0 0) (JsDate.setHours date 17 0 0 0) []
  = Some (getAvailableSlots db companyId date duration)
  /\ StronglySorted Z.lt (getAvailableSlots db companyId date duration)
  /\ forall s, In s (getAvailableSlots db companyId date duration) <->
               onGrid date s /\ freeFor db companyId date duration s.
Proof.
  unfold getAvailableSlots.
  destruct (slotLoop_total (existingAppointments db companyId date) duration
              (JsDate.setHours date 17 0 0 0) 18 (JsDate.setHours date 8 0 0 0) [])
    as [res Hres].
  { rewrite window_length. change (Z.of_nat 18) with 18. lia. }
  change (S 18) with slotFuel in Hres. rewrite Hres.
  split; [reflexivity|].
  apply slotLoop_spec in Hres. destruct Hres as (fresh & -> & Hsorted & Hin).
  simpl. split; [exact Hsorted|].
  intros s. rewrite Hin, hasConflict_false. unfold onGrid, freeFor.
  rewrite window_length.
  assert (Hpos : 0 < stepMs) by (vm_compute; reflexivity).
  split.
  - intros ((k & Hk & ->) & Hs & Hfree). split.
    + exists k. split; [nia | reflexivity].
    + intros a Ha Hc Hd Hact. apply Hfree. apply existingAppointments_iff. auto.
  - intros ((k & Hk & ->) & Hfree). split; [exists k; split; [lia|reflexivity]|].
    split; [nia|].
    intros a Ha. apply existingAppointments_iff in Ha.
    destruct Ha as (Ha & Hc & Hd & Hact). auto.
Qed.

(** Every candidate of a day lies on that calendar day. *)
Lemma onGrid_same_day (date s : Z) :
  onGrid date s -> JsDate.dayIndex s = JsDate.dayIndex date.
Proof.
  intros (k & Hk & ->).
  unfold JsDate.setHours, JsDate.startOfDay, JsDate.dayIndex, stepMs, slotInterval,
    JsDate.msPerHour, JsDate.msPerMinute, JsDate.msPerDay.
  symmetry. apply Z.div_unique with (r := 8 * 3600000 + k * 1800000); lia.
Qed.

(** The head of a filtered increasing list is its least passing element. *)
Lemma filter_head_least (p : Z -> bool) (l : list Z) :
  StronglySorted Z.lt l ->
  forall r rest, filter p l = r :: rest ->
    In r l /\ p r = true /\ forall s, In s l -> p s = true -> r <= s.
Proof.
  induction 1 as [|x l Hsorted IH Hall]; simpl; intros r rest Hf.
  - discriminate.
  - rewrite Forall_forall in Hall.
    destruct (p x) eqn:Hpx.
    + injection Hf as <- _. repeat split; auto.
      intros s [<-|Hs] _; [lia | apply Hall in Hs; lia].
    + destruct (IH _ _ Hf) as (Hin & Hpr & Hmin).
      repeat split; auto.
      intros s [<-|Hs] Hps; [congruence | auto].
Qed.

Lemma filter_nil_none (p : Z -> bool) (l : list Z) :
  filter p l = [] -> forall s, In s l -> p s = false.
Proof.
  induction l as [|x l IH]; simpl; intros Hf s Hs; [tauto|].
  destruct (p x) eqn:Hpx; [discriminate|].
  destruct Hs as [<-|Hs]; auto.
Qed.

(** The day loop stops at the first day that is no Sunday and has a
    slot, and falls through only when every day is skipped. *)
Lemma searchDays_spec (db : Store) (companyId : string) (now : Z) (remaining : nat) :
  forall daysAhead,
    match searchDays db companyId now remaining daysAhead with
    | Some r =>
        exists k, daysAhead <= k < daysAhead + Z.of_nat remaining
                  /\ JsDate.getDay (JsDate.addDays now k) <> 0
                  /\ (exists rest,
                         getAvailableSlots db companyId (JsDate.addDays now k) 60 = r :: rest)
                  /\ forall j, daysAhead <= j < k -> skipsDay db companyId now j
    | None =>
        forall k, daysAhead <= k < daysAhead + Z.of_nat remaining ->
                  skipsDay db companyId now k
    end.
Proof.
  induction remaining as [|n IH]; intros d.
  - simpl. intros k Hk. lia.
  - cbn [searchDays].
    destruct (Z.eqb_spec (JsDate.getDay (JsDate.addDays now d)) 0) as [Hsun|Hday].
    + specialize (IH (d + 1)).
      destruct (searchDays db companyId now n (d + 1)) as [r|].
      * destruct IH as (k & Hk & Hnot & Hhd & Hskip).
        exists k. repeat split; auto; try lia.
        intros j Hj. assert (j = d \/ d + 1 <= j) as [->|Hj'] by lia.
        -- left. exact Hsun.
        -- apply Hskip. lia.
      * intros k Hk. assert (k = d \/ d + 1 <= k) as [->|Hk'] by lia.
        -- left. exact Hsun.
        -- apply IH. lia.
    + destruct (getAvailableSlots db companyId (JsDate.addDays now d) 60) as [|r rest] eqn:Hslots.
      * specialize (IH (d + 1)).
        destruct (searchDays db companyId now n (d + 1)) as [r|].
        -- destruct IH as (k & Hk & Hnot & Hhd & Hskip).
           exists k. repeat split; auto; try lia.
           intros j Hj. assert (j = d \/ d + 1 <= j) as [->|Hj'] by lia.
           ++ right. exact Hslots.
           ++ apply Hskip. lia.
        -- intros k Hk. assert (k = d \/ d + 1 <= k) as [->|Hk'] by lia.
           ++ right. exact Hslots.
           ++ apply IH. lia.
      * exists d. split; [lia|]. split; [exact Hday|].
        split; [exists rest; exact Hslots|]. intros j Hj. lia.
Qed.

Lemma fallbackSlot_value (now : Z) :
  fallbackSlot now = JsDate.startOfDay now + 14 * JsDate.msPerDay + 9 * JsDate.msPerHour.
Proof.
  unfold fallbackSlot, JsDate.setHours, JsDate.addDays, JsDate.startOfDay, JsDate.dayIndex.
  rewrite Z.div_add by (vm_compute; discriminate). lia.
Qed.

Lemma nextHourOf_bounds (now : Z) :
  now < nextHourOf now <= now + JsDate.msPerHour
  /\ nextHourOf now mod JsDate.msPerHour = 0.
Proof.
  unfold nextHourOf, JsDate.startOfHour.
  assert (Hh : 0 < JsDate.msPerHour) by (vm_compute; reflexivity).
  pose proof (Z.mod_pos_bound now _ Hh) as Hm.
  pose proof (Z.div_mod now JsDate.msPerHour ltac:(lia)) as Hd.
  split; [lia|].
  replace (now / JsDate.msPerHour * JsDate.msPerHour + JsDate.msPerHour)
    with ((now / JsDate.msPerHour + 1) * JsDate.msPerHour) by lia.
  apply Z.mod_mul. lia.
Qed.

Lemma findEmergencySlot_spec (db : Store) (companyId : string) (now : Z) :
  match findEmergencySlot db companyId now with
  | Some r => emergencyCandidate db companyId now r
              /\ forall s, emergencyCandidate db companyId now s -> r <= s
  | None => forall s, ~ emergencyCandidate db companyId now s
  end.
Proof.
  unfold findEmergencySlot, emergencyCandidate.
  destruct (getAvailableSlots_spec db companyId now 120) as (_ & Hsorted & Hin).
  destruct (filter _ _) as [|r rest] eqn:Hf.
  - intros s (Hgrid & Hfree & Hnext).
    pose proof (filter_nil_none _ _ Hf s (proj2 (Hin s) (conj Hgrid Hfree))) as Hp.
    cbv beta in Hp. rewrite Z.geb_leb in Hp. apply Z.leb_gt in Hp. lia.
  - destruct (filter_head_least _ _ Hsorted _ _ Hf) as (Hr & Hpr & Hmin).
    rewrite Z.geb_leb in Hpr. apply Z.leb_le in Hpr.
    apply Hin in Hr. split; [tauto|].
    intros s (Hgrid & Hfree & Hnext). apply Hmin.
    + apply Hin. auto.
    + rewrite Z.geb_leb. apply Z.leb_le. exact Hnext.
Qed.

End SlotAllocator.

(** C1. Every slot returned by [getAvailableSlots] is disjoint, as a
    half-open interval of the requested duration, from the interval of
    every active (neither cancelled nor completed) appointment of the
    company on that date, and none of the three overlap conditions
    (starts inside, ends inside, contains) holds for it. *)
Theorem getAvailableSlots_disjoint_from_active
        (db : Appointment.Store) (companyId : string) (date duration slot : Z)
        (appt : Appointment.AppointmentRow) :
  In slot (Appointment.getAvailableSlots db companyId date duration) ->
  In appt db ->
  Appointment.company_id appt = companyId ->
  JsDate.dayIndex (Appointment.scheduled_date appt) = JsDate.dayIndex date ->
  Appointment.status appt <> "cancelled" ->
  Appointment.status appt <> "completed" ->
  let slotEnd := slot + duration * 60000 in
  let apptStart := Appointment.scheduled_date appt in
  let apptEnd := apptStart + Appointment.estimated_duration appt * 60000 in
  (forall x, ~ (slot <= x < slotEnd /\ apptStart <= x < apptEnd))
  /\ ~ (apptStart <= slot < apptEnd)
  /\ ~ (apptStart < slotEnd <= apptEnd)
  /\ ~ (slot <= apptStart /\ apptEnd <= slotEnd).
Proof.
  intros Hslot Happt Hcompany Hdate Hcancelled Hcompleted.
  destruct (getAvailableSlots_spec db companyId date duration) as (_ & _ & Hin).
  apply Hin in Hslot. destruct Hslot as (_ & Hfree).
  assert (Hc : Appointment.conflictsWith slot (slot + duration * 60000) appt = false).
  { apply Hfree; auto.
    - unfold Appointment.sameDate. apply Z.eqb_eq. exact Hdate.
    - unfold Appointment.isActive.
      apply String.eqb_neq in Hcancelled. apply String.eqb_neq in Hcompleted.
      rewrite Hcancelled, Hcompleted. reflexivity. }
  apply conflictsWith_false in Hc. cbv zeta in *. tauto.
Qed.

Lemma getAvailableSlots_disjoint_from_active_witness :
  let slot := Sample.at_ Sample.friday 10 0 in
  let slotEnd := slot + 60 * 60000 in
  let apptStart := Appointment.scheduled_date Sample.nineToTen in
  let apptEnd := apptStart + Appointment.estimated_duration Sample.nineToTen * 60000 in
  (forall x, ~ (slot <= x < slotEnd /\ apptStart <= x < apptEnd))
  /\ ~ (apptStart <= slot < apptEnd)
  /\ ~ (apptStart < slotEnd <= apptEnd)
  /\ ~ (slot <= apptStart /\ apptEnd <= slotEnd).
Proof.
  apply (getAvailableSlots_disjoint_from_active
           Sample.store "acme" (Sample.at_ Sample.friday 0 5) 60
           (Sample.at_ Sample.friday 10 0) Sample.nineToTen).
  - vm_compute. left. reflexivity.
  - left. reflexivity.
  - reflexivity.
  - reflexivity.
  - discriminate.
  - discriminate.
Defined.

(** C3. With priority EMERGENCY, [getNextAvailableSlot] first looks at
    today's candidates that start no earlier than the next full hour
    after now and are free for 120 minutes: if there is one it returns the
    earliest of them, a slot of the current day; only if there is none
    does it return what the standard multi-day search returns. *)
Theorem emergency_search_same_day_first
        (db : Appointment.Store) (companyId : string) (now : Z) :
  let r := Appointment.getNextAvailableSlot db companyId EMERGENCY now in
  ((exists s, Appointment.emergencyCandidate db companyId now s) ->
   Appointment.emergencyCandidate db companyId now r
   /\ JsDate.dayIndex r = JsDate.dayIndex now
   /\ forall s, Appointment.emergencyCandidate db companyId now s -> r <= s)
  /\ ((forall s, ~ Appointment.emergencyCandidate db companyId now s) ->
      r = Appointment.standardSearch db companyId now)
  /\ Appointment.standardSearch db companyId now
     = Appointment.getNextAvailableSlot db companyId MEDIUM now
  /\ (now < Appointment.nextHourOf now <= now + JsDate.msPerHour
      /\ Appointment.nextHourOf now mod JsDate.msPerHour = 0).
Proof.
  cbv zeta. unfold Appointment.getNextAvailableSlot. simpl Priority_eqb. cbv iota.
  pose proof (findEmergencySlot_spec db companyId now) as Hspec.
  destruct (Appointment.findEmergencySlot db companyId now) as [r|].
  - destruct Hspec as (Hcand & Hmin). split; [|split; [|split]].
    + intros _. split; [exact Hcand|]. split; [|exact Hmin].
      apply onGrid_same_day. apply Hcand.
    + intros Hnone. exfalso. exact (Hnone r Hcand).
    + reflexivity.
    + apply nextHourOf_bounds.
  - split; [|split; [|split]].
    + intros (s & Hs). exfalso. exact (Hspec s Hs).
    + reflexivity.
    + reflexivity.
    + apply nextHourOf_bounds.
Qed.

Example emergency_same_day :
  Appointment.getNextAvailableSlot Sample.store "acme" EMERGENCY (Sample.at_ Sample.friday 10 20)
  = Sample.at_ Sample.friday 11 0.
Proof. vm_compute. reflexivity. Qed.

(** On the hour the search starts one hour later: 10:00 is free here. *)
Example emergency_on_the_hour :
  In (Sample.at_ Sample.friday 10 0)
     (Appointment.getAvailableSlots Sample.store "acme" (Sample.at_ Sample.friday 10 0) 120)
  /\ Appointment.getNextAvailableSlot Sample.store "acme" EMERGENCY (Sample.at_ Sample.friday 10 0)
     = Sample.at_ Sample.friday 11 0.
Proof. vm_compute. split; [left|]; reflexivity. Qed.

Example emergency_falls_back :
  Appointment.findEmergencySlot Sample.store "acme" (Sample.at_ Sample.friday 16 30) = None
  /\ Appointment.getNextAvailableSlot Sample.store "acme" EMERGENCY (Sample.at_ Sample.friday 16 30)
     = Sample.at_ Sample.friday 10 0.
Proof. vm_compute. split; reflexivity. Qed.

(** C4. With any priority other than EMERGENCY, [getNextAvailableSlot]
    walks the days 0..13 ahead of now in order, skips Sundays and days
    without a free 60-minute slot, and returns the first (and earliest)
    slot of the first remaining day; when all fourteen days are skipped it
    returns 09:00 of the day fourteen days ahead. *)
Theorem standard_search_first_day_or_fallback
        (db : Appointment.Store) (companyId : string) (priority : Priority) (now : Z) :
  priority <> EMERGENCY ->
  let r := Appointment.getNextAvailableSlot db companyId priority now in
  (exists k,
      0 <= k < 14
      /\ JsDate.getDay (JsDate.addDays now k) <> 0
      /\ (exists rest,
             Appointment.getAvailableSlots db companyId (JsDate.addDays now k) 60 = r :: rest)
      /\ (forall s, In s (Appointment.getAvailableSlots db companyId (JsDate.addDays now k) 60)
                    -> r <= s)
      /\ forall j, 0 <= j < k -> Appointment.skipsDay db companyId now j)
  \/ ((forall k, 0 <= k < 14 -> Appointment.skipsDay db companyId now k)
      /\ r = JsDate.startOfDay now + 14 * JsDate.msPerDay + 9 * JsDate.msPerHour).
Proof.
  intros Hprio. cbv zeta. unfold Appointment.getNextAvailableSlot.
  assert (Hnot : Priority_eqb priority EMERGENCY = false)
    by (destruct priority; try reflexivity; congruence).
  rewrite Hnot. unfold Appointment.standardSearch.
  pose proof (searchDays_spec db companyId now 14 0) as Hspec.
  destruct (Appointment.searchDays db companyId now 14 0) as [r|].
  - left. destruct Hspec as (k & Hk & Hday & (rest & Hslots) & Hskip).
    exists k. split; [simpl in Hk; lia|]. split; [exact Hday|].
    split; [exists rest; exact Hslots|]. split.
    + destruct (getAvailableSlots_spec db companyId (JsDate.addDays now k) 60)
        as (_ & Hsorted & _).
      rewrite Hslots in *. inversion Hsorted as [|? ? _ Hall]; subst.
      rewrite Forall_forall in Hall.
      intros s [<-|Hs]; [lia | apply Hall in Hs; lia].
    + intros j Hj. apply Hskip. lia.
  - right. split.
    + intros k Hk. apply Hspec. simpl. lia.
    + apply fallbackSlot_value.
Qed.

Lemma standard_search_first_day_or_fallback_witness :
  let now := Sample.at_ Sample.friday 10 20 in
  let r := Appointment.getNextAvailableSlot Sample.store "acme" MEDIUM now in
  (exists k,
      0 <= k < 14
      /\ JsDate.getDay (JsDate.addDays now k) <> 0
      /\ (exists rest,
             Appointment.getAvailableSlots Sample.store "acme" (JsDate.addDays now k) 60 = r :: rest)
      /\ (forall s, In s (Appointment.getAvailableSlots Sample.store "acme" (JsDate.addDays now k) 60)
                    -> r <= s)
      /\ forall j, 0 <= j < k -> Appointment.skipsDay Sample.store "acme" now j)
  \/ ((forall k, 0 <= k < 14 -> Appointment.skipsDay Sample.store "acme" now k)
      /\ r = JsDate.startOfDay now + 14 * JsDate.msPerDay + 9 * JsDate.msPerHour).
Proof.
  apply (standard_search_first_day_or_fallback
           Sample.store "acme" MEDIUM (Sample.at_ Sample.friday 10 20)).
  discriminate.
Defined.

Example standard_search_today :
  Appointment.getNextAvailableSlot Sample.store "acme" MEDIUM (Sample.at_ Sample.friday 10 20)
  = Sample.at_ Sample.friday 10 0.
Proof. vm_compute. reflexivity. Qed.

(* ================================================================= *)
(** ** Properties of the intent classifier *)

(** C6. [classifyCallType] applies its rules in a fixed order in which the
    first match wins: EMERGENCY exactly when [detectEmergency] holds, then
    APPOINTMENT_BOOKING, PRICE_ESTIMATE, SERVICE_REQUEST, and
    GENERAL_INQUIRY when nothing matches; a text with scheduling and cost
    vocabulary and no emergency keyword is an APPOINTMENT_BOOKING; the two
    sample sentences classify as stated. *)
Theorem classifyCallType_first_match_wins (transcript : string) :
  let lower := Js.toLowerCase transcript in
  let emergency := HVAC.detectEmergency transcript in
  let booking := HVAC.containsAppointmentKeywords lower in
  let pricing := HVAC.containsPriceKeywords lower in
  let service := HVAC.containsServiceKeywords lower in
  (HVAC.classifyCallType transcript = CT_EMERGENCY <-> emergency = true)
  /\ (HVAC.classifyCallType transcript = CT_APPOINTMENT_BOOKING <->
      emergency = false /\ booking = true)
  /\ (HVAC.classifyCallType transcript = CT_PRICE_ESTIMATE <->
      emergency = false /\ booking = false /\ pricing = true)
  /\ (HVAC.classifyCallType transcript = CT_SERVICE_REQUEST <->
      emergency = false /\ booking = false /\ pricing = false /\ service = true)
  /\ (HVAC.classifyCallType transcript = CT_GENERAL_INQUIRY <->
      emergency = false /\ booking = false /\ pricing = false /\ service = false)
  /\ (emergency = false -> booking = true -> pricing = true ->
      HVAC.classifyCallType transcript = CT_APPOINTMENT_BOOKING)
  /\ HVAC.classifyCallType "I want to schedule an appointment" = CT_APPOINTMENT_BOOKING
  /\ HVAC.classifyCallType "How much does furnace repair cost?" = CT_PRICE_ESTIMATE.
Proof.
  cbv zeta. unfold HVAC.classifyCallType.
  destruct (HVAC.detectEmergency transcript);
    destruct (HVAC.containsAppointmentKeywords (Js.toLowerCase transcript));
    destruct (HVAC.containsPriceKeywords (Js.toLowerCase transcript));
    destruct (HVAC.containsServiceKeywords (Js.toLowerCase transcript));
    repeat split; intros;
    repeat match goal with H : _ /\ _ |- _ => destruct H end;
    try discriminate; try reflexivity;
    try (vm_compute; reflexivity).
Qed.

(** Scheduling and cost vocabulary together, no emergency keyword. *)
Example classify_booking_before_pricing :
  let text := "How much would it cost to book a visit?" in
  HVAC.detectEmergency text = false
  /\ HVAC.containsAppointmentKeywords (Js.toLowerCase text) = true
  /\ HVAC.containsPriceKeywords (Js.toLowerCase text) = true
  /\ HVAC.classifyCallType text = CT_APPOINTMENT_BOOKING.
Proof. vm_compute. repeat split; reflexivity. Qed.

Lemma collectServices_In (lower : string) (entries : list (string * list string)) :
  forall (services : list string) (service : string),
    In service (HVAC.collectServices entries lower services) <->
    In service services
    \/ exists keywords, In (service, keywords) entries
                        /\ Js.someIncluded keywords lower = true.
Proof.
  induction entries as [|[name keywords] rest IH]; intros services service; simpl.
  - split; [auto | intros [H|(k & [] & _)]; exact H].
  - destruct (Js.someIncluded keywords lower) eqn:Hmatch; rewrite IH.
    + rewrite in_app_iff. simpl. split.
      * intros [[H|[<-|[]]]|(k & Hk & Hm)]; [left; exact H | | ].
        -- right. exists keywords. auto.
        -- right. exists k. auto.
      * intros [H|(k & [Heq|Hk] & Hm)]; [left; left; exact H | | ].
        -- injection Heq as <- <-. left. right. left. reflexivity.
        -- right. exists k. auto.
    + split.
      * intros [H|(k & Hk & Hm)]; [left; exact H | right; exists k; auto].
      * intros [H|(k & [Heq|Hk] & Hm)]; [left; exact H | | right; exists k; auto].
        injection Heq as <- <-. congruence.
Qed.

(** C7. [extractServiceType] never returns the empty list; it contains
    every category one of whose keywords occurs in the lower-cased text
    (several at once when several match), and it is exactly
    ["general_hvac"] when no category matches, as for the sample
    sentence. *)
Theorem extractServiceType_nonempty_complete (transcript : string) :
  let lower := Js.toLowerCase transcript in
  HVAC.extractServiceType transcript <> []
  /\ (forall service keywords,
         In (service, keywords) HVAC.serviceMap ->
         Js.someIncluded keywords lower = true ->
         In service (HVAC.extractServiceType transcript))
  /\ ((forall service keywords,
          In (service, keywords) HVAC.serviceMap ->
          Js.someIncluded keywords lower = false) ->
      HVAC.extractServiceType transcript = ["general_hvac"])
  /\ HVAC.extractServiceType "I have some issues with my system" = ["general_hvac"].
Proof.
  cbv zeta. unfold HVAC.extractServiceType.
  pose proof (collectServices_In (Js.toLowerCase transcript) HVAC.serviceMap []) as Hin.
  destruct (HVAC.collectServices HVAC.serviceMap (Js.toLowerCase transcript) [])
    as [|first others].
  - simpl. split; [discriminate|]. split; [|split; [reflexivity | vm_compute; reflexivity]].
    intros service keywords Hentry Hmatch. exfalso.
    apply (proj2 (Hin service)). right. exists keywords. auto.
  - simpl. split; [discriminate|]. split; [|split; [|vm_compute; reflexivity]].
    + intros service keywords Hentry Hmatch.
      apply (proj2 (Hin service)). right. exists keywords. auto.
    + intros Hnone. exfalso.
      destruct (proj1 (Hin first) (or_introl eq_refl)) as [[]|(k & Hk & Hm)].
      rewrite (Hnone _ _ Hk) in Hm. discriminate.
Qed.

Example extract_several :
  HVAC.extractServiceType
    "I need both heating and air conditioning repair plus thermostat installation"
  = ["heating"; "cooling"; "thermostat"; "installation"].
Proof. vm_compute. reflexivity. Qed.

(* ================================================================= *)
(** ** Properties of the business-hours test *)

(** C5 as stated fails at closing time: on a Tuesday open 8:00 AM to
    6:00 PM, at 18:00 the encoded time 1800 lies outside [800, 1800), yet
    [isAfterHours] answers false. *)
Lemma isAfterHours_half_open_counterexample :
  let now := Sample.at_ Sample.tuesday 18 0 in
  let today := HVAC.hoursOfDay Sample.mockHours (JsDate.getDay now) in
  ~ (HVAC.isAfterHours Sample.mockHours now = Some true <->
     HVAC.isClosed today = true
     \/ exists openTime closeTime,
         HVAC.parseTime (HVAC.open today) = Some openTime
         /\ HVAC.parseTime (HVAC.close today) = Some closeTime
         /\ ~ (openTime <= HVAC.currentTimeOf now < closeTime)).
Proof.
  cbv zeta. intros [_ Hclaim].
  assert (Hfalse : HVAC.isAfterHours Sample.mockHours (Sample.at_ Sample.tuesday 18 0)
                   = Some false) by (vm_compute; reflexivity).
  rewrite Hfalse in Hclaim.
  assert (Habs : Some false = Some true); [|discriminate Habs].
  apply Hclaim. right. exists 800, 1800.
  split; [vm_compute; reflexivity|]. split; [vm_compute; reflexivity|].
  change (HVAC.currentTimeOf (Sample.at_ Sample.tuesday 18 0)) with 1800. lia.
Qed.

(** C5, amended. [isAfterHours] answers true when the current weekday is
    marked closed; on an open day whose times parse it answers true
    exactly when hours*100+minutes lies outside the closed interval
    [open, close], so the closing minute itself still counts as open. *)
Theorem isAfterHours_closed_interval (businessHours : HVAC.BusinessHours) (now : Z) :
  let today := HVAC.hoursOfDay businessHours (JsDate.getDay now) in
  let currentTime := JsDate.getHours now * 100 + JsDate.getMinutes now in
  (HVAC.isClosed today = true -> HVAC.isAfterHours businessHours now = Some true)
  /\ forall openTime closeTime,
       HVAC.isClosed today = false ->
       HVAC.parseTime (HVAC.open today) = Some openTime ->
       HVAC.parseTime (HVAC.close today) = Some closeTime ->
       (HVAC.isAfterHours businessHours now = Some true <->
        currentTime < openTime \/ closeTime < currentTime)
       /\ (HVAC.isAfterHours businessHours now = Some false <->
           openTime <= currentTime <= closeTime).
Proof.
  cbv zeta. unfold HVAC.isAfterHours, HVAC.currentTimeOf. split.
  - intros ->. reflexivity.
  - intros openTime closeTime -> -> ->.
    rewrite Z.gtb_ltb.
    destruct (Z.ltb_spec (JsDate.getHours now * 100 + JsDate.getMinutes now) openTime);
      destruct (Z.ltb_spec closeTime (JsDate.getHours now * 100 + JsDate.getMinutes now));
      simpl; split; split; intros H1; try discriminate H1; try reflexivity; lia.
Qed.

Example after_hours_at_22 :
  HVAC.isAfterHours Sample.mockHours (Sample.at_ Sample.tuesday 22 0) = Some true.
Proof. vm_compute. reflexivity. Qed.

Example open_at_10 :
  HVAC.isAfterHours Sample.mockHours (Sample.at_ Sample.tuesday 10 0) = Some false.
Proof. vm_compute. reflexivity. Qed.

Example open_at_closing_time :
  HVAC.isAfterHours Sample.mockHours (Sample.at_ Sample.tuesday 18 0) = Some false
  /\ HVAC.isAfterHours Sample.mockHours (Sample.at_ Sample.tuesday 18 1) = Some true.
Proof. vm_compute. split; reflexivity. Qed.

Example closed_on_sunday :
  JsDate.getDay (Sample.friday + 2 * JsDate.msPerDay) = 0
  /\ HVAC.isAfterHours Sample.mockHours (Sample.at_ (Sample.friday + 2 * JsDate.msPerDay) 10 0)
     = Some true.
Proof. vm_compute. split; reflexivity. Qed.

(* ================================================================= *)
(** ** Properties of the price estimator *)

Lemma Math_round_eighths (m k : Z) :
  Js.Math_round (inject_Z m * (k # 8)) = (k * m + 4) / 8.
Proof.
  unfold Js.Math_round.
  rewrite (Qfloor_comp _ ((k * m + 4) # 8)).
  - reflexivity.
  - unfold Qeq, Qplus, Qmult, inject_Z. simpl. lia.
Qed.

Lemma multiplierOf_eighths (isEmergency isAfterHours : bool) :
  (HVAC.multiplierOf isEmergency isAfterHours
   == HVAC.eighths isEmergency isAfterHours # 8)%Q.
Proof. destruct isEmergency, isAfterHours; reflexivity. Qed.

Lemma roundedPrice_eighths (x : option Z) (isEmergency isAfterHours : bool) :
  HVAC.roundedPrice x (HVAC.multiplierOf isEmergency isAfterHours)
  = option_map (fun z => (HVAC.eighths isEmergency isAfterHours * z + 4) / 8) x.
Proof.
  destruct x as [z|]; [|reflexivity].
  cbn [HVAC.roundedPrice option_map]. f_equal.
  rewrite <- Math_round_eighths. unfold Js.Math_round.
  apply Qfloor_comp. rewrite multiplierOf_eighths. reflexivity.
Qed.

Lemma Math_round_fifteen_eighths (m : Z) :
  Js.Math_round (inject_Z m * ((3 # 2) * (5 # 4))) = (15 * m + 4) / 8.
Proof.
  rewrite <- (Math_round_eighths m 15). unfold Js.Math_round.
  apply Qfloor_comp. apply Qplus_comp; [|reflexivity].
  apply Qmult_comp; reflexivity.
Qed.

(** *** Substring facts *)

Section Substrings.

Lemma append_assoc (a b c : string) : ((a ++ b) ++ c = a ++ b ++ c)%string.
Proof. induction a as [|x a IH]; simpl; [reflexivity | rewrite IH; reflexivity]. Qed.

Lemma includes_nil (k : string) :
  Js.includes "" k = String.prefix k "".
Proof. destruct k; reflexivity. Qed.

Lemma includes_cons (c : ascii) (s k : string) :
  Js.includes (String c s) k = (String.prefix k (String c s) || Js.includes s k)%bool.
Proof. reflexivity. Qed.

Lemma prefix_app_same (k b : string) : String.prefix k (k ++ b) = true.
Proof.
  induction k as [|c k IH]; simpl.
  - destruct b; reflexivity.
  - destruct (ascii_dec c c); [exact IH | congruence].
Qed.

Lemma prefix_app_l (k a r : string) :
  String.prefix k a = true -> String.prefix k (a ++ r) = true.
Proof.
  revert k. induction a as [|d a IH]; intros [|c k]; simpl; try discriminate.
  - destruct r; reflexivity.
  - reflexivity.
  - destruct (ascii_dec c d); [apply IH | discriminate].
Qed.

Lemma includes_app_r (a r k : string) :
  Js.includes r k = true -> Js.includes (a ++ r) k = true.
Proof.
  intros Hr. induction a as [|d a IH]; [exact Hr|].
  change (String d a ++ r)%string with (String d (a ++ r)).
  rewrite includes_cons, IH. apply orb_true_r.
Qed.

Lemma includes_app_l (a r k : string) :
  Js.includes a k = true -> Js.includes (a ++ r) k = true.
Proof.
  induction a as [|d a IH].
  - rewrite includes_nil. intros Hp. destruct k; [|discriminate Hp].
    destruct r; reflexivity.
  - rewrite includes_cons. intros H. apply orb_true_iff in H.
    change (String d a ++ r)%string with (String d (a ++ r)).
    rewrite includes_cons. apply orb_true_iff. destruct H as [Hp|Hi].
    + left. apply (prefix_app_l _ _ r Hp).
    + right. apply IH. exact Hi.
Qed.

(** A prefix match on [x ++ r] lies inside [x] or ends inside [r]. *)
Lemma prefix_app_split (r : string) :
  forall (x k : string),
    String.prefix k (x ++ r) = true ->
    String.prefix k x = true
    \/ existsb (fun v => String.prefix v r) (Js.tails k) = true.
Proof.
  induction x as [|d x IH]; intros [|c k] Hp.
  - left. reflexivity.
  - right. simpl in Hp. cbn [Js.tails existsb]. rewrite Hp. reflexivity.
  - left. reflexivity.
  - change (String d x ++ r)%string with (String d (x ++ r)) in Hp.
    cbn [String.prefix] in Hp. cbn [String.prefix].
    destruct (ascii_dec c d); [|discriminate].
    destruct (IH _ Hp) as [H|H]; [left; exact H|].
    right. cbn [Js.tails existsb]. rewrite H. apply orb_true_r.
Qed.

Lemma includes_app_inv (k r : string) :
  Js.noStraddle k r = true -> Js.includes r k = false ->
  forall x, Js.includes x k = false -> Js.includes (x ++ r) k = false.
Proof.
  intros Hno Hr. unfold Js.noStraddle in Hno. apply negb_true_iff in Hno.
  induction x as [|d x IH]; intros Hx; [exact Hr|].
  rewrite includes_cons in Hx. apply orb_false_iff in Hx. destruct Hx as [Hp Hx].
  change (String d x ++ r)%string with (String d (x ++ r)).
  rewrite includes_cons. apply orb_false_iff. split; [|apply IH; exact Hx].
  destruct (String.prefix k (String d (x ++ r))) eqn:Hp'; [|reflexivity].
  change (String d (x ++ r)) with (String d x ++ r)%string in Hp'.
  destruct (prefix_app_split r _ _ Hp') as [H|H]; congruence.
Qed.

Lemma includes_skip (c c' : ascii) (s k' : string) :
  c' <> c -> Js.includes (String c s) (String c' k') = Js.includes s (String c' k').
Proof.
  intros Hne. rewrite includes_cons. cbn [String.prefix].
  destruct (ascii_dec c' c); [contradiction | reflexivity].
Qed.

End Substrings.

(** *** Where the disclosures occur *)

Lemma priceTextFor_shape (serviceName : string) (isEmergency isAfterHours : bool) :
  HVAC.priceTextFor serviceName isEmergency isAfterHours
  = ("For " ++ HVAC.displayName serviceName
     ++ HVAC.restOf (HVAC.estimatedMinFor serviceName isEmergency isAfterHours)
                    (HVAC.estimatedMaxFor serviceName isEmergency isAfterHours)
                    isEmergency isAfterHours)%string.
Proof.
  unfold HVAC.priceTextFor, HVAC.restOf. cbv zeta.
  destruct isEmergency, isAfterHours; rewrite ?append_assoc; reflexivity.
Qed.

Lemma inheritedKey_In (key : string) :
  Js.inheritedKey key = true <-> In key Js.objectPrototypeKeys.
Proof.
  unfold Js.inheritedKey. rewrite existsb_exists. split.
  - intros [k [Hin Heq]]. apply String.eqb_eq in Heq. subst k. exact Hin.
  - intros Hin. exists key. split; [exact Hin | apply String.eqb_refl].
Qed.

Lemma lookup_None_not_key {A : Type} (key : string) (table : list (string * A)) :
  Js.lookup key table = None <-> ~ In key (map fst table).
Proof.
  induction table as [|[k v] rest IH]; simpl.
  - tauto.
  - destruct (String.eqb_spec k key) as [->|Hne].
    + split; [discriminate | intros H; exfalso; apply H; left; reflexivity].
    + rewrite IH. split; [intros H [Heq|Hin]; [congruence | exact (H Hin)] | tauto].
Qed.

(** The three ways the lookup of the base price comes out. *)
Lemma basePriceOf_cases (serviceName : string) :
  (exists range, Js.lookup serviceName HVAC.basePrices = Some range
                 /\ HVAC.basePriceOf serviceName = HVAC.Entry range)
  \/ (Js.lookup serviceName HVAC.basePrices = None
      /\ Js.inheritedKey serviceName = true
      /\ HVAC.basePriceOf serviceName = HVAC.Member)
  \/ (Js.lookup serviceName HVAC.basePrices = None
      /\ Js.inheritedKey serviceName = false
      /\ HVAC.basePriceOf serviceName = HVAC.Entry HVAC.general_hvac_price).
Proof.
  unfold HVAC.basePriceOf, Js.getProperty.
  destruct (Js.lookup serviceName HVAC.basePrices) as [range|].
  - left. exists range. split; reflexivity.
  - right. destruct (Js.inheritedKey serviceName); [left | right]; repeat split.
Qed.

Lemma lookup_Some_key {A : Type} (key : string) (table : list (string * A)) (v : A) :
  Js.lookup key table = Some v -> In key (map fst table).
Proof.
  intros H. destruct (in_dec string_dec key (map fst table)) as [Hin|Hout]; [exact Hin|].
  apply lookup_None_not_key in Hout. congruence.
Qed.

Lemma emergency_phrase_present (serviceName : string) (isAfterHours : bool) :
  Js.includes (HVAC.priceTextFor serviceName true isAfterHours) HVAC.emergencyDisclosure = true.
Proof.
  rewrite priceTextFor_shape. unfold HVAC.restOf.
  do 6 apply includes_app_r. apply includes_app_l. vm_compute. reflexivity.
Qed.

Lemma afterHours_phrase_present (serviceName : string) (isEmergency : bool) :
  Js.includes (HVAC.priceTextFor serviceName isEmergency true) HVAC.afterHoursDisclosure = true.
Proof.
  rewrite priceTextFor_shape. unfold HVAC.restOf.
  do 7 apply includes_app_r. apply includes_app_l. vm_compute. reflexivity.
Qed.

Lemma emergency_phrase_absent (serviceName : string) (isAfterHours : bool) :
  Js.includes (HVAC.displayName serviceName) HVAC.emergencyDisclosure = false ->
  Js.includes (HVAC.priceTextFor serviceName false isAfterHours) HVAC.emergencyDisclosure
  = false.
Proof.
  intros Hname.
  destruct (basePriceOf_cases serviceName)
    as [[range [Hkey _]]|[[_ [Hkey _]]|[_ [_ Hgeneral]]]].
  - apply lookup_Some_key in Hkey. simpl in Hkey.
    repeat match goal with H : _ \/ _ |- _ => destruct H as [<-|H] end;
      try contradiction; destruct isAfterHours; vm_compute; reflexivity.
  - apply inheritedKey_In in Hkey. simpl in Hkey.
    repeat match goal with H : _ \/ _ |- _ => destruct H as [<-|H] end;
      try contradiction; destruct isAfterHours; vm_compute; reflexivity.
  - rewrite priceTextFor_shape. unfold HVAC.estimatedMinFor, HVAC.estimatedMaxFor.
    rewrite Hgeneral. unfold HVAC.emergencyDisclosure in *.
    cbn [append]. rewrite !includes_skip by discriminate.
    apply includes_app_inv; [| |exact Hname];
      destruct isAfterHours; vm_compute; reflexivity.
Qed.

Lemma afterHours_phrase_absent (serviceName : string) (isEmergency : bool) :
  Js.includes (HVAC.displayName serviceName) HVAC.afterHoursDisclosure = false ->
  Js.includes (HVAC.priceTextFor serviceName isEmergency false) HVAC.afterHoursDisclosure
  = false.
Proof.
  intros Hname.
  destruct (basePriceOf_cases serviceName)
    as [[range [Hkey _]]|[[_ [Hkey _]]|[_ [_ Hgeneral]]]].
  - apply lookup_Some_key in Hkey. simpl in Hkey.
    repeat match goal with H : _ \/ _ |- _ => destruct H as [<-|H] end;
      try contradiction; destruct isEmergency; vm_compute; reflexivity.
  - apply inheritedKey_In in Hkey. simpl in Hkey.
    repeat match goal with H : _ \/ _ |- _ => destruct H as [<-|H] end;
      try contradiction; destruct isEmergency; vm_compute; reflexivity.
  - rewrite priceTextFor_shape. unfold HVAC.estimatedMinFor, HVAC.estimatedMaxFor.
    rewrite Hgeneral. unfold HVAC.afterHoursDisclosure in *.
    cbn [append]. rewrite !includes_skip by discriminate.
    apply includes_app_inv; [| |exact Hname];
      destruct isEmergency; vm_compute; reflexivity.
Qed.

(** The text for a name whose base price is a table entry. *)
Lemma priceTextFor_entry (serviceName : string) (range : HVAC.PriceRange)
      (isEmergency isAfterHours : bool) :
  HVAC.basePriceOf serviceName = HVAC.Entry range ->
  HVAC.priceTextFor serviceName isEmergency isAfterHours
  = ("For " ++ HVAC.displayName serviceName ++ " service, our typical range is $"
     ++ Js.showInt ((HVAC.eighths isEmergency isAfterHours * HVAC.price_min range + 4) / 8)
     ++ "-$"
     ++ Js.showInt ((HVAC.eighths isEmergency isAfterHours * HVAC.price_max range + 4) / 8)
     ++ (if isEmergency then " (emergency service rates apply)" else "")
     ++ (if isAfterHours then " (after-hours rates apply)" else "")
     ++ HVAC.priceTail)%string.
Proof.
  intros Hbase. rewrite priceTextFor_shape.
  unfold HVAC.estimatedMinFor, HVAC.estimatedMaxFor. rewrite Hbase, !roundedPrice_eighths.
  unfold HVAC.restOf. destruct isEmergency, isAfterHours; reflexivity.
Qed.

(** The text for a name whose base price is an inherited member. *)
Lemma priceTextFor_member (serviceName : string) (isEmergency isAfterHours : bool) :
  HVAC.basePriceOf serviceName = HVAC.Member ->
  HVAC.priceTextFor serviceName isEmergency isAfterHours
  = ("For " ++ HVAC.displayName serviceName ++ " service, our typical range is $NaN-$NaN"
     ++ (if isEmergency then " (emergency service rates apply)" else "")
     ++ (if isAfterHours then " (after-hours rates apply)" else "")
     ++ HVAC.priceTail)%string.
Proof.
  intros Hbase. rewrite priceTextFor_shape.
  unfold HVAC.estimatedMinFor, HVAC.estimatedMaxFor. rewrite Hbase.
  unfold HVAC.restOf. destruct isEmergency, isAfterHours; reflexivity.
Qed.

(** C8 as stated fails for a service name that itself contains a
    disclosure phrase: without any emergency the text still contains
    "emergency service rates apply". *)
Lemma estimateServicePrice_disclosure_counterexample :
  let text := HVAC.estimateServicePrice ["emergency service rates apply"] false false in
  ~ (Js.includes text "emergency service rates apply" = true <-> false = true).
Proof. vm_compute. intros [H _]. discriminate (H eq_refl). Qed.

(** C8, amended. The surcharges compose multiplicatively: unless the
    service name is that of a member inherited from [Object.prototype],
    the base price is the table entry of the name, or the general_hvac
    entry when the table has none, and with both flags the text quotes
    its minimum and maximum times 1.5 x 1.25 = 15/8, rounded to the
    nearest integer (halves upwards). For every list the text contains
    "emergency service rates apply" whenever the emergency flag is set and
    "after-hours rates apply" whenever the after-hours flag is set;
    conversely, provided the displayed service name does not itself
    contain the phrase, the phrase occurs only when its flag is set. For
    ["heating"] with both flags the range is 281-1500. *)
Theorem estimateServicePrice_surcharges
        (serviceType : list string) (isEmergency isAfterHours : bool) :
  let serviceName := HVAC.serviceNameOf serviceType in
  let text := HVAC.estimateServicePrice serviceType isEmergency isAfterHours in
  (Js.inheritedKey serviceName = false ->
   exists base,
     (Js.lookup serviceName HVAC.basePrices = Some base
      \/ (Js.lookup serviceName HVAC.basePrices = None
          /\ base = {| HVAC.price_min := 125; HVAC.price_max := 500 |}))
     /\ let lo := Js.Math_round (inject_Z (HVAC.price_min base) * ((3 # 2) * (5 # 4))) in
        let hi := Js.Math_round (inject_Z (HVAC.price_max base) * ((3 # 2) * (5 # 4))) in
        lo = (15 * HVAC.price_min base + 4) / 8
        /\ hi = (15 * HVAC.price_max base + 4) / 8
        /\ HVAC.estimateServicePrice serviceType true true
           = ("For " ++ HVAC.displayName serviceName ++ " service, our typical range is $"
              ++ Js.showInt lo ++ "-$" ++ Js.showInt hi
              ++ " (emergency service rates apply) (after-hours rates apply)"
              ++ HVAC.priceTail)%string)
  /\ (isEmergency = true -> Js.includes text "emergency service rates apply" = true)
  /\ (isAfterHours = true -> Js.includes text "after-hours rates apply" = true)
  /\ (Js.includes (HVAC.displayName serviceName) "emergency service rates apply" = false ->
      (Js.includes text "emergency service rates apply" = true <-> isEmergency = true))
  /\ (Js.includes (HVAC.displayName serviceName) "after-hours rates apply" = false ->
      (Js.includes text "after-hours rates apply" = true <-> isAfterHours = true))
  /\ HVAC.estimateServicePrice ["heating"] true true
     = "For heating service, our typical range is $281-$1500 (emergency service rates apply) (after-hours rates apply). The final price depends on the specific issue and parts needed. We provide upfront pricing before any work begins."%string.
Proof.
  cbv zeta. unfold HVAC.estimateServicePrice.
  set (serviceName := HVAC.serviceNameOf serviceType).
  split.
  { intros Hown.
    assert (Hbase : exists base,
               (Js.lookup serviceName HVAC.basePrices = Some base
                \/ (Js.lookup serviceName HVAC.basePrices = None
                    /\ base = {| HVAC.price_min := 125; HVAC.price_max := 500 |}))
               /\ HVAC.basePriceOf serviceName = HVAC.Entry base).
    { destruct (basePriceOf_cases serviceName)
        as [[range [Hkey Hentry]]|[[_ [Hkey _]]|[Hnone [_ Hgeneral]]]].
      - exists range. split; [left; exact Hkey | exact Hentry].
      - congruence.
      - exists HVAC.general_hvac_price. split; [right; split; [exact Hnone | reflexivity]|].
        exact Hgeneral. }
    destruct Hbase as [base [Hwhich Hentry]]. exists base.
    split; [exact Hwhich|].
    rewrite !Math_round_fifteen_eighths.
    split; [reflexivity|]. split; [reflexivity|].
    rewrite (priceTextFor_entry serviceName base true true Hentry).
    reflexivity. }
  split; [intros ->; apply emergency_phrase_present|].
  split; [intros ->; apply afterHours_phrase_present|].
  split; [|split; [|vm_compute; reflexivity]].
  - intros Hname. split; [|intros ->; apply emergency_phrase_present].
    intros Htext. destruct isEmergency; [reflexivity|].
    pose proof (emergency_phrase_absent serviceName isAfterHours Hname) as Habsent.
    unfold HVAC.emergencyDisclosure in Habsent. congruence.
  - intros Hname. split; [|intros ->; apply afterHours_phrase_present].
    intros Htext. destruct isAfterHours; [reflexivity|].
    pose proof (afterHours_phrase_absent serviceName isEmergency Hname) as Habsent.
    unfold HVAC.afterHoursDisclosure in Habsent. congruence.
Qed.

Example surcharges_one_at_a_time :
  HVAC.estimatedMin ["general_hvac"] true false = Some 188
  /\ HVAC.estimatedMin ["general_hvac"] false true = Some 156
  /\ HVAC.estimatedMin ["general_hvac"] true true = Some 234
  /\ HVAC.estimatedMax ["general_hvac"] true true = Some 938.
Proof. vm_compute. repeat split; reflexivity. Qed.

(** C10. The estimate of a non-empty list is the estimate of its first
    element alone. A first element that is no key of [basePrices], such as
    heat_pump or ductwork, is quoted from the general_hvac range 125-500
    times the multiplier, unless it names a member that the table inherits
    from [Object.prototype]: then [basePrice] is that member and the text
    quotes $NaN-$NaN, as it does for ["toString"]. *)
Theorem estimateServicePrice_first_element_only
        (first : string) (others : list string) (isEmergency isAfterHours : bool) :
  HVAC.estimateServicePrice (first :: others) isEmergency isAfterHours
  = HVAC.estimateServicePrice [first] isEmergency isAfterHours
  /\ (first <> "" ->
      Js.lookup first HVAC.basePrices = None ->
      Js.inheritedKey first = false ->
      HVAC.estimateServicePrice (first :: others) isEmergency isAfterHours
      = ("For " ++ Js.replaceFirst "_" " " first ++ " service, our typical range is $"
         ++ Js.showInt (Js.Math_round (125 * HVAC.multiplierOf isEmergency isAfterHours))
         ++ "-$"
         ++ Js.showInt (Js.Math_round (500 * HVAC.multiplierOf isEmergency isAfterHours))
         ++ (if isEmergency then " (emergency service rates apply)" else "")
         ++ (if isAfterHours then " (after-hours rates apply)" else "")
         ++ HVAC.priceTail)%string)
  /\ (Js.inheritedKey first = true ->
      Js.lookup first HVAC.basePrices = None
      /\ HVAC.estimateServicePrice (first :: others) isEmergency isAfterHours
         = ("For " ++ Js.replaceFirst "_" " " first
            ++ " service, our typical range is $NaN-$NaN"
            ++ (if isEmergency then " (emergency service rates apply)" else "")
            ++ (if isAfterHours then " (after-hours rates apply)" else "")
            ++ HVAC.priceTail)%string)
  /\ (Js.lookup "heat_pump" HVAC.basePrices = None /\ Js.inheritedKey "heat_pump" = false)
  /\ (Js.lookup "ductwork" HVAC.basePrices = None /\ Js.inheritedKey "ductwork" = false)
  /\ Js.inheritedKey "toString" = true
  /\ HVAC.estimateServicePrice ["toString"] false false
     = "For toString service, our typical range is $NaN-$NaN. The final price depends on the specific issue and parts needed. We provide upfront pricing before any work begins."%string.
Proof.
  split; [reflexivity|].
  assert (Hname : first <> "" -> HVAC.serviceNameOf (first :: others) = first).
  { intros Hne. unfold HVAC.serviceNameOf.
    destruct (String.eqb_spec first ""); [contradiction | reflexivity]. }
  split; [|split; [|repeat split; vm_compute; reflexivity]].
  - intros Hne Hmissing Hown. unfold HVAC.estimateServicePrice. rewrite (Hname Hne).
    rewrite (priceTextFor_entry first HVAC.general_hvac_price).
    + unfold HVAC.displayName.
      destruct isEmergency, isAfterHours; reflexivity.
    + unfold HVAC.basePriceOf, Js.getProperty. rewrite Hmissing, Hown. reflexivity.
  - intros Hinherited.
    assert (Hmissing : Js.lookup first HVAC.basePrices = None).
    { apply inheritedKey_In in Hinherited. simpl in Hinherited.
      repeat match goal with H : _ \/ _ |- _ => destruct H as [<-|H] end;
        try contradiction; reflexivity. }
    split; [exact Hmissing|].
    assert (Hne : first <> "") by (intros ->; discriminate Hinherited).
    unfold HVAC.estimateServicePrice. rewrite (Hname Hne).
    rewrite (priceTextFor_member first).
    + reflexivity.
    + unfold HVAC.basePriceOf, Js.getProperty. rewrite Hmissing, Hinherited. reflexivity.
Qed.

Example ductwork_priced_as_general :
  HVAC.extractServiceType "The vents are dusty" = ["ductwork"]
  /\ HVAC.estimateServicePrice ["ductwork"] false false
     = "For ductwork service, our typical range is $125-$500. The final price depends on the specific issue and parts needed. We provide upfront pricing before any work begins."
  /\ HVAC.estimatedMin ["heat_pump"; "heating"] true true = Some 234
  /\ HVAC.estimatedMax ["heat_pump"; "heating"] true true = Some 938
  /\ HVAC.estimatedMin ["constructor"; "heating"] true true = None.
Proof. vm_compute. repeat split; reflexivity. Qed.

(* ================================================================= *)
(** ** Properties of the live call registry *)

Section Registry.
Import CallMonitor.

Lemma Map_get_set_same (key : string) (value : ActiveCall) (m : CallMap) :
  Map_get key (Map_set key value m) = Some value.
Proof.
  induction m as [|[k v] rest IH]; simpl.
  - rewrite String.eqb_refl. reflexivity.
  - destruct (String.eqb k key) eqn:Hk; simpl; rewrite Hk; [reflexivity | exact IH].
Qed.

Lemma Map_get_set_other (key key' : string) (value : ActiveCall) (m : CallMap) :
  key <> key' -> Map_get key (Map_set key' value m) = Map_get key m.
Proof.
  intros Hne. induction m as [|[k v] rest IH]; simpl.
  - destruct (String.eqb_spec key' key); [congruence | reflexivity].
  - destruct (String.eqb_spec k key') as [->|Hk]; simpl.
    + destruct (String.eqb_spec key' key); [congruence | reflexivity].
    + destruct (String.eqb k key); [reflexivity | exact IH].
Qed.

Lemma Map_get_delete_same (key : string) (m : CallMap) :
  Map_get key (Map_delete key m) = None.
Proof.
  induction m as [|[k v] rest IH]; simpl; [reflexivity|].
  destruct (String.eqb k key) eqn:Hk; simpl; [exact IH|].
  rewrite Hk. exact IH.
Qed.

Lemma Map_get_delete_other (key key' : string) (m : CallMap) :
  key <> key' -> Map_get key (Map_delete key' m) = Map_get key m.
Proof.
  intros Hne. induction m as [|[k v] rest IH]; simpl; [reflexivity|].
  destruct (String.eqb_spec k key') as [->|Hk]; simpl.
  - destruct (String.eqb_spec key' key); [congruence | exact IH].
  - destruct (String.eqb k key); [reflexivity | exact IH].
Qed.

Lemma activeCalls_handleEmergencyDetection (call : ActiveCall) (now : Z) (st : State) :
  activeCalls (handleEmergencyDetection call now st) = activeCalls st.
Proof.
  unfold handleEmergencyDetection. cbv zeta.
  destruct (findById (companyId call) _) as [company|]; [|reflexivity].
  destruct (Js.truthy _); reflexivity.
Qed.

(** What [updateCall] leaves under each key. *)
Lemma updateCall_get (callId : string) (updates : PartialActiveCall) (now : Z)
      (st : State) (key : string) :
  Map_get key (activeCalls (updateCall callId updates now st)) =
  match Map_get callId (activeCalls st) with
  | None => Map_get key (activeCalls st)
  | Some call =>
      if String.eqb key callId then
        let merged := assign call updates in
        let merged := withDuration merged (elapsedSeconds now merged) in
        Some (match u_transcript updates with
              | Some text =>
                  if (negb (String.eqb text "") && negb (isEmergency merged))%bool
                  then if HVAC.detectEmergency text
                       then withEmergency merged true else merged
                  else merged
              | None => merged
              end)
      else Map_get key (activeCalls st)
  end.
Proof.
  unfold updateCall.
  destruct (Map_get callId (activeCalls st)) as [call|] eqn:Hcall; [|reflexivity].
  cbv zeta.
  set (merged := withDuration (assign call updates)
                              (elapsedSeconds now (assign call updates))).
  destruct (String.eqb_spec key callId) as [->|Hne].
  - destruct (u_transcript updates) as [text|];
      [|simpl; apply Map_get_set_same].
    destruct (negb (String.eqb text "") && negb (isEmergency merged))%bool;
      [|simpl; apply Map_get_set_same].
    destruct (HVAC.detectEmergency text); [|simpl; apply Map_get_set_same].
    rewrite activeCalls_handleEmergencyDetection. simpl. apply Map_get_set_same.
  - destruct (u_transcript updates) as [text|];
      [|simpl; apply Map_get_set_other; exact Hne].
    destruct (negb (String.eqb text "") && negb (isEmergency merged))%bool;
      [|simpl; apply Map_get_set_other; exact Hne].
    destruct (HVAC.detectEmergency text); [|simpl; apply Map_get_set_other; exact Hne].
    rewrite activeCalls_handleEmergencyDetection. simpl.
    rewrite !Map_get_set_other by exact Hne. reflexivity.
Qed.

Lemma endCall_get (callId : string) (reason : EndReason) (now : Z)
      (st : State) (key : string) :
  Map_get key (activeCalls (endCall callId reason now st)) =
  if String.eqb key callId then None else Map_get key (activeCalls st).
Proof.
  unfold endCall.
  destruct (Map_get callId (activeCalls st)) as [call|] eqn:Hcall.
  - simpl. destruct (String.eqb_spec key callId) as [->|Hne].
    + apply Map_get_delete_same.
    + apply Map_get_delete_other. exact Hne.
  - destruct (String.eqb_spec key callId) as [->|Hne]; [exact Hcall | reflexivity].
Qed.

Lemma updateCall_keeps_flag (callId : string) (updates : PartialActiveCall) (now : Z)
      (st : State) (key : string) :
  u_isEmergency updates <> Some false ->
  flaggedOrGone key st -> flaggedOrGone key (updateCall callId updates now st).
Proof.
  intros Hkeep. unfold flaggedOrGone, flagOf. rewrite updateCall_get.
  destruct (Map_get callId (activeCalls st)) as [call|] eqn:Hcall; [|auto].
  destruct (String.eqb_spec key callId) as [->|Hne]; [|auto].
  rewrite Hcall. simpl. intros [Hflag|Hgone]; [|discriminate]. left.
  injection Hflag as Hflag.
  assert (Hmerged : isEmergency (assign call updates) = true).
  { simpl. destruct (u_isEmergency updates) as [[|]|]; simpl; congruence. }
  destruct (u_transcript updates) as [text|]; simpl in *; [|congruence].
  rewrite Hmerged. rewrite andb_false_r. simpl. congruence.
Qed.

Lemma endCall_keeps_flag (callId : string) (reason : EndReason) (now : Z)
      (st : State) (key : string) :
  flaggedOrGone key st -> flaggedOrGone key (endCall callId reason now st).
Proof.
  unfold flaggedOrGone, flagOf. rewrite endCall_get.
  destruct (String.eqb key callId); [right; reflexivity | auto].
Qed.

Lemma handleVapiUpdate_keeps_flag (vapiCallId : string) (message : Message) (now : Z)
      (st : State) (key : string) :
  flaggedOrGone key st -> flaggedOrGone key (handleVapiUpdate vapiCallId message now st).
Proof.
  unfold handleVapiUpdate.
  destruct (find _ _) as [call|]; [|auto].
  destruct (String.eqb (role message) "user"); [|auto].
  apply updateCall_keeps_flag. simpl. discriminate.
Qed.

Lemma step_keeps_flag (op : Op) (st : State) (key : string) :
  keepsFlag op -> flaggedOrGone key st -> flaggedOrGone key (step st op).
Proof.
  destruct op; simpl; intros Hkeep.
  - apply updateCall_keeps_flag. exact Hkeep.
  - apply handleVapiUpdate_keeps_flag.
  - apply endCall_keeps_flag.
Qed.

Lemma run_keeps_flag (key : string) (ops : list Op) :
  Forall keepsFlag ops ->
  forall st, flaggedOrGone key st -> flaggedOrGone key (run ops st).
Proof.
  unfold run. induction 1 as [|op ops Hop Hops IH]; intros st Hst; simpl.
  - exact Hst.
  - apply IH. apply step_keeps_flag; assumption.
Qed.

End Registry.

(** C2 as stated fails: [updateCall] merges whatever the update carries,
    so an update with [isEmergency: false] clears the flag of a session
    on which an emergency had been detected. *)
Lemma isEmergency_cleared_counterexample :
  CallMonitor.flagOf "call-1" Sample.flaggedCall = Some true
  /\ CallMonitor.flagOf "call-1"
       (CallMonitor.run [CallMonitor.OpUpdateCall "call-1" Sample.clearFlag 6000]
                        Sample.flaggedCall)
     = Some false.
Proof. vm_compute. split; reflexivity. Qed.

(** C2, amended. Over any sequence of [updateCall], [handleVapiUpdate] and
    [endCall] operations none of whose [updateCall] updates carries
    [isEmergency: false], a session whose flag is true keeps it true for
    as long as it stays in the registry. *)
Theorem isEmergency_monotone_unless_cleared
        (ops : list CallMonitor.Op) (st : CallMonitor.State) (key : string) :
  Forall CallMonitor.keepsFlag ops ->
  CallMonitor.flagOf key st = Some true ->
  CallMonitor.flagOf key (CallMonitor.run ops st) = Some true
  \/ CallMonitor.flagOf key (CallMonitor.run ops st) = None.
Proof.
  intros Hops Hflag. apply (run_keeps_flag key ops Hops st). left. exact Hflag.
Qed.

Lemma isEmergency_monotone_unless_cleared_witness :
  CallMonitor.flagOf "call-1" (CallMonitor.run Sample.laterOps Sample.flaggedCall) = Some true
  \/ CallMonitor.flagOf "call-1" (CallMonitor.run Sample.laterOps Sample.flaggedCall) = None.
Proof.
  apply (isEmergency_monotone_unless_cleared Sample.laterOps Sample.flaggedCall "call-1").
  - repeat constructor; simpl; discriminate.
  - vm_compute. reflexivity.
Defined.

Example flag_after_later_ops :
  CallMonitor.flagOf "call-1" (CallMonitor.run Sample.laterOps Sample.flaggedCall) = Some true
  /\ CallMonitor.flagOf "call-1"
       (CallMonitor.run (Sample.laterOps ++ [CallMonitor.OpEndCall "call-1" CallMonitor.hangup 9000])%list
                        Sample.flaggedCall) = None.
Proof. vm_compute. split; reflexivity. Qed.

(** The emergency is announced once: a second emergency transcript on a
    flagged session emits no further emergency-detected event. *)
Example emergency_alert_once :
  List.length (CallMonitorMore.emergencyEvents Sample.flaggedCall) = 1%nat
  /\ List.length
       (CallMonitorMore.emergencyEvents
          (CallMonitor.handleVapiUpdate "call-1"
             {| CallMonitor.role := "user"; CallMonitor.content := "Help, the gas smell is worse" |}
             6500 Sample.flaggedCall)) = 1%nat.
Proof. vm_compute. split; reflexivity. Qed.

(** C9. Ending a call whose id is not in the registry (never registered,
    or already evicted) changes nothing: registry, emitted events, store
    writes and messages all stay as they were; so a repeated terminal
    event after the first eviction is without effect. *)
Theorem endCall_after_eviction_is_noop
        (callId : string) (reason : CallMonitor.EndReason) (now : Z) (st : CallMonitor.State) :
  (CallMonitor.Map_get callId (CallMonitor.activeCalls st) = None ->
   CallMonitor.endCall callId reason now st = st)
  /\ CallMonitor.Map_get callId
       (CallMonitor.activeCalls (CallMonitor.endCall callId reason now st)) = None
  /\ forall reason' now',
       CallMonitor.endCall callId reason' now' (CallMonitor.endCall callId reason now st)
       = CallMonitor.endCall callId reason now st.
Proof.
  assert (Hnoop : forall r n s,
             CallMonitor.Map_get callId (CallMonitor.activeCalls s) = None ->
             CallMonitor.endCall callId r n s = s).
  { intros r n s Hgone. unfold CallMonitor.endCall. rewrite Hgone. reflexivity. }
  assert (Hgone : CallMonitor.Map_get callId
                    (CallMonitor.activeCalls (CallMonitor.endCall callId reason now st)) = None).
  { rewrite endCall_get, String.eqb_refl. reflexivity. }
  split; [apply Hnoop|]. split; [exact Hgone|].
  intros reason' now'. apply Hnoop. exact Hgone.
Qed.

Example endCall_replayed :
  let ended := CallMonitor.endCall "call-1" CallMonitor.hangup 9000 Sample.flaggedCall in
  ended <> Sample.flaggedCall
  /\ CallMonitor.activeCalls ended = []
  /\ CallMonitor.endCall "call-1" CallMonitor.hangup 9500 ended = ended
  /\ CallMonitor.endCall "never-seen" CallMonitor.completed 9500 Sample.flaggedCall
     = Sample.flaggedCall.
Proof.
  vm_compute. split; [discriminate|]. repeat split; reflexivity.
Qed.

(* ================================================================= *)
(** ** More about the intent classifier *)

Lemma toLowerCase_app (a b : string) :
  Js.toLowerCase (a ++ b) = (Js.toLowerCase a ++ Js.toLowerCase b)%string.
Proof. induction a as [|c a IH]; simpl; [reflexivity | rewrite IH; reflexivity]. Qed.

Lemma prefix_refl (k : string) : String.prefix k k = true.
Proof.
  induction k as [|c k IH]; simpl; [reflexivity|].
  destruct (ascii_dec c c); [exact IH | congruence].
Qed.

Lemma includes_refl (k : string) : Js.includes k k = true.
Proof.
  destruct k as [|c k]; [reflexivity|].
  rewrite includes_cons, prefix_refl. reflexivity.
Qed.

Lemma includes_app_mid (a k b : string) : Js.includes (a ++ k ++ b) k = true.
Proof. apply includes_app_r, includes_app_l, includes_refl. Qed.

Lemma includes_app_mid_mono (x t y k : string) :
  Js.includes t k = true -> Js.includes (x ++ t ++ y) k = true.
Proof. intros H. apply includes_app_r, includes_app_l, H. Qed.

Lemma detectEmergency_iff (transcript : string) :
  HVAC.detectEmergency transcript = true <->
  exists keyword, In keyword HVACMore.allEmergencyKeywords
                  /\ Js.includes (Js.toLowerCase transcript) keyword = true.
Proof.
  unfold HVAC.detectEmergency, HVACMore.allEmergencyKeywords. cbv zeta.
  rewrite existsb_exists. split.
  - intros ([category keywords] & Hcat & Hsome). simpl in Hsome.
    apply existsb_exists in Hsome. destruct Hsome as (keyword & Hk & Hinc).
    exists keyword. split; [|exact Hinc].
    apply in_concat. exists keywords. split; [|exact Hk].
    apply in_map_iff. exists (category, keywords). auto.
  - intros (keyword & Hk & Hinc). apply in_concat in Hk.
    destruct Hk as (keywords & Hks & Hk). apply in_map_iff in Hks.
    destruct Hks as ([category keywords'] & Heq & Hcat). simpl in Heq. subst keywords'.
    exists (category, keywords). split; [exact Hcat|]. simpl.
    apply existsb_exists. exists keyword. auto.
Qed.

(** X1. Every phrase of the emergency table triggers detection wherever
    it occurs in a text and however it is capitalised. *)
Theorem detectEmergency_every_keyword
        (keyword phrase before after : string) :
  In keyword HVACMore.allEmergencyKeywords ->
  Js.toLowerCase phrase = keyword ->
  HVAC.detectEmergency (before ++ phrase ++ after) = true
  /\ HVAC.classifyCallType (before ++ phrase ++ after) = CT_EMERGENCY.
Proof.
  intros Hk Hlower.
  assert (Hdetect : HVAC.detectEmergency (before ++ phrase ++ after) = true).
  { apply detectEmergency_iff. exists keyword. split; [exact Hk|].
    rewrite !toLowerCase_app, Hlower. apply includes_app_mid. }
  split; [exact Hdetect|]. unfold HVAC.classifyCallType. rewrite Hdetect. reflexivity.
Qed.

Lemma detectEmergency_every_keyword_witness :
  HVAC.detectEmergency ("Please hurry, there is a " ++ "GAS Smell" ++ " in my kitchen") = true
  /\ HVAC.classifyCallType ("Please hurry, there is a " ++ "GAS Smell" ++ " in my kitchen")
     = CT_EMERGENCY.
Proof.
  apply (detectEmergency_every_keyword "gas smell" "GAS Smell").
  - vm_compute. do 8 right. left. reflexivity.
  - vm_compute. reflexivity.
Defined.

Lemma detectEmergency_app (before text after : string) :
  HVAC.detectEmergency text = true ->
  HVAC.detectEmergency (before ++ text ++ after) = true.
Proof.
  rewrite !detectEmergency_iff. intros (keyword & Hk & Hinc).
  exists keyword. split; [exact Hk|].
  rewrite !toLowerCase_app. apply includes_app_mid_mono. exact Hinc.
Qed.

Lemma append_nil_r (a : string) : (a ++ "")%string = a.
Proof. induction a as [|c a IH]; simpl; [reflexivity | rewrite IH; reflexivity]. Qed.

Lemma detectEmergency_app_r (before text : string) :
  HVAC.detectEmergency text = true -> HVAC.detectEmergency (before ++ text) = true.
Proof.
  intros H. rewrite <- (append_nil_r text). apply detectEmergency_app. exact H.
Qed.

(** X2. Detection survives any extension of the text: a transcript that
    contains an emergency text is itself an emergency, so an accumulated
    transcript stays an emergency once a fragment was one. *)
Theorem detectEmergency_extension (before text after : string) :
  HVAC.detectEmergency text = true ->
  HVAC.detectEmergency (before ++ text ++ after) = true.
Proof. apply detectEmergency_app. Qed.

Lemma detectEmergency_extension_witness :
  HVAC.detectEmergency ("Customer: hello. " ++ "My furnace is not working" ++ " since Monday")
  = true.
Proof.
  apply (detectEmergency_extension "Customer: hello. " "My furnace is not working"
                                   " since Monday").
  vm_compute. reflexivity.
Defined.

(** X3. On the classifier's own output the emergency response is the
    heating one exactly when a heating keyword occurs, the cooling one
    exactly when no heating but a cooling keyword occurs, and the generic
    one otherwise; the plumbing and electrical responses are never
    given. *)
Theorem generateEmergencyResponse_on_extracted (transcript : string) :
  let lower := Js.toLowerCase transcript in
  let heating := Js.someIncluded ["heat"; "furnace"; "boiler"; "heating"; "heater"] lower in
  let cooling :=
    Js.someIncluded ["ac"; "air conditioning"; "cooling"; "air conditioner"; "central air"]
                    lower in
  let response := HVACMore.generateEmergencyResponse (HVAC.extractServiceType transcript) in
  response
  = (if heating
     then "I understand you're having a heating emergency. We'll dispatch a technician immediately - this is a priority call especially in cold weather."
     else if cooling
          then "I see you're having an air conditioning emergency. We'll get someone out to you as soon as possible - comfort is essential."
          else HVACMore.genericResponse)%string
  /\ Js.lookup "plumbing" HVACMore.responses <> Some response
  /\ Js.lookup "electrical" HVACMore.responses <> Some response.
Proof.
  cbv zeta. unfold HVAC.extractServiceType, HVAC.serviceMap. cbv zeta.
  cbn [HVAC.collectServices].
  repeat match goal with
         | |- context [Js.someIncluded ?k ?l] =>
             destruct (Js.someIncluded k l)
         end;
    vm_compute; repeat split; try reflexivity; discriminate.
Qed.

(* ================================================================= *)
(** ** More about business hours *)

Lemma zrange_In (first : Z) (count : nat) (x : Z) :
  first <= x < first + Z.of_nat count -> In x (HVACMore.zrange first count).
Proof.
  intros Hx. unfold HVACMore.zrange. apply in_map_iff.
  exists (Z.to_nat (x - first)). split; [lia|].
  apply in_seq. lia.
Qed.

(** X4. [parseTime] turns every 12-hour reading "h:mm AM" or "h:mm PM"
    (h from 1 to 12, mm from 00 to 59) into its 24-hour value
    hours*100+minutes: 12 AM is hour 0 and 12 PM is hour 12. *)
Theorem parseTime_twelve_hour_clock (hours minutes : Z) :
  1 <= hours <= 12 -> 0 <= minutes <= 59 ->
  HVAC.parseTime (HVACMore.clockString hours minutes "AM")
  = Some ((hours mod 12) * 100 + minutes)
  /\ HVAC.parseTime (HVACMore.clockString hours minutes "PM")
     = Some ((hours mod 12 + 12) * 100 + minutes).
Proof.
  intros Hh Hm.
  assert (Hall : HVACMore.parsesAll = true) by (vm_compute; reflexivity).
  unfold HVACMore.parsesAll in Hall.
  rewrite forallb_forall in Hall.
  specialize (Hall hours (zrange_In 1 12 hours ltac:(simpl; lia))).
  rewrite forallb_forall in Hall.
  specialize (Hall minutes (zrange_In 0 60 minutes ltac:(simpl; lia))).
  destruct (HVAC.parseTime (HVACMore.clockString hours minutes "AM")) as [am|];
    [|discriminate].
  destruct (HVAC.parseTime (HVACMore.clockString hours minutes "PM")) as [pm|];
    [|discriminate].
  apply andb_true_iff in Hall. destruct Hall as [Ham Hpm].
  apply Z.eqb_eq in Ham. apply Z.eqb_eq in Hpm. subst. split; reflexivity.
Qed.

Lemma parseTime_twelve_hour_clock_witness :
  HVAC.parseTime (HVACMore.clockString 12 5 "AM") = Some ((12 mod 12) * 100 + 5)
  /\ HVAC.parseTime (HVACMore.clockString 12 5 "PM") = Some ((12 mod 12 + 12) * 100 + 5).
Proof. apply (parseTime_twelve_hour_clock 12 5); lia. Defined.

Lemma getDay_addDays (now i : Z) :
  JsDate.getDay (JsDate.addDays now i) = (JsDate.dayIndex now + i + 4) mod 7.
Proof.
  unfold JsDate.getDay, JsDate.addDays, JsDate.dayIndex.
  rewrite Z.div_add by (vm_compute; discriminate). reflexivity.
Qed.

Lemma nextBusinessDayLoop_spec (fmt : Z -> string) (bh : HVAC.BusinessHours) (now : Z)
      (remaining : nat) :
  forall i,
    (exists k, i <= k < i + Z.of_nat remaining
               /\ HVAC.isClosed (HVAC.hoursOfDay bh (JsDate.getDay (JsDate.addDays now k)))
                  = false
               /\ (forall j, i <= j < k ->
                             HVAC.isClosed
                               (HVAC.hoursOfDay bh (JsDate.getDay (JsDate.addDays now j)))
                             = true)
               /\ HVACMore.nextBusinessDayLoop fmt bh now remaining i
                  = fmt (JsDate.addDays now k))
    \/ ((forall k, i <= k < i + Z.of_nat remaining ->
                   HVAC.isClosed (HVAC.hoursOfDay bh (JsDate.getDay (JsDate.addDays now k)))
                   = true)
        /\ HVACMore.nextBusinessDayLoop fmt bh now remaining i = "next week"%string).
Proof.
  induction remaining as [|n IH]; intros i.
  - right. split; [intros k Hk; lia | reflexivity].
  - cbn [HVACMore.nextBusinessDayLoop]. cbv zeta.
    destruct (HVAC.isClosed (HVAC.hoursOfDay bh (JsDate.getDay (JsDate.addDays now i))))
      eqn:Hclosed; simpl negb; cbv iota.
    + destruct (IH (i + 1)) as [(k & Hk & Hopen & Hbefore & Hres)|(Hall & Hres)].
      * left. exists k. split; [lia|]. split; [exact Hopen|]. split; [|exact Hres].
        intros j Hj. assert (j = i \/ i + 1 <= j) as [->|Hj'] by lia;
          [exact Hclosed | apply Hbefore; lia].
      * right. split; [|exact Hres].
        intros k Hk. assert (k = i \/ i + 1 <= k) as [->|Hk'] by lia;
          [exact Hclosed | apply Hall; lia].
    + left. exists i. split; [lia|]. split; [exact Hclosed|].
      split; [intros j Hj; lia | reflexivity].
Qed.

(** X5. [getNextBusinessDay] answers "next week" exactly when every
    weekday of the table is closed; otherwise it formats the first day
    among tomorrow .. a week from now that is not closed. *)
Theorem getNextBusinessDay_first_open_day
        (toLocaleDateString : Z -> string) (businessHours : HVAC.BusinessHours) (now : Z) :
  let closedOn i :=
    HVAC.isClosed (HVAC.hoursOfDay businessHours (JsDate.getDay (JsDate.addDays now i))) in
  ((forall day, 0 <= day <= 6 -> HVAC.isClosed (HVAC.hoursOfDay businessHours day) = true) ->
   HVACMore.getNextBusinessDay toLocaleDateString businessHours now = "next week"%string)
  /\ ((exists day, 0 <= day <= 6
                   /\ HVAC.isClosed (HVAC.hoursOfDay businessHours day) = false) ->
      exists i, 1 <= i <= 7
                /\ closedOn i = false
                /\ (forall j, 1 <= j < i -> closedOn j = true)
                /\ HVACMore.getNextBusinessDay toLocaleDateString businessHours now
                   = toLocaleDateString (JsDate.addDays now i)).
Proof.
  cbv zeta. unfold HVACMore.getNextBusinessDay.
  destruct (nextBusinessDayLoop_spec toLocaleDateString businessHours now 7 1)
    as [(k & Hk & Hopen & Hbefore & Hres)|(Hall & Hres)].
  - split.
    + intros Hclosed. rewrite Hclosed in Hopen; [discriminate|].
      rewrite getDay_addDays.
      pose proof (Z.mod_pos_bound (JsDate.dayIndex now + k + 4) 7 ltac:(lia)). lia.
    + intros _. exists k. split; [simpl in Hk; lia|]. split; [exact Hopen|].
      split; [|exact Hres]. intros j Hj. apply Hbefore. lia.
  - split; [intros _; exact Hres|].
    intros (day & Hday & Hopen). exfalso.
    set (i := (day - (JsDate.dayIndex now + 4)) mod 7).
    assert (Hi : 0 <= i < 7) by (apply Z.mod_pos_bound; lia).
    assert (Hcover : JsDate.getDay (JsDate.addDays now (if i =? 0 then 7 else i)) = day).
    { rewrite getDay_addDays. subst i.
      destruct (Z.eqb_spec ((day - (JsDate.dayIndex now + 4)) mod 7) 0);
        Z.to_euclidean_division_equations; lia. }
    specialize (Hall (if i =? 0 then 7 else i)).
    rewrite Hcover, Hopen in Hall.
    assert (Habs : false = true); [|discriminate Habs].
    apply Hall. destruct (Z.eqb_spec i 0); simpl; lia.
Qed.

(* ================================================================= *)
(** ** More about the slot allocator *)

Section AllocatorMore.
Import Appointment AppointmentMore.

Lemma sqlConflict_conflictsWith (start endTime : Z) (row : AppointmentRow) :
  sqlConflict start endTime row = true -> conflictsWith start endTime row = true.
Proof.
  unfold sqlConflict, conflictsWith. cbv zeta.
  rewrite !Z.geb_leb, !Z.gtb_ltb.
  repeat match goal with
         | |- context [Z.leb ?a ?b] => destruct (Z.leb_spec a b)
         | |- context [Z.ltb ?a ?b] => destruct (Z.ltb_spec a b)
         end; simpl; intros Hsql; try discriminate Hsql; try reflexivity; lia.
Qed.

Lemma sqlConflict_overlaps (start duration : Z) (row : AppointmentRow) :
  0 < duration -> 0 < estimated_duration row ->
  (sqlConflict start (start + duration * 60000) row = true <->
   overlaps start (start + duration * 60000)
            (scheduled_date row)
            (scheduled_date row + estimated_duration row * 60000)).
Proof.
  intros Hd He. unfold sqlConflict, overlaps. cbv zeta.
  rewrite !Z.geb_leb, !Z.gtb_ltb. split.
  - intros Hsql.
    exists (Z.max start (scheduled_date row)).
    repeat match type of Hsql with
           | context [Z.leb ?a ?b] => destruct (Z.leb_spec a b)
           | context [Z.ltb ?a ?b] => destruct (Z.ltb_spec a b)
           end; simpl in Hsql; try discriminate Hsql; lia.
  - intros (x & Hx1 & Hx2).
    repeat match goal with
           | |- context [Z.leb ?a ?b] => destruct (Z.leb_spec a b)
           | |- context [Z.ltb ?a ?b] => destruct (Z.ltb_spec a b)
           end; simpl; try reflexivity; lia.
Qed.

Lemma findAppointmentConflicts_In (db : Store) (companyId : string)
      (start duration : Z) (row : AppointmentRow) :
  In row (findAppointmentConflicts db companyId start duration) <->
  In row db /\ company_id row = companyId /\ isActive row = true
  /\ sqlConflict start (start + duration * 60000) row = true.
Proof.
  unfold findAppointmentConflicts. cbv zeta.
  rewrite filter_In, !andb_true_iff, String.eqb_eq. tauto.
Qed.

End AllocatorMore.

(** X6. For positive durations [findAppointmentConflicts] returns exactly
    the company's active (neither cancelled nor completed) appointments
    whose interval shares an instant with the requested interval. *)
Theorem findAppointmentConflicts_overlapping
        (db : Appointment.Store) (companyId : string) (scheduledDate duration : Z)
        (row : Appointment.AppointmentRow) :
  0 < duration -> 0 < Appointment.estimated_duration row ->
  (In row (AppointmentMore.findAppointmentConflicts db companyId scheduledDate duration) <->
   In row db
   /\ Appointment.company_id row = companyId
   /\ Appointment.status row <> "cancelled"%string
   /\ Appointment.status row <> "completed"%string
   /\ AppointmentMore.overlaps
        scheduledDate (scheduledDate + duration * 60000)
        (Appointment.scheduled_date row)
        (Appointment.scheduled_date row + Appointment.estimated_duration row * 60000)).
Proof.
  intros Hd He. rewrite findAppointmentConflicts_In.
  rewrite (sqlConflict_overlaps scheduledDate duration row Hd He).
  unfold Appointment.isActive. rewrite negb_true_iff, orb_false_iff, !String.eqb_neq.
  tauto.
Qed.

Lemma findAppointmentConflicts_overlapping_witness :
  In Sample.nineToTen
     (AppointmentMore.findAppointmentConflicts Sample.store "acme"
                                               (Sample.at_ Sample.friday 9 30) 60) <->
  In Sample.nineToTen Sample.store
  /\ Appointment.company_id Sample.nineToTen = "acme"%string
  /\ Appointment.status Sample.nineToTen <> "cancelled"%string
  /\ Appointment.status Sample.nineToTen <> "completed"%string
  /\ AppointmentMore.overlaps
       (Sample.at_ Sample.friday 9 30) (Sample.at_ Sample.friday 9 30 + 60 * 60000)
       (Appointment.scheduled_date Sample.nineToTen)
       (Appointment.scheduled_date Sample.nineToTen
        + Appointment.estimated_duration Sample.nineToTen * 60000).
Proof.
  apply (findAppointmentConflicts_overlapping
           Sample.store "acme" (Sample.at_ Sample.friday 9 30) 60 Sample.nineToTen).
  - lia.
  - simpl. lia.
Defined.

(** X7. A slot offered by [getAvailableSlots] can only conflict, in the
    sense of [findAppointmentConflicts], with appointments of another
    calendar day (one that runs over midnight): the two overlap tests
    agree on the day's own appointments. *)
Theorem offered_slot_conflicts_only_across_days
        (db : Appointment.Store) (companyId : string) (date duration slot : Z)
        (row : Appointment.AppointmentRow) :
  In slot (Appointment.getAvailableSlots db companyId date duration) ->
  In row (AppointmentMore.findAppointmentConflicts db companyId slot duration) ->
  JsDate.dayIndex (Appointment.scheduled_date row) <> JsDate.dayIndex date.
Proof.
  intros Hslot Hrow Hday.
  destruct (getAvailableSlots_spec db companyId date duration) as (_ & _ & Hin).
  apply Hin in Hslot. destruct Hslot as (_ & Hfree).
  apply findAppointmentConflicts_In in Hrow.
  destruct Hrow as (Hdb & Hc & Hact & Hsql).
  apply sqlConflict_conflictsWith in Hsql.
  rewrite (Hfree row Hdb Hc) in Hsql; [discriminate| |exact Hact].
  unfold Appointment.sameDate. apply Z.eqb_eq. exact Hday.
Qed.

Section Booking.
Import Appointment AppointmentMore.

Lemma createAppointment_blocks (db : Store) (companyId : string)
      (s estimatedDuration date duration : Z) :
  0 < estimatedDuration ->
  ~ In s (getAvailableSlots (createAppointment db companyId s estimatedDuration)
                            companyId date duration).
Proof.
  intros Hpos Hin.
  destruct (getAvailableSlots_spec (createAppointment db companyId s estimatedDuration)
                                   companyId date duration) as (_ & _ & Hspec).
  apply Hspec in Hin. destruct Hin as (Hgrid & Hfree).
  pose proof (onGrid_same_day _ _ Hgrid) as Hday.
  specialize (Hfree {| company_id := companyId; scheduled_date := s;
                       estimated_duration := estimatedDuration; status := "scheduled" |}).
  assert (Hc : conflictsWith s (s + duration * 60000)
                 {| company_id := companyId; scheduled_date := s;
                    estimated_duration := estimatedDuration; status := "scheduled" |}
               = true).
  { unfold conflictsWith. simpl. rewrite Z.geb_leb.
    destruct (Z.leb_spec s s); [|lia].
    destruct (Z.ltb_spec s (s + estimatedDuration * 60000)); [reflexivity | lia]. }
  rewrite Hfree in Hc; [discriminate| | | |].
  - unfold createAppointment. apply in_or_app. right. left. reflexivity.
  - reflexivity.
  - unfold sameDate. simpl. apply Z.eqb_eq. exact Hday.
  - reflexivity.
Qed.

Lemma createAppointment_shrinks (db : Store) (companyId companyId' : string)
      (s estimatedDuration date duration x : Z) :
  In x (getAvailableSlots (createAppointment db companyId' s estimatedDuration)
                          companyId date duration) ->
  In x (getAvailableSlots db companyId date duration).
Proof.
  intros Hin.
  destruct (getAvailableSlots_spec (createAppointment db companyId' s estimatedDuration)
                                   companyId date duration) as (_ & _ & Hnew).
  destruct (getAvailableSlots_spec db companyId date duration) as (_ & _ & Hold).
  apply Hnew in Hin. destruct Hin as (Hgrid & Hfree). apply Hold. split; [exact Hgrid|].
  intros a Ha. apply Hfree. unfold createAppointment. apply in_or_app. left. exact Ha.
Qed.

(** Where a result of [getNextAvailableSlot] comes from. *)
Lemma getNextAvailableSlot_source (db : Store) (companyId : string)
      (priority : Priority) (now : Z) :
  getNextAvailableSlot db companyId priority now = fallbackSlot now
  \/ exists date duration,
       In (getNextAvailableSlot db companyId priority now)
          (getAvailableSlots db companyId date duration).
Proof.
  unfold getNextAvailableSlot.
  assert (Hstd : standardSearch db companyId now = fallbackSlot now
                 \/ exists date duration,
                      In (standardSearch db companyId now)
                         (getAvailableSlots db companyId date duration)).
  { unfold standardSearch.
    pose proof (searchDays_spec db companyId now 14 0) as Hspec.
    destruct (searchDays db companyId now 14 0) as [r|]; [|left; reflexivity].
    destruct Hspec as (k & _ & _ & (rest & Hslots) & _).
    right. exists (JsDate.addDays now k), 60. rewrite Hslots. left. reflexivity. }
  destruct (Priority_eqb priority EMERGENCY); [|exact Hstd].
  unfold findEmergencySlot. cbv zeta.
  destruct (filter _ _) as [|r rest] eqn:Hf; [exact Hstd|].
  right. exists now, 120.
  assert (Hr : In r (r :: rest)) by (left; reflexivity).
  rewrite <- Hf in Hr. apply filter_In in Hr. apply Hr.
Qed.

End Booking.

Lemma offered_slot_conflicts_only_across_days_witness :
  JsDate.dayIndex (Appointment.scheduled_date SampleMore.overnight)
  <> JsDate.dayIndex Sample.friday.
Proof.
  apply (offered_slot_conflicts_only_across_days
           [SampleMore.overnight] "acme" Sample.friday 60
           (Sample.at_ Sample.friday 8 0) SampleMore.overnight).
  - vm_compute. left. reflexivity.
  - vm_compute. left. reflexivity.
Defined.

(** X8. Once an appointment of positive duration starts at an instant,
    [getAvailableSlots] no longer offers that instant for the company,
    whatever date and duration are asked; and creating an appointment
    (for any company) never adds a slot to anyone's availability. *)
Theorem createAppointment_takes_the_slot
        (db : Appointment.Store) (companyId other : string)
        (slot estimatedDuration date duration : Z) :
  0 < estimatedDuration ->
  ~ In slot (Appointment.getAvailableSlots
               (AppointmentMore.createAppointment db companyId slot estimatedDuration)
               companyId date duration)
  /\ forall x,
       In x (Appointment.getAvailableSlots
               (AppointmentMore.createAppointment db companyId slot estimatedDuration)
               other date duration) ->
       In x (Appointment.getAvailableSlots db other date duration).
Proof.
  intros Hpos. split.
  - apply createAppointment_blocks. exact Hpos.
  - intros x. apply createAppointment_shrinks.
Qed.

Lemma createAppointment_takes_the_slot_witness :
  ~ In (Sample.at_ Sample.friday 10 0)
       (Appointment.getAvailableSlots
          (AppointmentMore.createAppointment Sample.store "acme"
                                             (Sample.at_ Sample.friday 10 0) 60)
          "acme" (Sample.at_ Sample.friday 0 5) 60)
  /\ forall x,
       In x (Appointment.getAvailableSlots
               (AppointmentMore.createAppointment Sample.store "acme"
                                                  (Sample.at_ Sample.friday 10 0) 60)
               "other" (Sample.at_ Sample.friday 0 5) 60) ->
       In x (Appointment.getAvailableSlots Sample.store "other"
                                           (Sample.at_ Sample.friday 0 5) 60).
Proof.
  apply (createAppointment_takes_the_slot
           Sample.store "acme" "other" (Sample.at_ Sample.friday 10 0) 60
           (Sample.at_ Sample.friday 0 5) 60).
  lia.
Defined.

(** X9. A row of another company, of another calendar day, or with status
    cancelled or completed has no influence on [getAvailableSlots]. *)
Theorem getAvailableSlots_ignores_foreign_rows
        (before after : Appointment.Store) (row : Appointment.AppointmentRow)
        (companyId : string) (date duration : Z) :
  Appointment.company_id row <> companyId
  \/ JsDate.dayIndex (Appointment.scheduled_date row) <> JsDate.dayIndex date
  \/ Appointment.status row = "cancelled"%string
  \/ Appointment.status row = "completed"%string ->
  Appointment.getAvailableSlots (before ++ row :: after)%list companyId date duration
  = Appointment.getAvailableSlots (before ++ after)%list companyId date duration.
Proof.
  intros Hforeign.
  assert (Hrows : Appointment.existingAppointments (before ++ row :: after)%list companyId date
                  = Appointment.existingAppointments (before ++ after)%list companyId date).
  { unfold Appointment.existingAppointments. rewrite !filter_app. cbn [filter].
    replace (String.eqb (Appointment.company_id row) companyId
             && Appointment.sameDate (Appointment.scheduled_date row) date
             && Appointment.isActive row)%bool with false; [reflexivity|].
    symmetry. destruct Hforeign as [Hc|[Hd|[Hs|Hs]]].
    - apply String.eqb_neq in Hc. rewrite Hc. reflexivity.
    - unfold Appointment.sameDate. apply Z.eqb_neq in Hd. rewrite Hd.
      apply andb_false_iff. left. apply andb_false_r.
    - unfold Appointment.isActive. rewrite Hs. apply andb_false_r.
    - unfold Appointment.isActive. rewrite Hs.
      destruct (String.eqb "completed" "cancelled"); apply andb_false_r. }
  unfold Appointment.getAvailableSlots. cbv zeta. rewrite Hrows. reflexivity.
Qed.

Lemma getAvailableSlots_ignores_foreign_rows_witness :
  Appointment.getAvailableSlots
    ([Sample.nineToTen]
       ++ {| Appointment.company_id := "acme";
             Appointment.scheduled_date := Sample.at_ Sample.friday 11 0;
             Appointment.estimated_duration := 90;
             Appointment.status := "completed" |} :: [])%list
    "acme" Sample.friday 60
  = Appointment.getAvailableSlots ([Sample.nineToTen] ++ [])%list "acme" Sample.friday 60.
Proof.
  apply (getAvailableSlots_ignores_foreign_rows
           [Sample.nineToTen]
           []
           {| Appointment.company_id := "acme";
              Appointment.scheduled_date := Sample.at_ Sample.friday 11 0;
              Appointment.estimated_duration := 90;
              Appointment.status := "completed" |}
           "acme" Sample.friday 60).
  right. right. right. reflexivity.
Defined.

(** X10. Two bookings in a row never get the same start: the slot that
    [handleAppointmentBooking] books first is not what the next request
    of the company is given, unless it is that request's 14-day fallback
    instant (which is handed out unchecked). *)
Theorem sequential_bookings_differ
        (db : Appointment.Store) (companyId : string)
        (emergency1 emergency2 : bool) (description1 description2 : string)
        (now1 now2 : Z) :
  let first := Webhook.bookAppointment db companyId emergency1 description1 now1 in
  let second :=
    Webhook.bookAppointment (snd first) companyId emergency2 description2 now2 in
  fst first <> Appointment.fallbackSlot now2 ->
  fst second <> fst first.
Proof.
  cbv zeta. unfold Webhook.bookAppointment. cbv zeta. cbn [fst snd].
  set (e1 := (emergency1 || HVAC.detectEmergency description1)%bool).
  set (e2 := (emergency2 || HVAC.detectEmergency description2)%bool).
  set (r := Appointment.getNextAvailableSlot db companyId
              (if e1 then EMERGENCY else MEDIUM) now1).
  intros Hfallback Heq.
  destruct (getNextAvailableSlot_source
              (AppointmentMore.createAppointment db companyId r (if e1 then 120 else 60))
              companyId (if e2 then EMERGENCY else MEDIUM) now2)
    as [Hfb|(date & duration & Hin)].
  - congruence.
  - rewrite Heq in Hin. revert Hin.
    apply createAppointment_blocks. destruct e1; lia.
Qed.

Lemma sequential_bookings_differ_witness :
  let first :=
    Webhook.bookAppointment Sample.store "acme" false "routine tune-up"
                            (Sample.at_ Sample.friday 7 0) in
  let second :=
    Webhook.bookAppointment (snd first) "acme" false "duct cleaning"
                            (Sample.at_ Sample.friday 7 5) in
  fst second <> fst first.
Proof.
  apply (sequential_bookings_differ
           Sample.store "acme" false false "routine tune-up" "duct cleaning"
           (Sample.at_ Sample.friday 7 0) (Sample.at_ Sample.friday 7 5)).
  vm_compute. discriminate.
Defined.

Example sequential_bookings_values :
  let first :=
    Webhook.bookAppointment Sample.store "acme" false "routine tune-up"
                            (Sample.at_ Sample.friday 7 0) in
  let second :=
    Webhook.bookAppointment (snd first) "acme" false "duct cleaning"
                            (Sample.at_ Sample.friday 7 5) in
  fst first = Sample.at_ Sample.friday 10 0 /\ fst second = Sample.at_ Sample.friday 11 0.
Proof. vm_compute. split; reflexivity. Qed.

(** X11. The appointment that [handleAppointmentBooking] inserts does not
    overlap any active appointment of the company on its day when the
    request is no emergency and the slot is not the 14-day fallback, and
    likewise when it is an emergency served by the same-day emergency
    search. *)
Theorem booked_interval_is_free
        (db : Appointment.Store) (companyId : string)
        (paramIsEmergency : bool) (serviceDescription : string) (now : Z)
        (appt : Appointment.AppointmentRow) :
  let isEmergency := (paramIsEmergency || HVAC.detectEmergency serviceDescription)%bool in
  let slot :=
    fst (Webhook.bookAppointment db companyId paramIsEmergency serviceDescription now) in
  let minutes := if isEmergency then 120 else 60 in
  (isEmergency = false /\ slot <> Appointment.fallbackSlot now)
  \/ (isEmergency = true /\ Appointment.findEmergencySlot db companyId now = Some slot) ->
  In appt db ->
  Appointment.company_id appt = companyId ->
  JsDate.dayIndex (Appointment.scheduled_date appt) = JsDate.dayIndex slot ->
  Appointment.status appt <> "cancelled"%string ->
  Appointment.status appt <> "completed"%string ->
  ~ AppointmentMore.overlaps
      slot (slot + minutes * 60000)
      (Appointment.scheduled_date appt)
      (Appointment.scheduled_date appt + Appointment.estimated_duration appt * 60000).
Proof.
  cbv zeta. unfold Webhook.bookAppointment. cbv zeta. cbn [fst].
  set (e := (paramIsEmergency || HVAC.detectEmergency serviceDescription)%bool).
  intros Hcase Hdb Hcompany Hday Hcancelled Hcompleted.
  assert (Hactive : Appointment.isActive appt = true).
  { unfold Appointment.isActive.
    apply String.eqb_neq in Hcancelled. apply String.eqb_neq in Hcompleted.
    rewrite Hcancelled, Hcompleted. reflexivity. }
  assert (Hfree : exists date,
             Appointment.onGrid date
               (Appointment.getNextAvailableSlot db companyId
                  (if e then EMERGENCY else MEDIUM) now)
             /\ Appointment.freeFor db companyId date (if e then 120 else 60)
                  (Appointment.getNextAvailableSlot db companyId
                     (if e then EMERGENCY else MEDIUM) now)).
  { destruct Hcase as [[He Hnot]|[He Hfound]]; rewrite He in *.
    - unfold Appointment.getNextAvailableSlot, Appointment.standardSearch in *.
      simpl Priority_eqb in *. cbv iota in *.
      pose proof (searchDays_spec db companyId now 14 0) as Hspec.
      destruct (Appointment.searchDays db companyId now 14 0) as [r|];
        [|exfalso; apply Hnot; reflexivity].
      destruct Hspec as (k & _ & _ & (rest & Hslots) & _).
      exists (JsDate.addDays now k).
      destruct (getAvailableSlots_spec db companyId (JsDate.addDays now k) 60)
        as (_ & _ & Hin).
      apply (proj1 (Hin r)). rewrite Hslots. left. reflexivity.
    - pose proof (findEmergencySlot_spec db companyId now) as Hspec.
      rewrite Hfound in Hspec. destruct Hspec as ((Hgrid & Hfree & _) & _).
      exists now. split; assumption. }
  destruct Hfree as (date & Hgrid & Hfree).
  pose proof (onGrid_same_day _ _ Hgrid) as Hsame.
  assert (Hc := Hfree appt Hdb Hcompany).
  rewrite Hactive in Hc. unfold Appointment.sameDate in Hc.
  rewrite Hday, Hsame, Z.eqb_refl in Hc. specialize (Hc eq_refl eq_refl).
  apply conflictsWith_false in Hc. cbv zeta in Hc.
  destruct Hc as (_ & _ & _ & Hdisjoint).
  intros (x & Hx). exact (Hdisjoint x Hx).
Qed.

Lemma booked_interval_is_free_witness :
  ~ AppointmentMore.overlaps
      (Sample.at_ Sample.friday 10 0) (Sample.at_ Sample.friday 10 0 + 60 * 60000)
      (Appointment.scheduled_date Sample.nineToTen)
      (Appointment.scheduled_date Sample.nineToTen
       + Appointment.estimated_duration Sample.nineToTen * 60000).
Proof.
  apply (booked_interval_is_free Sample.store "acme" false "routine tune-up"
                                 (Sample.at_ Sample.friday 7 0) Sample.nineToTen).
  - left. split; [reflexivity | vm_compute; discriminate].
  - left. reflexivity.
  - reflexivity.
  - reflexivity.
  - discriminate.
  - discriminate.
Defined.

(** Outside these cases the booking can overlap: an emergency late in the
    day falls back to the standard search, whose slot was checked for 60
    minutes only but is booked for 120. *)
Example emergency_fallback_overlaps :
  let db := [Sample.nineToTen] in
  let booked :=
    Webhook.bookAppointment db "acme" true "no heat" (Sample.at_ Sample.friday 16 30) in
  fst booked = Sample.at_ Sample.friday 8 0
  /\ AppointmentMore.findAppointmentConflicts db "acme" (fst booked) 120 = [Sample.nineToTen].
Proof. vm_compute. split; reflexivity. Qed.

Section Alternatives.
Import Appointment AppointmentMore.

Lemma dayIndex_addDays (t n : Z) :
  JsDate.dayIndex (JsDate.addDays t n) = JsDate.dayIndex t + n.
Proof.
  unfold JsDate.dayIndex, JsDate.addDays.
  apply Z.div_add. vm_compute. discriminate.
Qed.

Lemma addDays_addDays (t a b : Z) :
  JsDate.addDays (JsDate.addDays t a) b = JsDate.addDays t (a + b).
Proof. unfold JsDate.addDays. lia. Qed.

Lemma dayIndex_lt (a b : Z) : JsDate.dayIndex a < JsDate.dayIndex b -> a < b.
Proof.
  unfold JsDate.dayIndex. intros Hlt.
  destruct (Z.lt_ge_cases a b) as [H|H]; [exact H|].
  apply (Z.div_le_mono _ _ JsDate.msPerDay) in H; [lia | vm_compute; reflexivity].
Qed.

Lemma getDay_of_dayIndex (a b : Z) :
  JsDate.dayIndex a = JsDate.dayIndex b -> JsDate.getDay a = JsDate.getDay b.
Proof. unfold JsDate.getDay. intros ->. reflexivity. Qed.

(** The first slot of a day's list is an alternative in the sense of
    [alternativeOn]. *)
Lemma first_slot_alternative (db : Store) (companyId : string) (preferredDate i a : Z)
      (rest : list Z) :
  1 <= i <= 7 ->
  JsDate.getDay (JsDate.addDays preferredDate i) <> 0 ->
  getAvailableSlots db companyId (JsDate.addDays preferredDate i) 60 = a :: rest ->
  alternativeOn db companyId preferredDate a.
Proof.
  intros Hi Hday Hslots.
  destruct (getAvailableSlots_spec db companyId (JsDate.addDays preferredDate i) 60)
    as (_ & Hsorted & Hin).
  assert (Ha : In a (getAvailableSlots db companyId (JsDate.addDays preferredDate i) 60))
    by (rewrite Hslots; left; reflexivity).
  apply Hin in Ha. destruct Ha as (Hgrid & Hfree).
  pose proof (onGrid_same_day _ _ Hgrid) as Hsame.
  exists i. split; [exact Hi|]. split; [rewrite Hsame; apply dayIndex_addDays|].
  split; [rewrite (getDay_of_dayIndex _ _ Hsame); exact Hday|].
  split; [exact Hgrid|]. split; [exact Hfree|].
  intros s Hs Hsfree.
  assert (Hs' : In s (getAvailableSlots db companyId (JsDate.addDays preferredDate i) 60))
    by (apply Hin; auto).
  rewrite Hslots in Hs', Hsorted. inversion Hsorted as [|? ? _ Hall]; subst.
  rewrite Forall_forall in Hall.
  destruct Hs' as [<-|Hs']; [lia | apply Hall in Hs'; lia].
Qed.

Lemma alternativesLoop_spec (db : Store) (companyId : string) (count : Z)
      (remaining : nat) :
  forall (searchDate : Z) (alternatives : list Z),
  exists fresh,
    alternativesLoop db companyId count remaining searchDate alternatives
    = (alternatives ++ fresh)%list
    /\ StronglySorted Z.lt fresh
    /\ Forall (fun a =>
                 exists i, 1 <= i <= Z.of_nat remaining
                           /\ JsDate.getDay (JsDate.addDays searchDate i) <> 0
                           /\ exists rest,
                               getAvailableSlots db companyId (JsDate.addDays searchDate i) 60
                               = a :: rest)
              fresh
    /\ (List.length fresh <= nonSundays remaining searchDate)%nat
    /\ (fresh = [] \/ Z.of_nat (List.length (alternatives ++ fresh)) <= count).
Proof.
  induction remaining as [|n IH]; intros searchDate alternatives.
  - exists []. simpl. rewrite app_nil_r.
    split; [reflexivity|]. split; [constructor|]. split; [constructor|].
    split; [lia | left; reflexivity].
  - cbn [alternativesLoop nonSundays]. cbv zeta.
    destruct (Z.ltb_spec (Z.of_nat (List.length alternatives)) count) as [Hroom|Hfull].
    2:{ exists []. rewrite app_nil_r.
        split; [reflexivity|]. split; [constructor|]. split; [constructor|].
        split; [simpl; lia | left; reflexivity]. }
    assert (Hshift : forall a i,
               (1 <= i <= Z.of_nat n
                /\ JsDate.getDay (JsDate.addDays (JsDate.addDays searchDate 1) i) <> 0
                /\ exists rest,
                    getAvailableSlots db companyId
                      (JsDate.addDays (JsDate.addDays searchDate 1) i) 60 = a :: rest) ->
               1 <= i + 1 <= Z.of_nat (S n)
               /\ JsDate.getDay (JsDate.addDays searchDate (i + 1)) <> 0
               /\ exists rest,
                   getAvailableSlots db companyId (JsDate.addDays searchDate (i + 1)) 60
                   = a :: rest).
    { intros a i (Hi & Hday & Hrest). rewrite addDays_addDays in Hday, Hrest.
      replace (1 + i) with (i + 1) in Hday, Hrest by lia.
      split; [lia|]. split; assumption. }
    assert (Hlift : forall fresh,
               Forall (fun a =>
                         exists i, 1 <= i <= Z.of_nat n
                                   /\ JsDate.getDay
                                        (JsDate.addDays (JsDate.addDays searchDate 1) i) <> 0
                                   /\ exists rest,
                                       getAvailableSlots db companyId
                                         (JsDate.addDays (JsDate.addDays searchDate 1) i) 60
                                       = a :: rest) fresh ->
               Forall (fun a =>
                         exists i, 1 <= i <= Z.of_nat (S n)
                                   /\ JsDate.getDay (JsDate.addDays searchDate i) <> 0
                                   /\ exists rest,
                                       getAvailableSlots db companyId
                                         (JsDate.addDays searchDate i) 60 = a :: rest) fresh).
    { intros fresh Hall. eapply Forall_impl; [|exact Hall].
      intros a (i & Hi). exists (i + 1). apply Hshift. exact Hi. }
    destruct (Z.eqb_spec (JsDate.getDay (JsDate.addDays searchDate 1)) 0) as [Hsun|Hday].
    + destruct (IH (JsDate.addDays searchDate 1) alternatives)
        as (fresh & -> & Hsorted & Hall & Hlen & Hcount).
      exists fresh. repeat split; auto.
    + destruct (getAvailableSlots db companyId (JsDate.addDays searchDate 1) 60)
        as [|slot rest] eqn:Hslots.
      * destruct (IH (JsDate.addDays searchDate 1) alternatives)
          as (fresh & -> & Hsorted & Hall & Hlen & Hcount).
        exists fresh. repeat split; auto.
      * destruct (IH (JsDate.addDays searchDate 1) (alternatives ++ [slot])%list)
          as (fresh & -> & Hsorted & Hall & Hlen & Hcount).
        exists (slot :: fresh). split; [rewrite <- app_assoc; reflexivity|].
        assert (Hslot_day : JsDate.dayIndex slot = JsDate.dayIndex searchDate + 1).
        { destruct (getAvailableSlots_spec db companyId (JsDate.addDays searchDate 1) 60)
            as (_ & _ & Hin).
          assert (Hs : In slot (getAvailableSlots db companyId
                                  (JsDate.addDays searchDate 1) 60))
            by (rewrite Hslots; left; reflexivity).
          apply Hin in Hs. destruct Hs as (Hgrid & _).
          rewrite (onGrid_same_day _ _ Hgrid). apply dayIndex_addDays. }
        split.
        { constructor; [exact Hsorted|]. rewrite Forall_forall in *.
          intros a Ha. destruct (Hall a Ha) as (i & Hi & _ & (rest' & Hrest')).
          apply dayIndex_lt. rewrite Hslot_day.
          destruct (getAvailableSlots_spec db companyId
                      (JsDate.addDays (JsDate.addDays searchDate 1) i) 60)
            as (_ & _ & Hin).
          assert (Hs : In a (getAvailableSlots db companyId
                               (JsDate.addDays (JsDate.addDays searchDate 1) i) 60))
            by (rewrite Hrest'; left; reflexivity).
          apply Hin in Hs. destruct Hs as (Hgrid & _).
          rewrite (onGrid_same_day _ _ Hgrid), !dayIndex_addDays. lia. }
        split.
        { constructor; [|apply Hlift; exact Hall].
          exists 1. split; [lia|]. split; [exact Hday|]. exists rest. exact Hslots. }
        split; [simpl; lia|].
        right. rewrite length_app. cbn [List.length].
        destruct Hcount as [Hnil|Hcount].
        -- rewrite Hnil. simpl. lia.
        -- rewrite !length_app in Hcount. cbn [List.length] in Hcount. lia.
Qed.

Lemma nonSundays_week (searchDate : Z) : (nonSundays 7 searchDate <= 6)%nat.
Proof.
  cbn [nonSundays]. cbv zeta. rewrite !addDays_addDays, !getDay_addDays.
  repeat match goal with
         | |- context [Z.eqb ?a 0] => destruct (Z.eqb_spec a 0)
         end; try lia.
  exfalso. Z.to_euclidean_division_equations. lia.
Qed.

End Alternatives.

(** X12. [suggestAlternativeSlots] never returns more than six dates
    (one of any seven consecutive days is a Sunday) and never more than
    [count]; a [count] of zero or less gives the empty list. *)
Theorem suggestAlternativeSlots_bounds
        (db : Appointment.Store) (companyId : string) (preferredDate count : Z) :
  (List.length (AppointmentMore.suggestAlternativeSlots db companyId preferredDate count)
   <= 6)%nat
  /\ Z.of_nat (List.length
                 (AppointmentMore.suggestAlternativeSlots db companyId preferredDate count))
     <= Z.max 0 count
  /\ (count <= 0 ->
      AppointmentMore.suggestAlternativeSlots db companyId preferredDate count = []).
Proof.
  unfold AppointmentMore.suggestAlternativeSlots.
  destruct (alternativesLoop_spec db companyId count 7 preferredDate [])
    as (fresh & -> & _ & _ & Hlen & Hcount).
  pose proof (nonSundays_week preferredDate) as Hweek. simpl app.
  split; [lia|]. split.
  - destruct Hcount as [->|Hcount]; simpl in *; lia.
  - intros Hle. destruct Hcount as [->|Hcount]; [reflexivity|].
    destruct fresh; [reflexivity | simpl in Hcount; lia].
Qed.

(** X13. Every date returned by [suggestAlternativeSlots] is the earliest
    free 60-minute slot of a day one to seven days after the preferred
    date that is no Sunday (so never the preferred day itself), and the
    dates come in strictly increasing order. *)
Theorem suggestAlternativeSlots_later_days
        (db : Appointment.Store) (companyId : string) (preferredDate count : Z) :
  Forall (AppointmentMore.alternativeOn db companyId preferredDate)
         (AppointmentMore.suggestAlternativeSlots db companyId preferredDate count)
  /\ StronglySorted Z.lt
       (AppointmentMore.suggestAlternativeSlots db companyId preferredDate count).
Proof.
  unfold AppointmentMore.suggestAlternativeSlots.
  destruct (alternativesLoop_spec db companyId count 7 preferredDate [])
    as (fresh & -> & Hsorted & Hall & _ & _).
  simpl app. split; [|exact Hsorted].
  eapply Forall_impl; [|exact Hall].
  intros a (i & Hi & Hday & (rest & Hslots)).
  apply (first_slot_alternative db companyId preferredDate i a rest);
    [simpl in Hi; lia | exact Hday | exact Hslots].
Qed.

Example alternatives_after_friday :
  AppointmentMore.suggestAlternativeSlots Sample.store "acme" (Sample.at_ Sample.friday 13 0) 3
  = [ Sample.at_ (Sample.friday + 1 * JsDate.msPerDay) 8 0;
      Sample.at_ (Sample.friday + 3 * JsDate.msPerDay) 8 0;
      Sample.at_ (Sample.friday + 4 * JsDate.msPerDay) 8 0 ]
  /\ List.length
       (AppointmentMore.suggestAlternativeSlots Sample.store "acme"
                                                (Sample.at_ Sample.friday 13 0) 10) = 6%nat.
Proof. vm_compute. split; reflexivity. Qed.

(* ================================================================= *)
(** ** More about the live call registry *)

Section RegistryMore.
Import CallMonitor CallMonitorMore.

Lemma Map_get_In (m : CallMap) (key : string) (value : ActiveCall) :
  NoDup (map fst m) -> In (key, value) m -> Map_get key m = Some value.
Proof.
  induction m as [|[k v] rest IH]; simpl; intros Hnd Hin; [tauto|].
  inversion Hnd as [|? ? Hnotin Hnd']; subst.
  destruct Hin as [Heq|Hin].
  - injection Heq as -> ->. rewrite String.eqb_refl. reflexivity.
  - destruct (String.eqb_spec k key) as [->|Hne]; [|apply IH; assumption].
    exfalso. apply Hnotin. apply in_map_iff. exists (key, value). auto.
Qed.

Lemma Map_get_Some_In (m : CallMap) (key : string) (value : ActiveCall) :
  Map_get key m = Some value -> In (key, value) m.
Proof.
  induction m as [|[k v] rest IH]; simpl; [discriminate|].
  destruct (String.eqb_spec k key) as [->|Hne].
  - intros [= ->]. left. reflexivity.
  - intros H. right. apply IH. exact H.
Qed.

Lemma Map_get_None_keys (m : CallMap) (key : string) :
  Map_get key m = None -> ~ In key (map fst m).
Proof.
  induction m as [|[k v] rest IH]; simpl; [tauto|].
  destruct (String.eqb_spec k key) as [->|Hne]; [discriminate|].
  intros H [Heq|Hin]; [congruence | exact (IH H Hin)].
Qed.

Lemma Map_set_keys (m : CallMap) (key : string) (value : ActiveCall) :
  map fst (Map_set key value m)
  = match Map_get key m with
    | Some _ => map fst m
    | None => (map fst m ++ [key])%list
    end.
Proof.
  induction m as [|[k v] rest IH]; simpl; [reflexivity|].
  destruct (String.eqb_spec k key) as [->|Hne]; simpl; [reflexivity|].
  rewrite IH. destruct (Map_get key rest); reflexivity.
Qed.

Lemma Map_set_In (m : CallMap) (key : string) (value : ActiveCall) (entry : string * ActiveCall) :
  In entry (Map_set key value m) -> entry = (key, value) \/ In entry m.
Proof.
  induction m as [|[k v] rest IH]; simpl.
  - intuition.
  - destruct (String.eqb_spec k key) as [->|Hne]; simpl; intuition.
Qed.

Lemma wellKeyed_set (m : CallMap) (key : string) (value : ActiveCall) :
  wellKeyed m -> id value = key -> wellKeyed (Map_set key value m).
Proof.
  intros [Hnd Hid] Hvalue. split.
  - rewrite Map_set_keys. destruct (Map_get key m) eqn:Hget; [exact Hnd|].
    apply NoDup_app; [exact Hnd | repeat constructor; simpl; tauto | ].
    intros k Hk [<-|[]]. exact (Map_get_None_keys _ _ Hget Hk).
  - rewrite Forall_forall in *. intros entry Hentry.
    apply Map_set_In in Hentry. destruct Hentry as [->|Hentry]; [exact Hvalue | auto].
Qed.

Lemma wellKeyed_delete (m : CallMap) (key : string) :
  wellKeyed m -> wellKeyed (Map_delete key m).
Proof.
  intros [Hnd Hid]. unfold Map_delete. split.
  - induction m as [|[k v] rest IH]; simpl; [constructor|].
    inversion Hnd as [|? ? Hnotin Hnd']; subst.
    inversion Hid as [|? ? _ Hid']; subst.
    destruct (String.eqb k key); simpl; [apply IH; assumption|].
    constructor; [|apply IH; assumption].
    intros Hin. apply Hnotin. apply in_map_iff in Hin.
    destruct Hin as (entry & Hfst & Hin). apply filter_In in Hin.
    apply in_map_iff. exists entry. tauto.
  - rewrite Forall_forall in *. intros entry Hentry.
    apply filter_In in Hentry. apply Hid, Hentry.
Qed.

Lemma foundCall_get (vapiCallId : string) (st : State) (call : ActiveCall) :
  wellKeyed (activeCalls st) ->
  foundCall vapiCallId st = Some call ->
  Map_get (id call) (activeCalls st) = Some call.
Proof.
  intros [Hnd Hid] Hfind. unfold foundCall in Hfind.
  apply find_some in Hfind. destruct Hfind as [Hin _].
  unfold Map_values in Hin. apply in_map_iff in Hin.
  destruct Hin as ([k v] & Hsnd & Hin). simpl in Hsnd. subst v.
  rewrite Forall_forall in Hid. pose proof (Hid _ Hin) as Hk. simpl in Hk. subst k.
  apply Map_get_In; assumption.
Qed.

Lemma handleEmergencyDetection_effects (call : ActiveCall) (now : Z) (st : State) :
  emitted (handleEmergencyDetection call now st)
  = (emitted st ++ [(roomOf call, emergency_detected call now)])%list
  /\ dbWrites (handleEmergencyDetection call now st)
     = (dbWrites st ++ [SetEmergency (id call)])%list
  /\ smsSent (handleEmergencyDetection call now st) = smsSent st.
Proof.
  unfold handleEmergencyDetection, findById. cbv zeta.
  destruct (find _ _) as [row|]; simpl; auto.
Qed.

(** The object built from a row never has the sending number. *)
Lemma mapRowToCompany_no_number (row : CompanyRow) :
  Js.getProperty "telnyx_phone_number" (mapRowToCompany row) = Js.Undefined.
Proof. reflexivity. Qed.

Lemma append_not_empty (a b : string) :
  String.eqb (a ++ newline ++ b) "" = false.
Proof. apply String.eqb_neq. unfold newline. destruct a; simpl; discriminate. Qed.

End RegistryMore.

(** X14. The registry stays well keyed (every id at most once, every
    session stored under its own id) under [addActiveCall],
    [handleVapiUpdate] and [endCall], and under every [updateCall] whose
    update does not carry an [id]. *)
Theorem registry_stays_well_keyed (st : CallMonitor.State) :
  CallMonitorMore.wellKeyed (CallMonitor.activeCalls st) ->
  (forall callData now,
      CallMonitorMore.wellKeyed
        (CallMonitor.activeCalls (CallMonitor.addActiveCall callData now st)))
  /\ (forall callId updates now,
         CallMonitor.u_id updates = None ->
         CallMonitorMore.wellKeyed
           (CallMonitor.activeCalls (CallMonitor.updateCall callId updates now st)))
  /\ (forall vapiCallId message now,
         CallMonitorMore.wellKeyed
           (CallMonitor.activeCalls (CallMonitor.handleVapiUpdate vapiCallId message now st)))
  /\ (forall callId reason now,
         CallMonitorMore.wellKeyed
           (CallMonitor.activeCalls (CallMonitor.endCall callId reason now st))).
Proof.
  intros Hwk.
  assert (Hupdate : forall callId updates now,
             CallMonitor.u_id updates = None ->
             CallMonitorMore.wellKeyed
               (CallMonitor.activeCalls (CallMonitor.updateCall callId updates now st))).
  { intros callId updates now Hid. unfold CallMonitor.updateCall.
    destruct (CallMonitor.Map_get callId (CallMonitor.activeCalls st)) as [call|] eqn:Hget;
      [|exact Hwk].
    cbv zeta.
    assert (Hkey : CallMonitor.id call = callId).
    { apply Map_get_Some_In in Hget. destruct Hwk as [_ Hall].
      rewrite Forall_forall in Hall. exact (Hall _ Hget). }
    assert (Hmerged : CallMonitor.id
                        (CallMonitor.withDuration (CallMonitor.assign call updates)
                           (CallMonitor.elapsedSeconds now
                              (CallMonitor.assign call updates))) = callId).
    { simpl. rewrite Hid. exact Hkey. }
    destruct (CallMonitor.u_transcript updates) as [text|];
      [|simpl; apply wellKeyed_set; assumption].
    destruct (negb (String.eqb text "") && _)%bool;
      [|simpl; apply wellKeyed_set; assumption].
    destruct (HVAC.detectEmergency text); [|simpl; apply wellKeyed_set; assumption].
    rewrite activeCalls_handleEmergencyDetection. simpl.
    apply wellKeyed_set; [apply wellKeyed_set; assumption | exact Hmerged]. }
  split; [|split; [exact Hupdate|split]].
  - intros callData now. unfold CallMonitor.addActiveCall. simpl.
    apply wellKeyed_set; [exact Hwk | reflexivity].
  - intros vapiCallId message now. unfold CallMonitor.handleVapiUpdate.
    destruct (find _ _) as [call|]; [|exact Hwk].
    destruct (String.eqb (CallMonitor.role message) "user"); [|exact Hwk].
    apply Hupdate. reflexivity.
  - intros callId reason now. unfold CallMonitor.endCall.
    destruct (CallMonitor.Map_get callId (CallMonitor.activeCalls st)); [|exact Hwk].
    simpl. apply wellKeyed_delete. exact Hwk.
Qed.

Lemma registry_stays_well_keyed_witness :
  (forall callData now,
      CallMonitorMore.wellKeyed
        (CallMonitor.activeCalls (CallMonitor.addActiveCall callData now Sample.flaggedCall)))
  /\ (forall callId updates now,
         CallMonitor.u_id updates = None ->
         CallMonitorMore.wellKeyed
           (CallMonitor.activeCalls
              (CallMonitor.updateCall callId updates now Sample.flaggedCall)))
  /\ (forall vapiCallId message now,
         CallMonitorMore.wellKeyed
           (CallMonitor.activeCalls
              (CallMonitor.handleVapiUpdate vapiCallId message now Sample.flaggedCall)))
  /\ (forall callId reason now,
         CallMonitorMore.wellKeyed
           (CallMonitor.activeCalls (CallMonitor.endCall callId reason now Sample.flaggedCall))).
Proof.
  apply (registry_stays_well_keyed Sample.flaggedCall).
  split.
  - simpl. constructor; [simpl; tauto | constructor].
  - simpl. constructor; [reflexivity | constructor].
Defined.

(** X15. A transcript message for a session that is already flagged sends
    no text message, writes nothing to the store and emits no further
    [emergency-detected] event, whatever the message says: the alert goes
    out at most once per flagged session. *)
Theorem flagged_session_is_not_alerted_again
        (vapiCallId : string) (message : CallMonitor.Message) (now : Z)
        (st : CallMonitor.State) (call : CallMonitor.ActiveCall) :
  CallMonitorMore.wellKeyed (CallMonitor.activeCalls st) ->
  CallMonitorMore.foundCall vapiCallId st = Some call ->
  CallMonitor.isEmergency call = true ->
  let st' := CallMonitor.handleVapiUpdate vapiCallId message now st in
  CallMonitor.smsSent st' = CallMonitor.smsSent st
  /\ CallMonitor.dbWrites st' = CallMonitor.dbWrites st
  /\ CallMonitorMore.emergencyEvents st' = CallMonitorMore.emergencyEvents st
  /\ CallMonitor.flagOf (CallMonitor.id call) st' = Some true.
Proof.
  intros Hwk Hfound Hflag. cbv zeta.
  pose proof (foundCall_get _ _ _ Hwk Hfound) as Hget.
  unfold CallMonitor.handleVapiUpdate.
  unfold CallMonitorMore.foundCall in Hfound. rewrite Hfound.
  destruct (String.eqb (CallMonitor.role message) "user").
  - unfold CallMonitor.updateCall. rewrite Hget. cbv zeta.
    cbn [CallMonitor.u_transcript].
    replace (CallMonitor.isEmergency
               (CallMonitor.withDuration _ _)) with true by (simpl; congruence).
    rewrite andb_false_r.
    unfold CallMonitorMore.emergencyEvents, CallMonitor.flagOf. simpl.
    rewrite filter_app, Map_get_set_same. simpl. rewrite app_nil_r, Hflag.
    repeat split; reflexivity.
  - unfold CallMonitor.flagOf. rewrite Hget. simpl. rewrite Hflag.
    repeat split; reflexivity.
Qed.

Lemma flagged_session_is_not_alerted_again_witness :
  let message := CallMonitorMore.userMessage "Help, the gas smell is getting worse" in
  let st' := CallMonitor.handleVapiUpdate "call-1" message 6500 Sample.flaggedCall in
  CallMonitor.smsSent st' = CallMonitor.smsSent Sample.flaggedCall
  /\ CallMonitor.dbWrites st' = CallMonitor.dbWrites Sample.flaggedCall
  /\ CallMonitorMore.emergencyEvents st' = CallMonitorMore.emergencyEvents Sample.flaggedCall
  /\ CallMonitor.flagOf "call-1" st' = Some true.
Proof.
  refine (flagged_session_is_not_alerted_again
            "call-1" (CallMonitorMore.userMessage "Help, the gas smell is getting worse")
            6500 Sample.flaggedCall
            {| CallMonitor.id := "call-1"; CallMonitor.companyId := "acme";
               CallMonitor.customerPhone := "+15550001"; CallMonitor.status := CallMonitor.ringing;
               CallMonitor.startTime := 1000; CallMonitor.duration := 4;
               CallMonitor.isEmergency := true;
               CallMonitor.transcript :=
                 CallMonitor.newline ++ "Customer: There is a gas smell in the kitchen";
               CallMonitor.sentiment := CallMonitor.neutral |}
            _ _ _).
  - split.
    + simpl. constructor; [simpl; tauto | constructor].
    + simpl. constructor; [reflexivity | constructor].
  - vm_compute. reflexivity.
  - reflexivity.
Defined.

(** X16. The first user message with emergency content on an unflagged
    session sets the flag, emits exactly one [emergency-detected] event
    and writes [is_emergency = true] for the call, but sends no text
    message, whatever the [companies] table holds: the object that
    [findById] builds from a row has no [telnyx_phone_number] property, so
    the guard of the alert is never passed. *)
Theorem first_emergency_message_alerts_once
        (vapiCallId text : string) (now : Z)
        (st : CallMonitor.State) (call : CallMonitor.ActiveCall) :
  CallMonitorMore.wellKeyed (CallMonitor.activeCalls st) ->
  CallMonitorMore.foundCall vapiCallId st = Some call ->
  CallMonitor.isEmergency call = false ->
  HVAC.detectEmergency text = true ->
  let st' :=
    CallMonitor.handleVapiUpdate vapiCallId (CallMonitorMore.userMessage text) now st in
  CallMonitor.flagOf (CallMonitor.id call) st' = Some true
  /\ List.length (CallMonitorMore.emergencyEvents st')
     = S (List.length (CallMonitorMore.emergencyEvents st))
  /\ CallMonitor.dbWrites st'
     = (CallMonitor.dbWrites st ++ [CallMonitor.SetEmergency (CallMonitor.id call)])%list
  /\ CallMonitor.smsSent st' = CallMonitor.smsSent st
  /\ (forall row,
        Js.getProperty "telnyx_phone_number" (CallMonitor.mapRowToCompany row)
        = Js.Undefined).
Proof.
  intros Hwk Hfound Hflag Hdetect. cbv zeta.
  pose proof (foundCall_get _ _ _ Hwk Hfound) as Hget.
  unfold CallMonitor.handleVapiUpdate.
  unfold CallMonitorMore.foundCall in Hfound. rewrite Hfound.
  cbn [CallMonitorMore.userMessage CallMonitor.role CallMonitor.content].
  rewrite String.eqb_refl.
  unfold CallMonitor.updateCall. rewrite Hget. cbv zeta.
  cbn [CallMonitor.u_transcript].
  replace (CallMonitor.isEmergency (CallMonitor.withDuration _ _)) with false
    by (simpl; congruence).
  rewrite append_not_empty. simpl andb. cbv iota.
  rewrite (detectEmergency_app_r _ _ (detectEmergency_app_r _ _
             (detectEmergency_app_r _ _ Hdetect))).
  match goal with
  | |- context [CallMonitor.handleEmergencyDetection ?c ?n ?s] =>
      destruct (handleEmergencyDetection_effects c n s) as (Hev & Hdb & Hsms)
  end.
  unfold CallMonitor.flagOf, CallMonitorMore.emergencyEvents.
  rewrite activeCalls_handleEmergencyDetection, Hev, Hdb, Hsms.
  simpl. rewrite Map_get_set_same, !filter_app. simpl.
  rewrite app_nil_r, length_app. simpl.
  split; [reflexivity|]. split; [lia|]. split; [reflexivity|].
  split; [reflexivity | exact mapRowToCompany_no_number].
Qed.

Lemma first_emergency_message_alerts_once_witness :
  let st' :=
    CallMonitor.handleVapiUpdate "call-1" (CallMonitorMore.userMessage "I smell gas, a gas smell")
                                 5500 Sample.ringingCall in
  CallMonitor.flagOf "call-1" st' = Some true
  /\ List.length (CallMonitorMore.emergencyEvents st')
     = S (List.length (CallMonitorMore.emergencyEvents Sample.ringingCall))
  /\ CallMonitor.dbWrites st'
     = (CallMonitor.dbWrites Sample.ringingCall ++ [CallMonitor.SetEmergency "call-1"])%list
  /\ CallMonitor.smsSent st' = CallMonitor.smsSent Sample.ringingCall
  /\ (forall row,
        Js.getProperty "telnyx_phone_number" (CallMonitor.mapRowToCompany row)
        = Js.Undefined).
Proof.
  refine (first_emergency_message_alerts_once
            "call-1" "I smell gas, a gas smell" 5500 Sample.ringingCall
            {| CallMonitor.id := "call-1"; CallMonitor.companyId := "acme";
               CallMonitor.customerPhone := "+15550001"; CallMonitor.status := CallMonitor.ringing;
               CallMonitor.startTime := 1000; CallMonitor.duration := 0;
               CallMonitor.isEmergency := false; CallMonitor.transcript := "";
               CallMonitor.sentiment := CallMonitor.neutral |}
            _ _ _ _).
  - split.
    + simpl. constructor; [simpl; tauto | constructor].
    + simpl. constructor; [reflexivity | constructor].
  - vm_compute. reflexivity.
  - reflexivity.
  - vm_compute. reflexivity.
Defined.

Section RegistryRoundTrip.
Import CallMonitor CallMonitorMore.

Lemma Map_delete_absent (m : CallMap) (key : string) :
  Map_get key m = None -> Map_delete key m = m.
Proof.
  unfold Map_delete. induction m as [|[k v] rest IH]; simpl; [reflexivity|].
  destruct (String.eqb k key); [discriminate|].
  intros H. simpl. rewrite (IH H). reflexivity.
Qed.

Lemma Map_delete_set_fresh (m : CallMap) (key : string) (value : ActiveCall) :
  Map_get key m = None -> Map_delete key (Map_set key value m) = m.
Proof.
  unfold Map_delete. induction m as [|[k v] rest IH]; simpl.
  - rewrite String.eqb_refl. reflexivity.
  - destruct (String.eqb k key) eqn:Hk; [discriminate|].
    intros H. simpl. rewrite Hk. simpl. rewrite (IH H). reflexivity.
Qed.

Lemma step_never_adds (op : Op) (st : State) (key : string) :
  Map_get key (activeCalls st) = None ->
  Map_get key (activeCalls (step st op)) = None.
Proof.
  assert (Hupdate : forall callId updates now,
             Map_get key (activeCalls st) = None ->
             Map_get key (activeCalls (updateCall callId updates now st)) = None).
  { intros callId updates now Hgone. rewrite updateCall_get.
    destruct (Map_get callId (activeCalls st)) as [call|] eqn:Hget; [|exact Hgone].
    destruct (String.eqb_spec key callId) as [->|Hne]; [congruence | exact Hgone]. }
  intros Hgone. destruct op; simpl.
  - apply Hupdate. exact Hgone.
  - unfold handleVapiUpdate. destruct (find _ _); [|exact Hgone].
    destruct (String.eqb (role message) "user"); [apply Hupdate|]; exact Hgone.
  - rewrite endCall_get. destruct (String.eqb key callId); [reflexivity | exact Hgone].
Qed.

End RegistryRoundTrip.

(** X17. Registering a call under a fresh id and ending it restores the
    registry; the trace gains exactly a [call-started] and a [call-ended]
    event and two store writes, the final one recording the duration
    floor((end - start) / 1000) seconds, an empty transcript and no
    emergency; no text message is sent. *)
Theorem add_then_end_round_trip
        (callData : CallMonitor.CallData) (reason : CallMonitor.EndReason)
        (started ended : Z) (st : CallMonitor.State) :
  CallMonitor.Map_get (CallMonitor.cd_id callData) (CallMonitor.activeCalls st) = None ->
  let st' :=
    CallMonitor.endCall (CallMonitor.cd_id callData) reason ended
                        (CallMonitor.addActiveCall callData started st) in
  CallMonitor.activeCalls st' = CallMonitor.activeCalls st
  /\ CallMonitor.smsSent st' = CallMonitor.smsSent st
  /\ CallMonitor.dbWrites st'
     = (CallMonitor.dbWrites st
        ++ [ CallMonitor.SetSummary (CallMonitor.cd_id callData) "Call ringing"%string;
             CallMonitor.FinalUpdate (CallMonitor.cd_id callData)
                                     ((ended - started) / 1000) ""%string false ])%list
  /\ exists startedCall endedCall,
       CallMonitor.emitted st'
       = (CallMonitor.emitted st
          ++ [ (("company-" ++ CallMonitor.cd_companyId callData)%string,
                CallMonitor.call_started startedCall started);
               (("company-" ++ CallMonitor.cd_companyId callData)%string,
                CallMonitor.call_ended endedCall reason ended) ])%list
       /\ CallMonitor.status startedCall = CallMonitor.ringing
       /\ CallMonitor.status endedCall = CallMonitor.ending
       /\ CallMonitor.duration endedCall = (ended - started) / 1000.
Proof.
  intros Hfresh. cbv zeta. unfold CallMonitor.endCall, CallMonitor.addActiveCall.
  cbv zeta. cbn [CallMonitor.activeCalls CallMonitor.query CallMonitor.emit
                 CallMonitor.setCalls].
  rewrite Map_get_set_same. cbv zeta.
  cbn [CallMonitor.activeCalls CallMonitor.query CallMonitor.emit CallMonitor.setCalls
       CallMonitor.smsSent CallMonitor.dbWrites CallMonitor.emitted].
  rewrite (Map_delete_set_fresh _ _ _ Hfresh).
  split; [reflexivity|]. split; [reflexivity|]. split.
  - rewrite <- app_assoc. reflexivity.
  - eexists. eexists. split; [rewrite <- app_assoc; reflexivity|].
    repeat split; reflexivity.
Qed.

Lemma add_then_end_round_trip_witness :
  let callData :=
    {| CallMonitor.cd_id := "call-9"; CallMonitor.cd_companyId := "acme";
       CallMonitor.cd_customerPhone := "+15550009" |} in
  let st' :=
    CallMonitor.endCall "call-9" CallMonitor.hangup 65999
                        (CallMonitor.addActiveCall callData 2000 Sample.flaggedCall) in
  CallMonitor.activeCalls st' = CallMonitor.activeCalls Sample.flaggedCall
  /\ CallMonitor.smsSent st' = CallMonitor.smsSent Sample.flaggedCall
  /\ CallMonitor.dbWrites st'
     = (CallMonitor.dbWrites Sample.flaggedCall
        ++ [ CallMonitor.SetSummary "call-9" "Call ringing"%string;
             CallMonitor.FinalUpdate "call-9" ((65999 - 2000) / 1000) ""%string false ])%list
  /\ exists startedCall endedCall,
       CallMonitor.emitted st'
       = (CallMonitor.emitted Sample.flaggedCall
          ++ [ (("company-" ++ "acme")%string, CallMonitor.call_started startedCall 2000);
               (("company-" ++ "acme")%string,
                CallMonitor.call_ended endedCall CallMonitor.hangup 65999) ])%list
       /\ CallMonitor.status startedCall = CallMonitor.ringing
       /\ CallMonitor.status endedCall = CallMonitor.ending
       /\ CallMonitor.duration endedCall = (65999 - 2000) / 1000.
Proof.
  apply (add_then_end_round_trip
           {| CallMonitor.cd_id := "call-9"; CallMonitor.cd_companyId := "acme";
              CallMonitor.cd_customerPhone := "+15550009" |}
           CallMonitor.hangup 2000 65999 Sample.flaggedCall).
  vm_compute. reflexivity.
Defined.

(** X18. No sequence of [updateCall], [handleVapiUpdate] and [endCall]
    operations puts a session into the registry: an id that is absent
    (never registered, or evicted) stays absent, so late events do not
    reinstate an ended call. *)
Theorem late_events_do_not_reinstate
        (ops : list CallMonitor.Op) (st : CallMonitor.State) (key : string) :
  CallMonitor.Map_get key (CallMonitor.activeCalls st) = None ->
  CallMonitor.Map_get key (CallMonitor.activeCalls (CallMonitor.run ops st)) = None
  /\ CallMonitorMore.getLiveTranscript key (CallMonitor.run ops st) = ""%string.
Proof.
  intros Hgone.
  assert (Hrun : CallMonitor.Map_get key (CallMonitor.activeCalls (CallMonitor.run ops st))
                 = None).
  { revert st Hgone. unfold CallMonitor.run.
    induction ops as [|op ops IH]; intros st Hgone; simpl; [exact Hgone|].
    apply IH. apply step_never_adds. exact Hgone. }
  split; [exact Hrun|]. unfold CallMonitorMore.getLiveTranscript. rewrite Hrun. reflexivity.
Qed.

Lemma late_events_do_not_reinstate_witness :
  let ended := CallMonitor.endCall "call-1" CallMonitor.hangup 9000 Sample.flaggedCall in
  CallMonitor.Map_get "call-1" (CallMonitor.activeCalls (CallMonitor.run Sample.laterOps ended))
  = None
  /\ CallMonitorMore.getLiveTranscript "call-1" (CallMonitor.run Sample.laterOps ended)
     = ""%string.
Proof.
  apply (late_events_do_not_reinstate
           Sample.laterOps
           (CallMonitor.endCall "call-1" CallMonitor.hangup 9000 Sample.flaggedCall)
           "call-1").
  vm_compute. reflexivity.
Defined.

(** X19. After [updateCall] on a registered call the session's duration
    is floor((now - startTime) / 1000) for the start time it then has: a
    [duration] carried by the update is overwritten, a [startTime]
    carried by it is used. *)
Theorem updateCall_recomputes_duration
        (callId : string) (updates : CallMonitor.PartialActiveCall) (now : Z)
        (st : CallMonitor.State) (call : CallMonitor.ActiveCall) :
  CallMonitor.Map_get callId (CallMonitor.activeCalls st) = Some call ->
  exists call',
    CallMonitor.Map_get callId
      (CallMonitor.activeCalls (CallMonitor.updateCall callId updates now st)) = Some call'
    /\ CallMonitor.startTime call'
       = CallMonitor.orElse (CallMonitor.u_startTime updates) (CallMonitor.startTime call)
    /\ CallMonitor.duration call' = (now - CallMonitor.startTime call') / 1000.
Proof.
  intros Hget. rewrite updateCall_get, Hget, String.eqb_refl. cbv zeta.
  eexists. split; [reflexivity|].
  destruct (CallMonitor.u_transcript updates) as [text|]; [|split; reflexivity].
  destruct (negb (String.eqb text "") && _)%bool; [|split; reflexivity].
  destruct (HVAC.detectEmergency text); split; reflexivity.
Qed.

Lemma updateCall_recomputes_duration_witness :
  exists call',
    CallMonitor.Map_get "call-1"
      (CallMonitor.activeCalls
         (CallMonitor.updateCall "call-1"
            {| CallMonitor.u_id := None; CallMonitor.u_companyId := None;
               CallMonitor.u_customerPhone := None; CallMonitor.u_status := None;
               CallMonitor.u_startTime := None; CallMonitor.u_duration := Some 999;
               CallMonitor.u_isEmergency := None; CallMonitor.u_transcript := None;
               CallMonitor.u_sentiment := None |}
            61000 Sample.ringingCall)) = Some call'
    /\ CallMonitor.startTime call' = CallMonitor.orElse None 1000
    /\ CallMonitor.duration call' = (61000 - CallMonitor.startTime call') / 1000.
Proof.
  refine (updateCall_recomputes_duration
            "call-1"
            {| CallMonitor.u_id := None; CallMonitor.u_companyId := None;
               CallMonitor.u_customerPhone := None; CallMonitor.u_status := None;
               CallMonitor.u_startTime := None; CallMonitor.u_duration := Some 999;
               CallMonitor.u_isEmergency := None; CallMonitor.u_transcript := None;
               CallMonitor.u_sentiment := None |}
            61000 Sample.ringingCall
            {| CallMonitor.id := "call-1"; CallMonitor.companyId := "acme";
               CallMonitor.customerPhone := "+15550001"; CallMonitor.status := CallMonitor.ringing;
               CallMonitor.startTime := 1000; CallMonitor.duration := 0;
               CallMonitor.isEmergency := false; CallMonitor.transcript := "";
               CallMonitor.sentiment := CallMonitor.neutral |}
            _).
  vm_compute. reflexivity.
Defined.

(* ================================================================= *)
(** ** Lead values and call summaries *)

Lemma valueOf_cases (service : string) :
  match Lead.valueOf service with
  | Some v => Js.inheritedKey service = false /\ 200 <= v <= 5000
  | None => Js.inheritedKey service = true
  end.
Proof.
  unfold Lead.valueOf, Js.getProperty, Lead.serviceValues, Js.lookup.
  repeat match goal with
         | |- context [String.eqb ?k service] =>
             destruct (String.eqb_spec k service) as [<-|_];
             [simpl; split; [reflexivity | lia]|]
         end.
  destruct (Js.inheritedKey service); [reflexivity | split; [reflexivity | lia]].
Qed.

Lemma valueOf_own (service : string) :
  Js.inheritedKey service = false ->
  exists v, Lead.valueOf service = Some v /\ 200 <= v <= 5000.
Proof.
  intros Hown. pose proof (valueOf_cases service) as H.
  destruct (Lead.valueOf service) as [v|]; [|congruence].
  exists v. split; [reflexivity | apply H].
Qed.

Lemma valueOf_inherited (service : string) :
  Js.inheritedKey service = true -> Lead.valueOf service = None.
Proof.
  intros Hin. pose proof (valueOf_cases service) as H.
  destruct (Lead.valueOf service) as [v|]; [|reflexivity].
  destruct H as [H _]. congruence.
Qed.

Lemma sumValues_text (serviceInterest : list string) :
  Lead.sumValues serviceInterest Lead.Text = Lead.Text.
Proof. induction serviceInterest as [|service rest IH]; [reflexivity | exact IH]. Qed.

Lemma sumValues_plain (serviceInterest : list string) :
  existsb Js.inheritedKey serviceInterest = false ->
  forall total,
    Lead.sumValues serviceInterest (Lead.Sum total)
    = Lead.Sum (total + Lead.plainSum serviceInterest).
Proof.
  induction serviceInterest as [|service rest IH]; intros Hown total.
  - cbn [Lead.sumValues Lead.plainSum fold_right]. f_equal. lia.
  - cbn [existsb] in Hown. apply orb_false_iff in Hown. destruct Hown as [Hs Hrest].
    destruct (valueOf_own service Hs) as [v [Hv _]].
    cbn [Lead.sumValues]. unfold Lead.plainSum. cbn [fold_right].
    fold (Lead.plainSum rest). rewrite Hv. cbn [Lead.plus].
    rewrite (IH Hrest). f_equal. lia.
Qed.

Lemma sumValues_inherited (serviceInterest : list string) :
  existsb Js.inheritedKey serviceInterest = true ->
  forall estimatedValue, Lead.sumValues serviceInterest estimatedValue = Lead.Text.
Proof.
  induction serviceInterest as [|service rest IH]; intros Hsome estimatedValue.
  - discriminate Hsome.
  - cbn [existsb] in Hsome. cbn [Lead.sumValues].
    destruct (Js.inheritedKey service) eqn:Hs.
    + rewrite (valueOf_inherited service Hs).
      destruct estimatedValue; cbn [Lead.plus]; apply sumValues_text.
    + apply IH. exact Hsome.
Qed.

Lemma plainSum_app (l1 l2 : list string) :
  Lead.plainSum (l1 ++ l2) = Lead.plainSum l1 + Lead.plainSum l2.
Proof.
  unfold Lead.plainSum. induction l1 as [|service rest IH]; [reflexivity|].
  change ((service :: rest) ++ l2)%list with (service :: (rest ++ l2)%list).
  cbn [fold_right]. rewrite IH. destruct (Lead.valueOf service); lia.
Qed.

Lemma plainSum_bounds (serviceInterest : list string) :
  existsb Js.inheritedKey serviceInterest = false ->
  200 * Z.of_nat (List.length serviceInterest)
  <= Lead.plainSum serviceInterest
  <= 5000 * Z.of_nat (List.length serviceInterest).
Proof.
  induction serviceInterest as [|service rest IH]; intros Hown; [simpl; lia|].
  cbn [existsb] in Hown. apply orb_false_iff in Hown. destruct Hown as [Hs Hrest].
  destruct (valueOf_own service Hs) as [v [Hv Hbounds]].
  unfold Lead.plainSum. cbn [fold_right List.length]. fold (Lead.plainSum rest).
  rewrite Hv. specialize (IH Hrest). lia.
Qed.

Lemma Math_round_integer (z : Z) : Js.Math_round (inject_Z z) = z.
Proof.
  unfold Js.Math_round. rewrite (Qfloor_comp _ ((2 * z + 1) # 2)).
  - unfold Qfloor. Z.to_euclidean_division_equations. lia.
  - unfold Qeq, Qplus, inject_Z. cbn [Qnum Qden]. lia.
Qed.

Lemma Math_round_three_halves (z : Z) :
  Js.Math_round (inject_Z z * (3 # 2)) = (3 * z + 1) / 2.
Proof.
  unfold Js.Math_round. rewrite (Qfloor_comp _ ((3 * z + 1) # 2)).
  - reflexivity.
  - unfold Qeq, Qplus, Qmult, inject_Z. cbn [Qnum Qden]. lia.
Qed.

(** X20. For a list none of whose services names a member inherited
    from [Object.prototype], [estimateLeadValue] adds up one value per
    listed service, each between 200 and 5000 (300 for a service that is
    not in the table), so the value is additive over the list and lies
    between 200 and 5000 times its length; notes that mention "emergency"
    in any capitalisation turn the sum s into round(1.5 s) =
    floor((3 s + 1) / 2). As soon as one listed service names an
    inherited member (constructor, toString, ...) the running value
    becomes a string and the result is [NaN]. *)
Theorem estimateLeadValue_sum_and_surcharge
        (serviceInterest more : list string) (notes : string) :
  let plain := Lead.plainSum serviceInterest in
  (existsb Js.inheritedKey serviceInterest = false ->
   200 * Z.of_nat (List.length serviceInterest) <= plain
                                                <= 5000 * Z.of_nat (List.length serviceInterest)
   /\ (Js.includes (Js.toLowerCase notes) "emergency" = false ->
       Lead.estimateLeadValue serviceInterest notes = Some plain)
   /\ (Js.includes (Js.toLowerCase notes) "emergency" = true ->
       Lead.estimateLeadValue serviceInterest notes = Some ((3 * plain + 1) / 2)))
  /\ (existsb Js.inheritedKey serviceInterest = true ->
      Lead.estimateLeadValue serviceInterest notes = None)
  /\ Lead.plainSum (serviceInterest ++ more) = plain + Lead.plainSum more
  /\ (forall service,
        Js.inheritedKey service = false ->
        exists v, Lead.valueOf service = Some v
                  /\ Lead.plainSum [service] = v
                  /\ 200 <= v <= 5000
                  /\ (Js.lookup service Lead.serviceValues = None -> v = 300))
  /\ Lead.estimateLeadValue ["jacuzzi"] "" = Some 300
  /\ Lead.estimateLeadValue ["heating"; "constructor"] "" = None.
Proof.
  cbv zeta. split; [|split; [|split; [apply plainSum_app|split]]].
  - intros Hown. split; [apply plainSum_bounds; exact Hown|].
    unfold Lead.estimateLeadValue. rewrite (sumValues_plain _ Hown 0). cbv zeta.
    rewrite Z.add_0_l.
    split; intros ->; f_equal; [apply Math_round_integer | apply Math_round_three_halves].
  - intros Hsome. unfold Lead.estimateLeadValue.
    rewrite (sumValues_inherited _ Hsome). reflexivity.
  - intros service Hown. destruct (valueOf_own service Hown) as [v [Hv Hbounds]].
    exists v. split; [exact Hv|]. split; [|split; [exact Hbounds|]].
    + unfold Lead.plainSum. cbn [fold_right]. rewrite Hv. lia.
    + intros Hmissing. unfold Lead.valueOf, Js.getProperty in Hv.
      rewrite Hmissing, Hown in Hv. congruence.
  - vm_compute. split; reflexivity.
Qed.

Lemma includes_concat (sep k : string) (l : list string) :
  In k l -> Js.includes (String.concat sep l) k = true.
Proof.
  induction l as [|x [|y rest] IH]; intros Hin.
  - destruct Hin.
  - destruct Hin as [->|[]]. apply includes_refl.
  - change (String.concat sep (x :: y :: rest))
      with (x ++ sep ++ String.concat sep (y :: rest))%string.
    destruct Hin as [->|Hin].
    + apply includes_app_l, includes_refl.
    + apply includes_app_r, includes_app_r, IH, Hin.
Qed.

(** X21. [generateCallSummary] never returns an empty summary; a
    transcript shorter than 10 characters gets the "no transcript" text;
    for a longer one the summary names every listed keyword that occurs in
    the transcript (in any capitalisation), and is "General inquiry call"
    when none occurs. *)
Theorem generateCallSummary_mentions_keywords (transcript : string) :
  Webhook.generateCallSummary transcript <> ""%string
  /\ ((String.length transcript < 10)%nat ->
      Webhook.generateCallSummary transcript
      = "Call completed - no transcript available"%string)
  /\ ((10 <= String.length transcript)%nat ->
      (forall keyword,
          In keyword Webhook.summaryKeywords ->
          Js.includes (Js.toLowerCase transcript) keyword = true ->
          Js.includes (Webhook.generateCallSummary transcript) keyword = true)
      /\ ((forall keyword,
              In keyword Webhook.summaryKeywords ->
              Js.includes (Js.toLowerCase transcript) keyword = false) ->
          Webhook.generateCallSummary transcript = "General inquiry call"%string)).
Proof.
  unfold Webhook.generateCallSummary. cbv zeta.
  set (found := filter (fun keyword => Js.includes (Js.toLowerCase transcript) keyword)
                       Webhook.summaryKeywords).
  destruct (Nat.ltb_spec (String.length transcript) 10) as [Hshort|Hlong].
  - split; [discriminate|]. split; [reflexivity | lia].
  - split; [destruct (List.length found =? 0)%nat; discriminate|].
    split; [lia|]. intros _. split.
    + intros keyword Hk Hinc.
      assert (Hfound : In keyword found) by (apply filter_In; auto).
      destruct found as [|x rest] eqn:Hf; [destruct Hfound|].
      cbn [List.length Nat.eqb]. apply includes_app_r.
      apply includes_concat. exact Hfound.
    + intros Hnone. destruct found as [|x rest] eqn:Hf; [reflexivity|].
      assert (Hx : In x found) by (rewrite Hf; left; reflexivity).
      apply filter_In in Hx. destruct Hx as [Hin Hinc].
      rewrite (Hnone x Hin) in Hinc. discriminate.
Qed.

(** X22. The service types extracted from a call summary, as
    [handleCallCompletion] does for the lead it creates, are only ever
    maintenance, installation or the general_hvac default: heating and
    cooling cannot be recognised from a summary. *)
Theorem extractServiceType_of_summary (transcript : string) :
  let services := HVAC.extractServiceType (Webhook.generateCallSummary transcript) in
  services = ["general_hvac"]
  \/ services = ["maintenance"]
  \/ services = ["installation"]
  \/ services = ["maintenance"; "installation"].
Proof.
  cbv zeta. unfold Webhook.generateCallSummary. cbv zeta.
  destruct (String.length transcript <? 10)%nat; [left; vm_compute; reflexivity|].
  unfold Webhook.summaryKeywords. cbn [filter].
  repeat match goal with
         | |- context [Js.includes (Js.toLowerCase transcript) ?k] =>
             destruct (Js.includes (Js.toLowerCase transcript) k)
         end;
    vm_compute; tauto.
Qed.

Example summary_loses_heating :
  let transcript := "My furnace needs repair, how much would that cost?" in
  HVAC.extractServiceType transcript = ["heating"; "cooling"]
  /\ Webhook.generateCallSummary transcript = "Call regarding: cost, repair"%string
  /\ HVAC.extractServiceType (Webhook.generateCallSummary transcript) = ["general_hvac"].
Proof. vm_compute. repeat split; reflexivity. Qed.

(* ================================================================= *)
(** ** Range of the next slot, and the live transcript *)

Lemma onGrid_range (now k r : Z) :
  0 <= k < 14 -> Appointment.onGrid (JsDate.addDays now k) r ->
  JsDate.setHours now 8 0 0 0 <= r < Appointment.fallbackSlot now.
Proof.
  intros Hk (j & Hj & ->). rewrite fallbackSlot_value.
  unfold JsDate.setHours, JsDate.startOfDay. rewrite dayIndex_addDays.
  unfold Appointment.stepMs, Appointment.slotInterval, JsDate.msPerHour,
    JsDate.msPerMinute, JsDate.msPerDay.
  nia.
Qed.

Lemma getNextAvailableSlot_day (db : Appointment.Store) (companyId : string)
      (priority : Priority) (now : Z) :
  Appointment.getNextAvailableSlot db companyId priority now = Appointment.fallbackSlot now
  \/ exists k, 0 <= k < 14
               /\ Appointment.onGrid (JsDate.addDays now k)
                    (Appointment.getNextAvailableSlot db companyId priority now)
               /\ (priority <> EMERGENCY -> JsDate.getDay (JsDate.addDays now k) <> 0).
Proof.
  unfold Appointment.getNextAvailableSlot.
  assert (Hstd : Appointment.standardSearch db companyId now = Appointment.fallbackSlot now
                 \/ exists k, 0 <= k < 14
                              /\ Appointment.onGrid (JsDate.addDays now k)
                                   (Appointment.standardSearch db companyId now)
                              /\ JsDate.getDay (JsDate.addDays now k) <> 0).
  { unfold Appointment.standardSearch.
    pose proof (searchDays_spec db companyId now 14 0) as Hspec.
    destruct (Appointment.searchDays db companyId now 14 0) as [r|]; [|left; reflexivity].
    destruct Hspec as (k & Hk & Hday & (rest & Hslots) & _).
    right. exists k. split; [simpl in Hk; lia|]. split; [|exact Hday].
    destruct (getAvailableSlots_spec db companyId (JsDate.addDays now k) 60)
      as (_ & _ & Hin).
    apply (proj1 (Hin r)). rewrite Hslots. left. reflexivity. }
  destruct priority; simpl Priority_eqb; cbv iota;
    try (destruct Hstd as [Hfb|(k & Hk & Hgrid & Hday)];
         [left; exact Hfb | right; exists k; auto]).
  pose proof (findEmergencySlot_spec db companyId now) as Hspec.
  destruct (Appointment.findEmergencySlot db companyId now) as [r|].
  - destruct Hspec as ((Hgrid & _) & _). right. exists 0. split; [lia|].
    split; [|congruence].
    replace (JsDate.addDays now 0) with now by (unfold JsDate.addDays; lia).
    exact Hgrid.
  - destruct Hstd as [Hfb|(k & Hk & Hgrid & Hday)];
      [left; exact Hfb | right; exists k; split; [exact Hk|]; split; [exact Hgrid|congruence]].
Qed.

(** X23. Whatever the priority, [getNextAvailableSlot] returns either the
    fallback (09:00 fourteen days ahead) or a half-hour slot between 08:00
    and 17:00 of one of the days 0..13 ahead; so the result is never
    earlier than 08:00 today (it can be earlier than now) and never later
    than the fallback, and outside the emergency path a slot that is not
    the fallback never falls on a Sunday. *)
Theorem getNextAvailableSlot_range
        (db : Appointment.Store) (companyId : string) (priority : Priority) (now : Z) :
  let r := Appointment.getNextAvailableSlot db companyId priority now in
  JsDate.setHours now 8 0 0 0 <= r <= Appointment.fallbackSlot now
  /\ (r = Appointment.fallbackSlot now
      \/ exists k, 0 <= k < 14 /\ Appointment.onGrid (JsDate.addDays now k) r)
  /\ (priority <> EMERGENCY -> r <> Appointment.fallbackSlot now -> JsDate.getDay r <> 0).
Proof.
  cbv zeta.
  destruct (getNextAvailableSlot_day db companyId priority now)
    as [Hfb|(k & Hk & Hgrid & Hday)].
  - rewrite Hfb. split; [|split; [left; reflexivity | congruence]].
    split; [|lia]. rewrite fallbackSlot_value.
    unfold JsDate.setHours, JsDate.msPerHour, JsDate.msPerMinute, JsDate.msPerDay. lia.
  - pose proof (onGrid_range now k _ Hk Hgrid) as Hrange.
    split; [lia|]. split; [right; exists k; auto|].
    intros Hprio _.
    rewrite (getDay_of_dayIndex _ _ (onGrid_same_day _ _ Hgrid)). exact (Hday Hprio).
Qed.

Example standard_search_can_return_the_past :
  Appointment.getNextAvailableSlot Sample.store "acme" MEDIUM (Sample.at_ Sample.friday 16 45)
  = Sample.at_ Sample.friday 10 0.
Proof. vm_compute. reflexivity. Qed.

Section LiveTranscript.
Import CallMonitor CallMonitorMore.

Lemma updateCall_transcript (callId : string) (updates : PartialActiveCall) (now : Z)
      (st : State) (call : ActiveCall) (key : string) :
  Map_get callId (activeCalls st) = Some call ->
  getLiveTranscript key (updateCall callId updates now st)
  = if String.eqb key callId
    then orElse (u_transcript updates) (transcript call)
    else getLiveTranscript key st.
Proof.
  intros Hget. unfold getLiveTranscript. rewrite updateCall_get, Hget. cbv zeta.
  destruct (String.eqb key callId); [|reflexivity].
  destruct (u_transcript updates) as [text|] eqn:Hu;
    [destruct (negb (String.eqb text "") && _)%bool;
     [destruct (HVAC.detectEmergency text)|]|];
    simpl; rewrite Hu; reflexivity.
Qed.

End LiveTranscript.

(** X24. In a well-keyed registry [handleVapiUpdate] appends a line
    "Customer: <content>" to the live transcript of the session it finds
    when the message comes from the user, and leaves that transcript as
    it is for any other role (assistant lines are not recorded); the live
    transcript of every other session is unchanged. *)
Theorem handleVapiUpdate_live_transcript
        (vapiCallId : string) (message : CallMonitor.Message) (now : Z)
        (st : CallMonitor.State) (call : CallMonitor.ActiveCall) (key : string) :
  CallMonitorMore.wellKeyed (CallMonitor.activeCalls st) ->
  CallMonitorMore.foundCall vapiCallId st = Some call ->
  CallMonitorMore.getLiveTranscript key
    (CallMonitor.handleVapiUpdate vapiCallId message now st)
  = if (String.eqb key (CallMonitor.id call)
        && String.eqb (CallMonitor.role message) "user")%bool
    then (CallMonitor.transcript call ++ CallMonitor.newline ++ "Customer: "
          ++ CallMonitor.content message)%string
    else CallMonitorMore.getLiveTranscript key st.
Proof.
  intros Hwk Hfound.
  pose proof (foundCall_get _ _ _ Hwk Hfound) as Hget.
  unfold CallMonitor.handleVapiUpdate.
  unfold CallMonitorMore.foundCall in Hfound. rewrite Hfound.
  destruct (String.eqb (CallMonitor.role message) "user").
  - rewrite (updateCall_transcript _ _ _ _ _ _ Hget). rewrite andb_true_r.
    destruct (String.eqb key (CallMonitor.id call)); reflexivity.
  - rewrite andb_false_r. reflexivity.
Qed.

Lemma handleVapiUpdate_live_transcript_witness :
  CallMonitorMore.getLiveTranscript "call-1"
    (CallMonitor.handleVapiUpdate "call-1"
       {| CallMonitor.role := "assistant"; CallMonitor.content := "How can I help?" |}
       3000 Sample.ringingCall)
  = if (String.eqb "call-1" "call-1" && String.eqb "assistant" "user")%bool
    then ("" ++ CallMonitor.newline ++ "Customer: " ++ "How can I help?")%string
    else CallMonitorMore.getLiveTranscript "call-1" Sample.ringingCall.
Proof.
  refine (handleVapiUpdate_live_transcript
            "call-1"
            {| CallMonitor.role := "assistant"; CallMonitor.content := "How can I help?" |}
            3000 Sample.ringingCall
            {| CallMonitor.id := "call-1"; CallMonitor.companyId := "acme";
               CallMonitor.customerPhone := "+15550001"; CallMonitor.status := CallMonitor.ringing;
               CallMonitor.startTime := 1000; CallMonitor.duration := 0;
               CallMonitor.isEmergency := false; CallMonitor.transcript := "";
               CallMonitor.sentiment := CallMonitor.neutral |}
            "call-1" _ _).
  - split.
    + simpl. constructor; [simpl; tauto | constructor].
    + simpl. constructor; [reflexivity | constructor].
  - vm_compute. reflexivity.
Defined.

Section ActiveCallsListing.
Import CallMonitor CallMonitorMore.

Lemma Map_set_fresh (m : CallMap) (key : string) (value : ActiveCall) :
  Map_get key m = None -> Map_set key value m = (m ++ [(key, value)])%list.
Proof.
  induction m as [|[k v] rest IH]; simpl; [reflexivity|].
  destruct (String.eqb k key); [discriminate|].
  intros H. rewrite (IH H). reflexivity.
Qed.

End ActiveCallsListing.

(** X25. A call registered under a fresh id is listed last by
    [getActiveCalls] for its own company, as a ringing session that
    started now with duration 0, no emergency and an empty transcript;
    the listing of every other company is unchanged. *)
Theorem addActiveCall_is_listed
        (callData : CallMonitor.CallData) (now : Z) (st : CallMonitor.State)
        (company : string) :
  CallMonitor.Map_get (CallMonitor.cd_id callData) (CallMonitor.activeCalls st) = None ->
  company <> ""%string ->
  CallMonitorMore.getActiveCalls (Some company) (CallMonitor.addActiveCall callData now st)
  = (CallMonitorMore.getActiveCalls (Some company) st
     ++ if String.eqb (CallMonitor.cd_companyId callData) company
        then [ {| CallMonitor.id := CallMonitor.cd_id callData;
                  CallMonitor.companyId := CallMonitor.cd_companyId callData;
                  CallMonitor.customerPhone := CallMonitor.cd_customerPhone callData;
                  CallMonitor.status := CallMonitor.ringing;
                  CallMonitor.startTime := now;
                  CallMonitor.duration := 0;
                  CallMonitor.isEmergency := false;
                  CallMonitor.transcript := ""%string;
                  CallMonitor.sentiment := CallMonitor.neutral |} ]
        else [])%list
  /\ CallMonitorMore.getLiveTranscript (CallMonitor.cd_id callData)
       (CallMonitor.addActiveCall callData now st) = ""%string.
Proof.
  intros Hfresh Hcompany. apply String.eqb_neq in Hcompany.
  unfold CallMonitorMore.getActiveCalls, CallMonitorMore.getLiveTranscript,
    CallMonitor.addActiveCall. cbv zeta. rewrite Hcompany.
  cbn [CallMonitor.activeCalls CallMonitor.query CallMonitor.emit CallMonitor.setCalls].
  split.
  - rewrite (Map_set_fresh _ _ _ Hfresh). unfold CallMonitor.Map_values.
    rewrite map_app, filter_app. cbn [map filter snd CallMonitor.companyId].
    destruct (String.eqb (CallMonitor.cd_companyId callData) company); reflexivity.
  - rewrite Map_get_set_same. reflexivity.
Qed.

Lemma addActiveCall_is_listed_witness :
  CallMonitorMore.getActiveCalls (Some "acme"%string)
    (CallMonitor.addActiveCall
       {| CallMonitor.cd_id := "call-2"; CallMonitor.cd_companyId := "acme";
          CallMonitor.cd_customerPhone := "+15550002" |} 7000 Sample.flaggedCall)
  = (CallMonitorMore.getActiveCalls (Some "acme"%string) Sample.flaggedCall
     ++ if String.eqb "acme" "acme"
        then [ {| CallMonitor.id := "call-2"; CallMonitor.companyId := "acme";
                  CallMonitor.customerPhone := "+15550002";
                  CallMonitor.status := CallMonitor.ringing;
                  CallMonitor.startTime := 7000; CallMonitor.duration := 0;
                  CallMonitor.isEmergency := false; CallMonitor.transcript := ""%string;
                  CallMonitor.sentiment := CallMonitor.neutral |} ]
        else [])%list
  /\ CallMonitorMore.getLiveTranscript "call-2"
       (CallMonitor.addActiveCall
          {| CallMonitor.cd_id := "call-2"; CallMonitor.cd_companyId := "acme";
             CallMonitor.cd_customerPhone := "+15550002" |} 7000 Sample.flaggedCall)
     = ""%string.
Proof.
  apply (addActiveCall_is_listed
           {| CallMonitor.cd_id := "call-2"; CallMonitor.cd_companyId := "acme";
              CallMonitor.cd_customerPhone := "+15550002" |}
           7000 Sample.flaggedCall "acme").
  - vm_compute. reflexivity.
  - discriminate.
Defined.
